(** * FraudProfile: the profile/metrics engine and the anomaly scorer

    A shallow embedding of [proposed_solution/fraud_profile.py],
    [proposed_solution/anomaly_detector.py] and [proposed_solution/api.py],
    and the properties of the specification checked against it.

    Conventions of the embedding.
    - A Python [int] is a [Z]; a Python [float] is idealised as an exact
      rational [Q] (the statements about means and scores are meant "within
      floating tolerance").
    - A Python [dict] with string keys is an association list, in insertion
      order, read by its first binding.
    - A method is a state transformer that may raise: it returns the state as
      the exception left it, so the mutations done before a [raise] stay
      visible, as they do on the Python object.
    - The directory [profiles/] is a finite map from file names to contents;
      a file holds a JSON document or broken text.
    - [datetime.now()] reads a clock that is part of the world.
    - scikit-learn's estimators are parameters of the detector.
    - An endpoint answers the JSON encoding of what its function returns,
      or the status code of the error. *)

From Stdlib Require Import ZArith QArith Qround Qabs Lqa Ascii String List Lia Bool.
From stdpp Require Import gmap strings.

Local Open Scope string_scope.
Local Open Scope Z_scope.

(** ** Exceptions *)

Inductive exn :=
| KeyError (k : string)
| ValueError
| TypeError
| ZeroDivisionError
| FileNotFoundError
| JSONDecodeError
| NotFittedError
| AttributeError.

(** ** [datetime]

    A naive [datetime] is its seven fields, as in CPython.  Subtraction goes
    through the proleptic Gregorian ordinal ([_ymd2ord] of [datetime.py]). *)

Module Datetime.

Record datetime := mk_datetime {
  year : Z; month : Z; day : Z;
  hour : Z; minute : Z; second : Z; microsecond : Z }.

Definition _is_leap (y : Z) : bool :=
  (y mod 4 =? 0) && (negb (y mod 100 =? 0) || (y mod 400 =? 0)).

Definition _days_before_year (y : Z) : Z :=
  let y' := y - 1 in y' * 365 + y' / 4 - y' / 100 + y' / 400.

Definition _DAYS_IN_MONTH : list Z :=
  [31; 28; 31; 30; 31; 30; 31; 31; 30; 31; 30; 31].

Definition _days_in_month (y m : Z) : Z :=
  if (m =? 2) && _is_leap y then 29
  else nth (Z.to_nat (m - 1)) _DAYS_IN_MONTH 0.

Definition _days_before_month (y m : Z) : Z :=
  fold_right Z.add 0 (firstn (Z.to_nat (m - 1)) _DAYS_IN_MONTH)
  + (if (2 <? m) && _is_leap y then 1 else 0).

Definition _ymd2ord (y m d : Z) : Z :=
  _days_before_year y + _days_before_month y m + d.

Definition toordinal (t : datetime) : Z := _ymd2ord (year t) (month t) (day t).

(** [_check_date_fields] and [_check_time_fields]. *)
Definition valid (t : datetime) : bool :=
  (1 <=? year t) && (year t <=? 9999)
  && (1 <=? month t) && (month t <=? 12)
  && (1 <=? day t) && (day t <=? _days_in_month (year t) (month t))
  && (0 <=? hour t) && (hour t <=? 23)
  && (0 <=? minute t) && (minute t <=? 59)
  && (0 <=? second t) && (second t <=? 59)
  && (0 <=? microsecond t) && (microsecond t <=? 999999).

(** A [timedelta] is kept as its total number of microseconds. *)
Definition timedelta := Z.

(** [datetime.__sub__] *)
Definition sub (a b : datetime) : timedelta :=
  let secs t := second t + minute t * 60 + hour t * 3600 in
  ((toordinal a - toordinal b) * 86400 + (secs a - secs b)) * 1000000
  + (microsecond a - microsecond b).

(** [timedelta.total_seconds] *)
Definition total_seconds (d : timedelta) : Q := d # 1000000.

(** *** ISO 8601 text *)

Definition digit_char (d : Z) : ascii := ascii_of_N (Z.to_N (48 + d)).

Definition digit_val (c : ascii) : option Z :=
  let n := Z.of_N (N_of_ascii c) in
  if (48 <=? n) && (n <=? 57) then Some (n - 48) else None.

(** [n] decimal digits of [z], most significant first ("%0nd"). *)
Fixpoint pad (n : nat) (z : Z) : string :=
  match n with
  | O => EmptyString
  | S n' => String (digit_char (z / 10 ^ Z.of_nat n'))
                   (pad n' (z mod 10 ^ Z.of_nat n'))
  end.

(** [datetime.isoformat()]: the fraction is printed only when it is not 0. *)
Definition isoformat (t : datetime) : string :=
  pad 4 (year t) +:+ "-" +:+ pad 2 (month t) +:+ "-" +:+ pad 2 (day t)
  +:+ "T" +:+ pad 2 (hour t) +:+ ":" +:+ pad 2 (minute t)
  +:+ ":" +:+ pad 2 (second t)
  +:+ (if microsecond t =? 0 then "" else "." +:+ pad 6 (microsecond t)).

Fixpoint take_digits (n : nat) (acc : Z) (s : string) : option (Z * string) :=
  match n with
  | O => Some (acc, s)
  | S n' =>
      match s with
      | String c r => d ← digit_val c; take_digits n' (acc * 10 + d) r
      | EmptyString => None
      end
  end.

Definition expect (c : ascii) (s : string) : option string :=
  match s with
  | String c' r => if Ascii.eqb c c' then Some r else None
  | EmptyString => None
  end.

(** Any one character: the separator between the date and the time. *)
Definition any_char (s : string) : option string :=
  match s with
  | String _ r => Some r
  | EmptyString => None
  end.

(** The fraction of a second: six digits, or three (milliseconds). *)
Definition parse_fraction (s : string) : option (Z * string) :=
  match take_digits 6 0 s with
  | Some (us, EmptyString) => Some (us, EmptyString)
  | _ => '(ms, s') ← take_digits 3 0 s; Some (ms * 1000, s')
  end.

(** [datetime.fromisoformat] on a string: [YYYY-MM-DD], one separator
    character, [HH:MM:SS], and an optional fraction.  These are the texts
    [isoformat] writes, with any separator.  The layouts Python reads
    besides (a date alone, a time cut short after the hour or the minute, a
    UTC offset) are read as malformed here. *)
Definition parse_iso (s : string) : option datetime :=
  '(y, s) ← take_digits 4 0 s; s ← expect "-" s;
  '(mo, s) ← take_digits 2 0 s; s ← expect "-" s;
  '(d, s) ← take_digits 2 0 s; s ← any_char s;
  '(h, s) ← take_digits 2 0 s; s ← expect ":" s;
  '(mi, s) ← take_digits 2 0 s; s ← expect ":" s;
  '(se, s) ← take_digits 2 0 s;
  '(us, s) ← match s with
             | EmptyString => Some (0, s)
             | _ => s ← expect "." s; parse_fraction s
             end;
  match s with
  | EmptyString =>
      let t := mk_datetime y mo d h mi se us in
      if valid t then Some t else None
  | _ => None
  end.

End Datetime.

Import Datetime.

(** ** Python values

    What an event payload, a history entry or a JSON document may hold.  A
    [datetime] object is a value too, but not one [json] can write. *)

#[local] Set Warnings "-register-all".
Inductive pyval :=
| VNone
| VBool (b : bool)
| VInt (z : Z)
| VFloat (q : Q)
| VStr (s : string)
| VDatetime (t : datetime)
| VList (l : list pyval)
| VDict (d : list (string * pyval)).

Abbreviation dict := (list (string * pyval)).
Abbreviation result A := (exn + A)%type.

Fixpoint dict_get (k : string) (d : dict) : option pyval :=
  match d with
  | [] => None
  | (k', v) :: r => if String.eqb k k' then Some v else dict_get k r
  end.

(** [d[k]] on a dict *)
Definition dict_item (k : string) (d : dict) : result pyval :=
  match dict_get k d with
  | Some v => inr v
  | None => inl (KeyError k)
  end.

(** [v[k]] on any value: only a dict can be indexed by a string. *)
Definition getitem (v : pyval) (k : string) : result pyval :=
  match v with
  | VDict d => dict_item k d
  | _ => inl TypeError
  end.

(** [d.get(k, default)] *)
Definition dict_get_default (k : string) (default : pyval) (d : dict) : pyval :=
  match dict_get k d with
  | Some v => v
  | None => default
  end.

(** [v.get(k, default)] on any value: only a dict has [get]. *)
Definition py_get (v : pyval) (k : string) (default : pyval) : result pyval :=
  match v with
  | VDict d => inr (dict_get_default k default d)
  | _ => inl AttributeError
  end.

(** [v == s] for a string literal [s] *)
Definition eq_str (v : pyval) (s : string) : bool :=
  match v with
  | VStr s' => String.eqb s' s
  | _ => false
  end.

(** Truth value of an object, as [if v:] tests it. *)
Definition truthy (v : pyval) : bool :=
  match v with
  | VNone => false
  | VBool b => b
  | VInt z => negb (z =? 0)
  | VFloat q => negb (Qeq_bool q 0)
  | VStr s => negb (String.eqb s "")
  | VDatetime _ => true
  | VList l => match l with [] => false | _ => true end
  | VDict d => match d with [] => false | _ => true end
  end.

(** [hash(v)] exists: lists and dicts are unhashable. *)
Definition hashable (v : pyval) : bool :=
  match v with
  | VList _ | VDict _ => false
  | _ => true
  end.

(** [len(set([v]))] *)
Definition len_set_singleton (v : pyval) : result Z :=
  if hashable v then inr 1 else inl TypeError.

(** A number as numpy and arithmetic read it. *)
Definition as_number (v : pyval) : result Q :=
  match v with
  | VInt z => inr (inject_Z z)
  | VFloat q => inr q
  | VBool b => inr (if b then 1%Q else 0%Q)
  | _ => inl TypeError
  end.

(** The digits a text starts with: their value after [acc], how many there
    are, and the rest of the text. *)
Fixpoint read_digits (s : string) (acc : Z) : Z * nat * string :=
  match s with
  | String c r =>
      match digit_val c with
      | Some d => let '(v, n, rest) := read_digits r (acc * 10 + d) in (v, S n, rest)
      | None => (acc, O, s)
      end
  | EmptyString => (acc, O, s)
  end.

(** A decimal literal: an optional sign, digits, and an optional point
    followed by digits, with a digit on at least one side of the point. *)
Definition parse_decimal (s : string) : option Q :=
  let '(negative, s) :=
    match s with
    | String "-" r => (true, r)
    | String "+" r => (false, r)
    | _ => (false, s)
    end in
  let '(whole, n, s) := read_digits s 0 in
  let '(digits, k, s) :=
    match s with
    | String "." r => read_digits r whole
    | _ => (whole, O, s)
    end in
  match s with
  | EmptyString =>
      if (0 <? n + k)%nat
      then Some ((if negative then - digits else digits) # Z.to_pos (10 ^ Z.of_nat k))
      else None
  | _ => None
  end.

(** [float(v)].  Of the texts [float] reads, the decimal literals are
    modelled; an exponent, surrounding blanks, underscores, [inf] and [nan]
    are read as malformed. *)
Definition py_float (v : pyval) : result Q :=
  match v with
  | VStr s => match parse_decimal s with
              | Some q => inr q
              | None => inl ValueError
              end
  | _ => as_number v
  end.

(** [datetime.fromisoformat(v)] *)
Definition fromisoformat (v : pyval) : result datetime :=
  match v with
  | VStr s => match parse_iso s with
              | Some t => inr t
              | None => inl ValueError
              end
  | _ => inl TypeError
  end.

(** [a - b] where [a] is a [datetime] *)
Definition datetime_sub (a : datetime) (b : pyval) : result timedelta :=
  match b with
  | VDatetime t => inr (Datetime.sub a t)
  | _ => inl TypeError
  end.

(** [json] writes everything but [datetime] objects. *)
Fixpoint json_serializable (v : pyval) : bool :=
  match v with
  | VDatetime _ => false
  | VList l => forallb json_serializable l
  | VDict d => forallb (fun kv => json_serializable (snd kv)) d
  | _ => true
  end.

(** *** Float helpers *)

(** [min(1.0, x)]: Python keeps the first argument unless the second is
    strictly smaller. *)
Definition min1 (x : Q) : Q := if Qle_bool 1 x then 1%Q else x.

(** [max(a, b)]: Python keeps the first argument unless the second is
    strictly greater. *)
Definition py_max (a b : Q) : Q := if Qle_bool b a then a else b.

(** [a / b] on floats *)
Definition py_div (a b : Q) : result Q :=
  if Qeq_bool b 0 then inl ZeroDivisionError else inr (a / b)%Q.

(** Square root, to 32 fractional bits (numpy rounds to a double). *)
Definition sqrt_float (q : Q) : Q :=
  Z.sqrt (Qnum q * 2 ^ 64 / Z.pos (Qden q)) # 2 ^ 32.

Definition Qsum (l : list Q) : Q := fold_right Qplus 0%Q l.

Definition mean (l : list Q) : Q := (Qsum l / inject_Z (Z.of_nat (length l)))%Q.

(** [np.std]: the population standard deviation. *)
Definition np_std (l : list Q) : Q :=
  let m := mean l in
  sqrt_float (mean (map (fun x => (x - m) * (x - m))%Q l)).

(** ** A method's effect: state, and an exception or a value *)

Definition M (S A : Type) : Type := S -> S * result A.

Definition ret {S A} (a : A) : M S A := fun s => (s, inr a).
Definition raise {S A} (e : exn) : M S A := fun s => (s, inl e).
Definition lift {S A} (r : result A) : M S A := fun s => (s, r).
Definition bind {S A B} (m : M S A) (k : A -> M S B) : M S B :=
  fun s => match m s with
           | (s', inr a) => k a s'
           | (s', inl e) => (s', inl e)
           end.
Definition gets {S A} (f : S -> A) : M S A := fun s => (s, inr (f s)).
Definition modify {S} (f : S -> S) : M S unit := fun s => (f s, inr tt).

Declare Scope py_scope.
Delimit Scope py_scope with py.
Notation "x <- m ;; k" := (bind m (fun x => k))
  (at level 100, m at next level, right associativity) : py_scope.
Notation "m ;; k" := (bind m (fun _ => k))
  (at level 100, right associativity) : py_scope.

(** A list comprehension with a filter that may raise: the number of
    elements kept ([len([x for x in l if keep x])]). *)
Fixpoint count_if {A} (keep : A -> result bool) (l : list A) : result Z :=
  match l with
  | [] => inr 0
  | x :: r =>
      match keep x with
      | inl e => inl e
      | inr b =>
          match count_if keep r with
          | inl e => inl e
          | inr n => inr ((if b then 1 else 0) + n)
          end
      end
  end.

(** [[f x for x in l]] where [f] may raise *)
Fixpoint map_result {A B} (f : A -> result B) (l : list A) : result (list B) :=
  match l with
  | [] => inr []
  | x :: r =>
      match f x with
      | inl e => inl e
      | inr y =>
          match map_result f r with
          | inl e => inl e
          | inr ys => inr (y :: ys)
          end
      end
  end.

(** [result] as a monad, for stdpp's [x ← r; k]. *)
#[global] Instance result_ret : MRet (sum exn) := fun A a => inr a.
#[global] Instance result_bind : MBind (sum exn) :=
  fun A B f r => match r with inl e => inl e | inr a => f a end.

(** A typed field read back from JSON.  The dataclasses do not check their
    arguments; the model keeps the fields typed and takes a value of another
    type as a [TypeError]. *)
Definition as_int (v : pyval) : result Z :=
  match v with
  | VInt z => inr z
  | _ => inl TypeError
  end.

(** ** The metric groups (the dataclasses of [fraud_profile.py]) *)

Record LoginMetrics := {
  total_logins : Z;
  unique_devices : Z;
  unique_ips : Z;
  unique_locations : Z;
  avg_login_interval : Q;
  last_login_time : pyval;
  login_velocity_24h : Z;
  login_velocity_7d : Z;
  suspicious_login_count : Z }.

(** [LoginMetrics()] *)
Definition LoginMetrics_default : LoginMetrics :=
  {| total_logins := 0;
     unique_devices := 0;
     unique_ips := 0;
     unique_locations := 0;
     avg_login_interval := 0%Q;
     last_login_time := VNone;
     login_velocity_24h := 0;
     login_velocity_7d := 0;
     suspicious_login_count := 0 |}.

Definition set_total_logins (v : Z) (m : LoginMetrics) : LoginMetrics :=
  {| total_logins := v;
     unique_devices := unique_devices m;
     unique_ips := unique_ips m;
     unique_locations := unique_locations m;
     avg_login_interval := avg_login_interval m;
     last_login_time := last_login_time m;
     login_velocity_24h := login_velocity_24h m;
     login_velocity_7d := login_velocity_7d m;
     suspicious_login_count := suspicious_login_count m |}.

Definition set_unique_devices (v : Z) (m : LoginMetrics) : LoginMetrics :=
  {| total_logins := total_logins m;
     unique_devices := v;
     unique_ips := unique_ips m;
     unique_locations := unique_locations m;
     avg_login_interval := avg_login_interval m;
     last_login_time := last_login_time m;
     login_velocity_24h := login_velocity_24h m;
     login_velocity_7d := login_velocity_7d m;
     suspicious_login_count := suspicious_login_count m |}.

Definition set_unique_ips (v : Z) (m : LoginMetrics) : LoginMetrics :=
  {| total_logins := total_logins m;
     unique_devices := unique_devices m;
     unique_ips := v;
     unique_locations := unique_locations m;
     avg_login_interval := avg_login_interval m;
     last_login_time := last_login_time m;
     login_velocity_24h := login_velocity_24h m;
     login_velocity_7d := login_velocity_7d m;
     suspicious_login_count := suspicious_login_count m |}.

Definition set_unique_locations (v : Z) (m : LoginMetrics) : LoginMetrics :=
  {| total_logins := total_logins m;
     unique_devices := unique_devices m;
     unique_ips := unique_ips m;
     unique_locations := v;
     avg_login_interval := avg_login_interval m;
     last_login_time := last_login_time m;
     login_velocity_24h := login_velocity_24h m;
     login_velocity_7d := login_velocity_7d m;
     suspicious_login_count := suspicious_login_count m |}.

Definition set_avg_login_interval (v : Q) (m : LoginMetrics) : LoginMetrics :=
  {| total_logins := total_logins m;
     unique_devices := unique_devices m;
     unique_ips := unique_ips m;
     unique_locations := unique_locations m;
     avg_login_interval := v;
     last_login_time := last_login_time m;
     login_velocity_24h := login_velocity_24h m;
     login_velocity_7d := login_velocity_7d m;
     suspicious_login_count := suspicious_login_count m |}.

Definition set_last_login_time (v : pyval) (m : LoginMetrics) : LoginMetrics :=
  {| total_logins := total_logins m;
     unique_devices := unique_devices m;
     unique_ips := unique_ips m;
     unique_locations := unique_locations m;
     avg_login_interval := avg_login_interval m;
     last_login_time := v;
     login_velocity_24h := login_velocity_24h m;
     login_velocity_7d := login_velocity_7d m;
     suspicious_login_count := suspicious_login_count m |}.

Definition set_login_velocity_24h (v : Z) (m : LoginMetrics) : LoginMetrics :=
  {| total_logins := total_logins m;
     unique_devices := unique_devices m;
     unique_ips := unique_ips m;
     unique_locations := unique_locations m;
     avg_login_interval := avg_login_interval m;
     last_login_time := last_login_time m;
     login_velocity_24h := v;
     login_velocity_7d := login_velocity_7d m;
     suspicious_login_count := suspicious_login_count m |}.

Definition set_login_velocity_7d (v : Z) (m : LoginMetrics) : LoginMetrics :=
  {| total_logins := total_logins m;
     unique_devices := unique_devices m;
     unique_ips := unique_ips m;
     unique_locations := unique_locations m;
     avg_login_interval := avg_login_interval m;
     last_login_time := last_login_time m;
     login_velocity_24h := login_velocity_24h m;
     login_velocity_7d := v;
     suspicious_login_count := suspicious_login_count m |}.

Definition set_suspicious_login_count (v : Z) (m : LoginMetrics) : LoginMetrics :=
  {| total_logins := total_logins m;
     unique_devices := unique_devices m;
     unique_ips := unique_ips m;
     unique_locations := unique_locations m;
     avg_login_interval := avg_login_interval m;
     last_login_time := last_login_time m;
     login_velocity_24h := login_velocity_24h m;
     login_velocity_7d := login_velocity_7d m;
     suspicious_login_count := v |}.

(** [m.__dict__] *)
Definition LoginMetrics_dict (m : LoginMetrics) : dict :=
  [("total_logins", VInt (total_logins m));
   ("unique_devices", VInt (unique_devices m));
   ("unique_ips", VInt (unique_ips m));
   ("unique_locations", VInt (unique_locations m));
   ("avg_login_interval", VFloat (avg_login_interval m));
   ("last_login_time", (last_login_time m));
   ("login_velocity_24h", VInt (login_velocity_24h m));
   ("login_velocity_7d", VInt (login_velocity_7d m));
   ("suspicious_login_count", VInt (suspicious_login_count m))].

(** One keyword argument of the constructor; a keyword that is no field
    is a [TypeError]. *)
Definition LoginMetrics_kwarg (k : string) (v : pyval) (m : LoginMetrics) : result LoginMetrics :=
  if String.eqb k "total_logins" then x ← as_int v; inr (set_total_logins x m) else
  if String.eqb k "unique_devices" then x ← as_int v; inr (set_unique_devices x m) else
  if String.eqb k "unique_ips" then x ← as_int v; inr (set_unique_ips x m) else
  if String.eqb k "unique_locations" then x ← as_int v; inr (set_unique_locations x m) else
  if String.eqb k "avg_login_interval" then x ← as_number v; inr (set_avg_login_interval x m) else
  if String.eqb k "last_login_time" then x ← inr v; inr (set_last_login_time x m) else
  if String.eqb k "login_velocity_24h" then x ← as_int v; inr (set_login_velocity_24h x m) else
  if String.eqb k "login_velocity_7d" then x ← as_int v; inr (set_login_velocity_7d x m) else
  if String.eqb k "suspicious_login_count" then x ← as_int v; inr (set_suspicious_login_count x m) else
  inl TypeError.

(** [LoginMetrics] built from the keywords of a dict *)
Definition LoginMetrics_of_dict (d : dict) : result LoginMetrics :=
  fold_left (fun acc kv => m ← acc; LoginMetrics_kwarg (fst kv) (snd kv) m) d (inr LoginMetrics_default).

Record TransactionMetrics := {
  total_transactions : Z;
  total_amount : Q;
  avg_amount : Q;
  max_amount : Q;
  unique_merchants : Z;
  transaction_velocity_24h : Z;
  transaction_velocity_7d : Z;
  suspicious_transaction_count : Z }.

(** [TransactionMetrics()] *)
Definition TransactionMetrics_default : TransactionMetrics :=
  {| total_transactions := 0;
     total_amount := 0%Q;
     avg_amount := 0%Q;
     max_amount := 0%Q;
     unique_merchants := 0;
     transaction_velocity_24h := 0;
     transaction_velocity_7d := 0;
     suspicious_transaction_count := 0 |}.

Definition set_total_transactions (v : Z) (m : TransactionMetrics) : TransactionMetrics :=
  {| total_transactions := v;
     total_amount := total_amount m;
     avg_amount := avg_amount m;
     max_amount := max_amount m;
     unique_merchants := unique_merchants m;
     transaction_velocity_24h := transaction_velocity_24h m;
     transaction_velocity_7d := transaction_velocity_7d m;
     suspicious_transaction_count := suspicious_transaction_count m |}.

Definition set_total_amount (v : Q) (m : TransactionMetrics) : TransactionMetrics :=
  {| total_transactions := total_transactions m;
     total_amount := v;
     avg_amount := avg_amount m;
     max_amount := max_amount m;
     unique_merchants := unique_merchants m;
     transaction_velocity_24h := transaction_velocity_24h m;
     transaction_velocity_7d := transaction_velocity_7d m;
     suspicious_transaction_count := suspicious_transaction_count m |}.

Definition set_avg_amount (v : Q) (m : TransactionMetrics) : TransactionMetrics :=
  {| total_transactions := total_transactions m;
     total_amount := total_amount m;
     avg_amount := v;
     max_amount := max_amount m;
     unique_merchants := unique_merchants m;
     transaction_velocity_24h := transaction_velocity_24h m;
     transaction_velocity_7d := transaction_velocity_7d m;
     suspicious_transaction_count := suspicious_transaction_count m |}.

Definition set_max_amount (v : Q) (m : TransactionMetrics) : TransactionMetrics :=
  {| total_transactions := total_transactions m;
     total_amount := total_amount m;
     avg_amount := avg_amount m;
     max_amount := v;
     unique_merchants := unique_merchants m;
     transaction_velocity_24h := transaction_velocity_24h m;
     transaction_velocity_7d := transaction_velocity_7d m;
     suspicious_transaction_count := suspicious_transaction_count m |}.

Definition set_unique_merchants (v : Z) (m : TransactionMetrics) : TransactionMetrics :=
  {| total_transactions := total_transactions m;
     total_amount := total_amount m;
     avg_amount := avg_amount m;
     max_amount := max_amount m;
     unique_merchants := v;
     transaction_velocity_24h := transaction_velocity_24h m;
     transaction_velocity_7d := transaction_velocity_7d m;
     suspicious_transaction_count := suspicious_transaction_count m |}.

Definition set_transaction_velocity_24h (v : Z) (m : TransactionMetrics) : TransactionMetrics :=
  {| total_transactions := total_transactions m;
     total_amount := total_amount m;
     avg_amount := avg_amount m;
     max_amount := max_amount m;
     unique_merchants := unique_merchants m;
     transaction_velocity_24h := v;
     transaction_velocity_7d := transaction_velocity_7d m;
     suspicious_transaction_count := suspicious_transaction_count m |}.

Definition set_transaction_velocity_7d (v : Z) (m : TransactionMetrics) : TransactionMetrics :=
  {| total_transactions := total_transactions m;
     total_amount := total_amount m;
     avg_amount := avg_amount m;
     max_amount := max_amount m;
     unique_merchants := unique_merchants m;
     transaction_velocity_24h := transaction_velocity_24h m;
     transaction_velocity_7d := v;
     suspicious_transaction_count := suspicious_transaction_count m |}.

Definition set_suspicious_transaction_count (v : Z) (m : TransactionMetrics) : TransactionMetrics :=
  {| total_transactions := total_transactions m;
     total_amount := total_amount m;
     avg_amount := avg_amount m;
     max_amount := max_amount m;
     unique_merchants := unique_merchants m;
     transaction_velocity_24h := transaction_velocity_24h m;
     transaction_velocity_7d := transaction_velocity_7d m;
     suspicious_transaction_count := v |}.

(** [m.__dict__] *)
Definition TransactionMetrics_dict (m : TransactionMetrics) : dict :=
  [("total_transactions", VInt (total_transactions m));
   ("total_amount", VFloat (total_amount m));
   ("avg_amount", VFloat (avg_amount m));
   ("max_amount", VFloat (max_amount m));
   ("unique_merchants", VInt (unique_merchants m));
   ("transaction_velocity_24h", VInt (transaction_velocity_24h m));
   ("transaction_velocity_7d", VInt (transaction_velocity_7d m));
   ("suspicious_transaction_count", VInt (suspicious_transaction_count m))].

(** One keyword argument of the constructor; a keyword that is no field
    is a [TypeError]. *)
Definition TransactionMetrics_kwarg (k : string) (v : pyval) (m : TransactionMetrics) : result TransactionMetrics :=
  if String.eqb k "total_transactions" then x ← as_int v; inr (set_total_transactions x m) else
  if String.eqb k "total_amount" then x ← as_number v; inr (set_total_amount x m) else
  if String.eqb k "avg_amount" then x ← as_number v; inr (set_avg_amount x m) else
  if String.eqb k "max_amount" then x ← as_number v; inr (set_max_amount x m) else
  if String.eqb k "unique_merchants" then x ← as_int v; inr (set_unique_merchants x m) else
  if String.eqb k "transaction_velocity_24h" then x ← as_int v; inr (set_transaction_velocity_24h x m) else
  if String.eqb k "transaction_velocity_7d" then x ← as_int v; inr (set_transaction_velocity_7d x m) else
  if String.eqb k "suspicious_transaction_count" then x ← as_int v; inr (set_suspicious_transaction_count x m) else
  inl TypeError.

(** [TransactionMetrics] built from the keywords of a dict *)
Definition TransactionMetrics_of_dict (d : dict) : result TransactionMetrics :=
  fold_left (fun acc kv => m ← acc; TransactionMetrics_kwarg (fst kv) (snd kv) m) d (inr TransactionMetrics_default).

Record SessionMetrics := {
  total_sessions : Z;
  avg_session_duration : Q;
  max_session_duration : Q;
  session_velocity_24h : Z;
  session_velocity_7d : Z }.

(** [SessionMetrics()] *)
Definition SessionMetrics_default : SessionMetrics :=
  {| total_sessions := 0;
     avg_session_duration := 0%Q;
     max_session_duration := 0%Q;
     session_velocity_24h := 0;
     session_velocity_7d := 0 |}.

Definition set_total_sessions (v : Z) (m : SessionMetrics) : SessionMetrics :=
  {| total_sessions := v;
     avg_session_duration := avg_session_duration m;
     max_session_duration := max_session_duration m;
     session_velocity_24h := session_velocity_24h m;
     session_velocity_7d := session_velocity_7d m |}.

Definition set_avg_session_duration (v : Q) (m : SessionMetrics) : SessionMetrics :=
  {| total_sessions := total_sessions m;
     avg_session_duration := v;
     max_session_duration := max_session_duration m;
     session_velocity_24h := session_velocity_24h m;
     session_velocity_7d := session_velocity_7d m |}.

Definition set_max_session_duration (v : Q) (m : SessionMetrics) : SessionMetrics :=
  {| total_sessions := total_sessions m;
     avg_session_duration := avg_session_duration m;
     max_session_duration := v;
     session_velocity_24h := session_velocity_24h m;
     session_velocity_7d := session_velocity_7d m |}.

Definition set_session_velocity_24h (v : Z) (m : SessionMetrics) : SessionMetrics :=
  {| total_sessions := total_sessions m;
     avg_session_duration := avg_session_duration m;
     max_session_duration := max_session_duration m;
     session_velocity_24h := v;
     session_velocity_7d := session_velocity_7d m |}.

Definition set_session_velocity_7d (v : Z) (m : SessionMetrics) : SessionMetrics :=
  {| total_sessions := total_sessions m;
     avg_session_duration := avg_session_duration m;
     max_session_duration := max_session_duration m;
     session_velocity_24h := session_velocity_24h m;
     session_velocity_7d := v |}.

(** [m.__dict__] *)
Definition SessionMetrics_dict (m : SessionMetrics) : dict :=
  [("total_sessions", VInt (total_sessions m));
   ("avg_session_duration", VFloat (avg_session_duration m));
   ("max_session_duration", VFloat (max_session_duration m));
   ("session_velocity_24h", VInt (session_velocity_24h m));
   ("session_velocity_7d", VInt (session_velocity_7d m))].

(** One keyword argument of the constructor; a keyword that is no field
    is a [TypeError]. *)
Definition SessionMetrics_kwarg (k : string) (v : pyval) (m : SessionMetrics) : result SessionMetrics :=
  if String.eqb k "total_sessions" then x ← as_int v; inr (set_total_sessions x m) else
  if String.eqb k "avg_session_duration" then x ← as_number v; inr (set_avg_session_duration x m) else
  if String.eqb k "max_session_duration" then x ← as_number v; inr (set_max_session_duration x m) else
  if String.eqb k "session_velocity_24h" then x ← as_int v; inr (set_session_velocity_24h x m) else
  if String.eqb k "session_velocity_7d" then x ← as_int v; inr (set_session_velocity_7d x m) else
  inl TypeError.

(** [SessionMetrics] built from the keywords of a dict *)
Definition SessionMetrics_of_dict (d : dict) : result SessionMetrics :=
  fold_left (fun acc kv => m ← acc; SessionMetrics_kwarg (fst kv) (snd kv) m) d (inr SessionMetrics_default).

Record FeatureUsageMetrics := {
  unique_features_used : Z;
  feature_usage_count : Z;
  total_frequency : Q;
  avg_feature_frequency : Q;
  std_feature_frequency : Q;
  feature_usage_velocity_24h : Z;
  feature_usage_velocity_7d : Z }.

(** [FeatureUsageMetrics()] *)
Definition FeatureUsageMetrics_default : FeatureUsageMetrics :=
  {| unique_features_used := 0;
     feature_usage_count := 0;
     total_frequency := 0%Q;
     avg_feature_frequency := 0%Q;
     std_feature_frequency := 0%Q;
     feature_usage_velocity_24h := 0;
     feature_usage_velocity_7d := 0 |}.

Definition set_unique_features_used (v : Z) (m : FeatureUsageMetrics) : FeatureUsageMetrics :=
  {| unique_features_used := v;
     feature_usage_count := feature_usage_count m;
     total_frequency := total_frequency m;
     avg_feature_frequency := avg_feature_frequency m;
     std_feature_frequency := std_feature_frequency m;
     feature_usage_velocity_24h := feature_usage_velocity_24h m;
     feature_usage_velocity_7d := feature_usage_velocity_7d m |}.

Definition set_feature_usage_count (v : Z) (m : FeatureUsageMetrics) : FeatureUsageMetrics :=
  {| unique_features_used := unique_features_used m;
     feature_usage_count := v;
     total_frequency := total_frequency m;
     avg_feature_frequency := avg_feature_frequency m;
     std_feature_frequency := std_feature_frequency m;
     feature_usage_velocity_24h := feature_usage_velocity_24h m;
     feature_usage_velocity_7d := feature_usage_velocity_7d m |}.

Definition set_total_frequency (v : Q) (m : FeatureUsageMetrics) : FeatureUsageMetrics :=
  {| unique_features_used := unique_features_used m;
     feature_usage_count := feature_usage_count m;
     total_frequency := v;
     avg_feature_frequency := avg_feature_frequency m;
     std_feature_frequency := std_feature_frequency m;
     feature_usage_velocity_24h := feature_usage_velocity_24h m;
     feature_usage_velocity_7d := feature_usage_velocity_7d m |}.

Definition set_avg_feature_frequency (v : Q) (m : FeatureUsageMetrics) : FeatureUsageMetrics :=
  {| unique_features_used := unique_features_used m;
     feature_usage_count := feature_usage_count m;
     total_frequency := total_frequency m;
     avg_feature_frequency := v;
     std_feature_frequency := std_feature_frequency m;
     feature_usage_velocity_24h := feature_usage_velocity_24h m;
     feature_usage_velocity_7d := feature_usage_velocity_7d m |}.

Definition set_std_feature_frequency (v : Q) (m : FeatureUsageMetrics) : FeatureUsageMetrics :=
  {| unique_features_used := unique_features_used m;
     feature_usage_count := feature_usage_count m;
     total_frequency := total_frequency m;
     avg_feature_frequency := avg_feature_frequency m;
     std_feature_frequency := v;
     feature_usage_velocity_24h := feature_usage_velocity_24h m;
     feature_usage_velocity_7d := feature_usage_velocity_7d m |}.

Definition set_feature_usage_velocity_24h (v : Z) (m : FeatureUsageMetrics) : FeatureUsageMetrics :=
  {| unique_features_used := unique_features_used m;
     feature_usage_count := feature_usage_count m;
     total_frequency := total_frequency m;
     avg_feature_frequency := avg_feature_frequency m;
     std_feature_frequency := std_feature_frequency m;
     feature_usage_velocity_24h := v;
     feature_usage_velocity_7d := feature_usage_velocity_7d m |}.

Definition set_feature_usage_velocity_7d (v : Z) (m : FeatureUsageMetrics) : FeatureUsageMetrics :=
  {| unique_features_used := unique_features_used m;
     feature_usage_count := feature_usage_count m;
     total_frequency := total_frequency m;
     avg_feature_frequency := avg_feature_frequency m;
     std_feature_frequency := std_feature_frequency m;
     feature_usage_velocity_24h := feature_usage_velocity_24h m;
     feature_usage_velocity_7d := v |}.

(** [m.__dict__] *)
Definition FeatureUsageMetrics_dict (m : FeatureUsageMetrics) : dict :=
  [("unique_features_used", VInt (unique_features_used m));
   ("feature_usage_count", VInt (feature_usage_count m));
   ("total_frequency", VFloat (total_frequency m));
   ("avg_feature_frequency", VFloat (avg_feature_frequency m));
   ("std_feature_frequency", VFloat (std_feature_frequency m));
   ("feature_usage_velocity_24h", VInt (feature_usage_velocity_24h m));
   ("feature_usage_velocity_7d", VInt (feature_usage_velocity_7d m))].

(** One keyword argument of the constructor; a keyword that is no field
    is a [TypeError]. *)
Definition FeatureUsageMetrics_kwarg (k : string) (v : pyval) (m : FeatureUsageMetrics) : result FeatureUsageMetrics :=
  if String.eqb k "unique_features_used" then x ← as_int v; inr (set_unique_features_used x m) else
  if String.eqb k "feature_usage_count" then x ← as_int v; inr (set_feature_usage_count x m) else
  if String.eqb k "total_frequency" then x ← as_number v; inr (set_total_frequency x m) else
  if String.eqb k "avg_feature_frequency" then x ← as_number v; inr (set_avg_feature_frequency x m) else
  if String.eqb k "std_feature_frequency" then x ← as_number v; inr (set_std_feature_frequency x m) else
  if String.eqb k "feature_usage_velocity_24h" then x ← as_int v; inr (set_feature_usage_velocity_24h x m) else
  if String.eqb k "feature_usage_velocity_7d" then x ← as_int v; inr (set_feature_usage_velocity_7d x m) else
  inl TypeError.

(** [FeatureUsageMetrics] built from the keywords of a dict *)
Definition FeatureUsageMetrics_of_dict (d : dict) : result FeatureUsageMetrics :=
  fold_left (fun acc kv => m ← acc; FeatureUsageMetrics_kwarg (fst kv) (snd kv) m) d (inr FeatureUsageMetrics_default).

Record RiskScores := {
  login_risk : Q;
  transaction_risk : Q;
  session_risk : Q;
  feature_usage_risk : Q;
  overall_risk : Q }.

(** [RiskScores()] *)
Definition RiskScores_default : RiskScores :=
  {| login_risk := 0%Q;
     transaction_risk := 0%Q;
     session_risk := 0%Q;
     feature_usage_risk := 0%Q;
     overall_risk := 0%Q |}.

Definition set_login_risk (v : Q) (m : RiskScores) : RiskScores :=
  {| login_risk := v;
     transaction_risk := transaction_risk m;
     session_risk := session_risk m;
     feature_usage_risk := feature_usage_risk m;
     overall_risk := overall_risk m |}.

Definition set_transaction_risk (v : Q) (m : RiskScores) : RiskScores :=
  {| login_risk := login_risk m;
     transaction_risk := v;
     session_risk := session_risk m;
     feature_usage_risk := feature_usage_risk m;
     overall_risk := overall_risk m |}.

Definition set_session_risk (v : Q) (m : RiskScores) : RiskScores :=
  {| login_risk := login_risk m;
     transaction_risk := transaction_risk m;
     session_risk := v;
     feature_usage_risk := feature_usage_risk m;
     overall_risk := overall_risk m |}.

Definition set_feature_usage_risk (v : Q) (m : RiskScores) : RiskScores :=
  {| login_risk := login_risk m;
     transaction_risk := transaction_risk m;
     session_risk := session_risk m;
     feature_usage_risk := v;
     overall_risk := overall_risk m |}.

Definition set_overall_risk (v : Q) (m : RiskScores) : RiskScores :=
  {| login_risk := login_risk m;
     transaction_risk := transaction_risk m;
     session_risk := session_risk m;
     feature_usage_risk := feature_usage_risk m;
     overall_risk := v |}.

(** [m.__dict__] *)
Definition RiskScores_dict (m : RiskScores) : dict :=
  [("login_risk", VFloat (login_risk m));
   ("transaction_risk", VFloat (transaction_risk m));
   ("session_risk", VFloat (session_risk m));
   ("feature_usage_risk", VFloat (feature_usage_risk m));
   ("overall_risk", VFloat (overall_risk m))].

(** One keyword argument of the constructor; a keyword that is no field
    is a [TypeError]. *)
Definition RiskScores_kwarg (k : string) (v : pyval) (m : RiskScores) : result RiskScores :=
  if String.eqb k "login_risk" then x ← as_number v; inr (set_login_risk x m) else
  if String.eqb k "transaction_risk" then x ← as_number v; inr (set_transaction_risk x m) else
  if String.eqb k "session_risk" then x ← as_number v; inr (set_session_risk x m) else
  if String.eqb k "feature_usage_risk" then x ← as_number v; inr (set_feature_usage_risk x m) else
  if String.eqb k "overall_risk" then x ← as_number v; inr (set_overall_risk x m) else
  inl TypeError.

(** [RiskScores] built from the keywords of a dict *)
Definition RiskScores_of_dict (d : dict) : result RiskScores :=
  fold_left (fun acc kv => m ← acc; RiskScores_kwarg (fst kv) (snd kv) m) d (inr RiskScores_default).

(** ** The profile and the world around it *)

Record FraudProfile := {
  user_id : string;
  login_metrics : LoginMetrics;
  transaction_metrics : TransactionMetrics;
  session_metrics : SessionMetrics;
  feature_usage_metrics : FeatureUsageMetrics;
  risk_scores : RiskScores;
  last_updated : datetime;
  historical_changes : list pyval }.

(** What a file of [profiles/] holds: the text of a JSON document, or text
    that is no JSON document (what a [json.dump] that raised half-way
    leaves behind). *)
Inductive file :=
| JsonText (v : pyval)
| BrokenText.

(** The world: the directory [profiles/] ([None] while it does not exist),
    and the clock, read by its successive ticks. *)
Record world := {
  profiles_dir : option (gmap string file);
  clock : nat -> datetime;
  ticks : nat }.

(** The state a method of [FraudProfile] runs in. *)
Record pstate := { self : FraudProfile; env : world }.

Definition with_self (f : FraudProfile -> FraudProfile) (s : pstate) : pstate :=
  {| self := f (self s); env := env s |}.

Definition upd_login (f : LoginMetrics -> LoginMetrics) (p : FraudProfile) :=
  {| user_id := user_id p;
     login_metrics := f (login_metrics p);
     transaction_metrics := transaction_metrics p;
     session_metrics := session_metrics p;
     feature_usage_metrics := feature_usage_metrics p;
     risk_scores := risk_scores p;
     last_updated := last_updated p;
     historical_changes := historical_changes p |}.

Definition upd_transaction (f : TransactionMetrics -> TransactionMetrics) (p : FraudProfile) :=
  {| user_id := user_id p;
     login_metrics := login_metrics p;
     transaction_metrics := f (transaction_metrics p);
     session_metrics := session_metrics p;
     feature_usage_metrics := feature_usage_metrics p;
     risk_scores := risk_scores p;
     last_updated := last_updated p;
     historical_changes := historical_changes p |}.

Definition upd_session (f : SessionMetrics -> SessionMetrics) (p : FraudProfile) :=
  {| user_id := user_id p;
     login_metrics := login_metrics p;
     transaction_metrics := transaction_metrics p;
     session_metrics := f (session_metrics p);
     feature_usage_metrics := feature_usage_metrics p;
     risk_scores := risk_scores p;
     last_updated := last_updated p;
     historical_changes := historical_changes p |}.

Definition upd_feature_usage (f : FeatureUsageMetrics -> FeatureUsageMetrics) (p : FraudProfile) :=
  {| user_id := user_id p;
     login_metrics := login_metrics p;
     transaction_metrics := transaction_metrics p;
     session_metrics := session_metrics p;
     feature_usage_metrics := f (feature_usage_metrics p);
     risk_scores := risk_scores p;
     last_updated := last_updated p;
     historical_changes := historical_changes p |}.

Definition set_risk_scores (r : RiskScores) (p : FraudProfile) :=
  {| user_id := user_id p;
     login_metrics := login_metrics p;
     transaction_metrics := transaction_metrics p;
     session_metrics := session_metrics p;
     feature_usage_metrics := feature_usage_metrics p;
     risk_scores := r;
     last_updated := last_updated p;
     historical_changes := historical_changes p |}.

Definition set_last_updated (t : datetime) (p : FraudProfile) :=
  {| user_id := user_id p;
     login_metrics := login_metrics p;
     transaction_metrics := transaction_metrics p;
     session_metrics := session_metrics p;
     feature_usage_metrics := feature_usage_metrics p;
     risk_scores := risk_scores p;
     last_updated := t;
     historical_changes := historical_changes p |}.

Definition set_historical_changes (h : list pyval) (p : FraudProfile) :=
  {| user_id := user_id p;
     login_metrics := login_metrics p;
     transaction_metrics := transaction_metrics p;
     session_metrics := session_metrics p;
     feature_usage_metrics := feature_usage_metrics p;
     risk_scores := risk_scores p;
     last_updated := last_updated p;
     historical_changes := h |}.

Local Open Scope py_scope.

(** [datetime.now()] *)
Definition now : M pstate datetime :=
  fun s =>
    let w := env s in
    ({| self := self s;
        env := {| profiles_dir := profiles_dir w;
                  clock := clock w;
                  ticks := S (ticks w) |} |},
     inr (clock w (ticks w))).

Definition modify_login (f : LoginMetrics -> LoginMetrics) : M pstate unit :=
  modify (with_self (upd_login f)).
Definition modify_transaction (f : TransactionMetrics -> TransactionMetrics) : M pstate unit :=
  modify (with_self (upd_transaction f)).
Definition modify_session (f : SessionMetrics -> SessionMetrics) : M pstate unit :=
  modify (with_self (upd_session f)).
Definition modify_feature_usage (f : FeatureUsageMetrics -> FeatureUsageMetrics) : M pstate unit :=
  modify (with_self (upd_feature_usage f)).

(** ** [FraudProfile._update_velocity_metrics]

    The eight list comprehensions of the method differ in the event type,
    the key the entry's time is read from, and the window. *)

(** The filter of one comprehension:
    [change["event_type"] == etype and
     (current_time - datetime.fromisoformat(change[key])).total_seconds() <= window] *)
Definition in_window (etype key : string) (current_time : datetime) (window : Z)
    (change : pyval) : result bool :=
  ty ← getitem change "event_type";
  if eq_str ty etype then
    ts ← getitem change key;
    t ← fromisoformat ts;
    inr (Qle_bool (total_seconds (Datetime.sub current_time t)) (inject_Z window))
  else inr false.

Definition velocity_scan (etype key : string) (current_time : datetime) (window : Z)
    (history : list pyval) : result Z :=
  count_if (in_window etype key current_time window) history.

Definition scan (etype key : string) (current_time : datetime) (window : Z) : M pstate Z :=
  fun s => (s, velocity_scan etype key current_time window (historical_changes (self s))).

Definition _update_velocity_metrics (metric_type : string) (current_time : datetime)
    : M pstate unit :=
  if String.eqb metric_type "login" then
    n <- scan "login" "timestamp" current_time 86400 ;;
    modify_login (set_login_velocity_24h n) ;;
    n <- scan "login" "timestamp" current_time 604800 ;;
    modify_login (set_login_velocity_7d n)
  else if String.eqb metric_type "transaction" then
    n <- scan "transaction" "timestamp" current_time 86400 ;;
    modify_transaction (set_transaction_velocity_24h n) ;;
    n <- scan "transaction" "timestamp" current_time 604800 ;;
    modify_transaction (set_transaction_velocity_7d n)
  else if String.eqb metric_type "session" then
    n <- scan "session" "start_time" current_time 86400 ;;
    modify_session (set_session_velocity_24h n) ;;
    n <- scan "session" "start_time" current_time 604800 ;;
    modify_session (set_session_velocity_7d n)
  else if String.eqb metric_type "feature_usage" then
    n <- scan "feature_usage" "timestamp" current_time 86400 ;;
    modify_feature_usage (set_feature_usage_velocity_24h n) ;;
    n <- scan "feature_usage" "timestamp" current_time 604800 ;;
    modify_feature_usage (set_feature_usage_velocity_7d n)
  else ret tt.

(** ** [FraudProfile._update_risk_scores] *)

Definition compute_risk_scores (p : FraudProfile) : RiskScores :=
  let lm := login_metrics p in
  let tm := transaction_metrics p in
  let sm := session_metrics p in
  let fm := feature_usage_metrics p in
  let login_risk' :=
    min1 ((inject_Z (login_velocity_24h lm) / 10) * (3 # 10)
          + (inject_Z (unique_locations lm) / 5) * (3 # 10)
          + (inject_Z (unique_devices lm) / 3) * (4 # 10))%Q in
  let transaction_risk' :=
    min1 ((inject_Z (transaction_velocity_24h tm) / 20) * (3 # 10)
          + (avg_amount tm / 1000) * (4 # 10)
          + (inject_Z (unique_merchants tm) / 10) * (3 # 10))%Q in
  let session_risk' :=
    min1 ((inject_Z (session_velocity_24h sm) / 15) * (4 # 10)
          + (avg_session_duration sm / 3600) * (6 # 10))%Q in
  let feature_usage_risk' :=
    min1 ((inject_Z (feature_usage_velocity_24h fm) / 50) * (3 # 10)
          + std_feature_frequency fm * (4 # 10)
          + (avg_feature_frequency fm / 10) * (3 # 10))%Q in
  {| login_risk := login_risk';
     transaction_risk := transaction_risk';
     session_risk := session_risk';
     feature_usage_risk := feature_usage_risk';
     overall_risk :=
       (login_risk' * (3 # 10) + transaction_risk' * (3 # 10)
        + session_risk' * (2 # 10) + feature_usage_risk' * (2 # 10))%Q |}.

Definition _update_risk_scores : M pstate unit :=
  modify (with_self (fun p => set_risk_scores (compute_risk_scores p) p)).

(** ** [FraudProfile._record_change] *)

Definition change_entry (stamp : datetime) (event_type : string) (event_data : dict) : pyval :=
  VDict [("timestamp", VStr (isoformat stamp));
         ("event_type", VStr event_type);
         ("event_data", VDict event_data)].

Definition _record_change (event_type : string) (event_data : dict) : M pstate unit :=
  stamp <- now ;;
  modify (with_self (fun p =>
    set_historical_changes
      (historical_changes p ++ [change_entry stamp event_type event_data]) p)) ;;
  t <- now ;;
  modify (with_self (set_last_updated t)).

(** ** Persistence: [_save_profile], [_load_from_dict], [_initialize_metrics] *)

Definition profile_file (uid : string) : string := uid +:+ ".json".

(** The [profile_data] dict of [_save_profile]. *)
Definition profile_data (p : FraudProfile) : pyval :=
  VDict [("login_metrics", VDict (LoginMetrics_dict (login_metrics p)));
         ("transaction_metrics", VDict (TransactionMetrics_dict (transaction_metrics p)));
         ("session_metrics", VDict (SessionMetrics_dict (session_metrics p)));
         ("feature_usage_metrics", VDict (FeatureUsageMetrics_dict (feature_usage_metrics p)));
         ("risk_scores", VDict (RiskScores_dict (risk_scores p)));
         ("last_updated", VStr (isoformat (last_updated p)));
         ("historical_changes", VList (historical_changes p))].

(** [open(name, "w")] followed by [json.dump(v, f)]: the file is truncated
    first, and [json.dump] writes as it goes, so a value it cannot write
    leaves a broken file and a [TypeError]. *)
Definition write_json (name : string) (v : pyval) : M pstate unit :=
  fun s =>
    let w := env s in
    let dir := default ∅ (profiles_dir w) in
    let put f := {| self := self s;
                    env := {| profiles_dir := Some (<[name := f]> dir);
                              clock := clock w;
                              ticks := ticks w |} |} in
    if json_serializable v then (put (JsonText v), inr tt)
    else (put BrokenText, inl TypeError).

Definition _save_profile : M pstate unit :=
  p <- gets self ;;
  write_json (profile_file (user_id p)) (profile_data p).

(** The keywords a constructor is called with when a value is unpacked
    into it: the value has to be a mapping. *)
Definition kwargs (v : pyval) : result dict :=
  match v with
  | VDict d => inr d
  | _ => inl TypeError
  end.

(** The history read back.  Python would keep any JSON value here; the model
    keeps the field a list and takes another value as a [TypeError]. *)
Definition as_list (v : pyval) : result (list pyval) :=
  match v with
  | VList l => inr l
  | _ => inl TypeError
  end.

Definition _load_from_dict (data : pyval) : M pstate unit :=
  m <- lift (d ← py_get data "login_metrics" (VDict []);
             k ← kwargs d; LoginMetrics_of_dict k) ;;
  modify_login (fun _ => m) ;;
  m <- lift (d ← py_get data "transaction_metrics" (VDict []);
             k ← kwargs d; TransactionMetrics_of_dict k) ;;
  modify_transaction (fun _ => m) ;;
  m <- lift (d ← py_get data "session_metrics" (VDict []);
             k ← kwargs d; SessionMetrics_of_dict k) ;;
  modify_session (fun _ => m) ;;
  m <- lift (d ← py_get data "feature_usage_metrics" (VDict []);
             k ← kwargs d; FeatureUsageMetrics_of_dict k) ;;
  modify_feature_usage (fun _ => m) ;;
  r <- lift (d ← py_get data "risk_scores" (VDict []);
             k ← kwargs d; RiskScores_of_dict k) ;;
  modify (with_self (set_risk_scores r)) ;;
  last <- lift (py_get data "last_updated" VNone) ;;
  t <- match last with
       | VStr _ => lift (fromisoformat last)
       | _ => now
       end ;;
  modify (with_self (set_last_updated t)) ;;
  h <- lift (v ← py_get data "historical_changes" (VList []); as_list v) ;;
  modify (with_self (set_historical_changes h)).

(** [open(name); json.load(f)], [None] when the file does not exist. *)
Definition read_file (name : string) (w : world) : option file :=
  d ← profiles_dir w; d !! name.

Definition _initialize_metrics : M pstate unit :=
  p <- gets self ;;
  w <- gets env ;;
  match read_file (profile_file (user_id p)) w with
  | None => ret tt
  | Some BrokenText => raise JSONDecodeError
  | Some (JsonText data) => _load_from_dict data
  end.

(** [FraudProfile(user_id)]: the object as [__init__] leaves it, and the
    exception it raised, if any. *)
Definition FraudProfile_init (uid : string) (w : world) : pstate * result unit :=
  (t <- now ;;
   modify (with_self (set_last_updated t)) ;;
   _initialize_metrics)
  {| self := {| user_id := uid;
                login_metrics := LoginMetrics_default;
                transaction_metrics := TransactionMetrics_default;
                session_metrics := SessionMetrics_default;
                feature_usage_metrics := FeatureUsageMetrics_default;
                risk_scores := RiskScores_default;
                last_updated := clock w (ticks w);
                historical_changes := [] |};
     env := w |}.

(** [to_dict] *)
Definition to_dict (p : FraudProfile) : pyval :=
  match profile_data p with
  | VDict d => VDict (("user_id", VStr (user_id p)) :: d)
  | v => v
  end.

(** ** The four updates *)

Definition update_with_login (login_event : dict) : M pstate unit :=
  current_time <- lift (ts ← dict_item "timestamp" login_event; fromisoformat ts) ;;
  modify_login (fun m => set_total_logins (total_logins m + 1) m) ;;
  n <- lift (v ← dict_item "device_type" login_event; len_set_singleton v) ;;
  modify_login (set_unique_devices n) ;;
  n <- lift (v ← dict_item "ip_address" login_event; len_set_singleton v) ;;
  modify_login (set_unique_ips n) ;;
  n <- lift (v ← dict_item "geolocation" login_event; len_set_singleton v) ;;
  modify_login (set_unique_locations n) ;;
  m <- gets (fun s => login_metrics (self s)) ;;
  (if truthy (last_login_time m) then
     d <- lift (datetime_sub current_time (last_login_time m)) ;;
     avg <- lift (py_div (avg_login_interval m * inject_Z (total_logins m - 1)
                          + total_seconds d)
                         (inject_Z (total_logins m))) ;;
     modify_login (set_avg_login_interval avg)
   else ret tt) ;;
  modify_login (set_last_login_time (VDatetime current_time)) ;;
  _update_velocity_metrics "login" current_time ;;
  _record_change "login" login_event ;;
  _update_risk_scores ;;
  _save_profile.

Definition update_with_transaction (transaction_event : dict) : M pstate unit :=
  current_time <- lift (ts ← dict_item "timestamp" transaction_event; fromisoformat ts) ;;
  amount <- lift (v ← dict_item "amount" transaction_event; py_float v) ;;
  modify_transaction (fun m => set_total_transactions (total_transactions m + 1) m) ;;
  modify_transaction (fun m => set_total_amount (total_amount m + amount) m) ;;
  m <- gets (fun s => transaction_metrics (self s)) ;;
  avg <- lift (py_div (total_amount m) (inject_Z (total_transactions m))) ;;
  modify_transaction (set_avg_amount avg) ;;
  modify_transaction (fun m => set_max_amount (py_max (max_amount m) amount) m) ;;
  n <- lift (v ← dict_item "merchant_id" transaction_event; len_set_singleton v) ;;
  modify_transaction (set_unique_merchants n) ;;
  _update_velocity_metrics "transaction" current_time ;;
  _record_change "transaction" transaction_event ;;
  _update_risk_scores ;;
  _save_profile.

Definition update_with_session (session_event : dict) : M pstate unit :=
  current_time <- lift (ts ← dict_item "start_time" session_event; fromisoformat ts) ;;
  duration <- lift (v ← dict_item "session_duration" session_event; py_float v) ;;
  modify_session (fun m => set_total_sessions (total_sessions m + 1) m) ;;
  m <- gets (fun s => session_metrics (self s)) ;;
  avg <- lift (py_div (avg_session_duration m * inject_Z (total_sessions m - 1)
                       + duration)
                      (inject_Z (total_sessions m))) ;;
  modify_session (set_avg_session_duration avg) ;;
  modify_session (fun m => set_max_session_duration (py_max (max_session_duration m) duration) m) ;;
  _update_velocity_metrics "session" current_time ;;
  _record_change "session" session_event ;;
  _update_risk_scores ;;
  _save_profile.

(** [change["event_data"].get("frequency", 1.0)] of the feature-usage
    entries of the history *)
Fixpoint history_frequencies (history : list pyval) : result (list pyval) :=
  match history with
  | [] => inr []
  | change :: r =>
      ty ← getitem change "event_type";
      if eq_str ty "feature_usage" then
        data ← getitem change "event_data";
        f ← py_get data "frequency" (VFloat 1);
        fs ← history_frequencies r;
        inr (f :: fs)
      else history_frequencies r
  end.

Definition update_with_feature_usage (feature_event : dict) : M pstate unit :=
  current_time <- lift (ts ← dict_item "timestamp" feature_event; fromisoformat ts) ;;
  frequency <- lift (py_float (dict_get_default "frequency" (VFloat 1) feature_event)) ;;
  modify_feature_usage (fun m => set_feature_usage_count (feature_usage_count m + 1) m) ;;
  modify_feature_usage (fun m => set_total_frequency (total_frequency m + frequency) m) ;;
  m <- gets (fun s => feature_usage_metrics (self s)) ;;
  avg <- lift (py_div (total_frequency m) (inject_Z (feature_usage_count m))) ;;
  modify_feature_usage (set_avg_feature_frequency avg) ;;
  h <- gets (fun s => historical_changes (self s)) ;;
  freq_values <- lift (fs ← history_frequencies h; inr (fs ++ [VFloat frequency])%list) ;;
  std <- (if (1 <? Z.of_nat (length freq_values))
          then lift (xs ← map_result as_number freq_values; inr (np_std xs))
          else ret 0%Q) ;;
  modify_feature_usage (set_std_feature_frequency std) ;;
  _update_velocity_metrics "feature_usage" current_time ;;
  _record_change "feature_usage" feature_event ;;
  _update_risk_scores ;;
  _save_profile.

(** ** The anomaly detector ([anomaly_detector.py])

    scikit-learn is not part of the repository.  Its estimators are taken as
    given: fitting a scaler on a sample matrix yields the [transform] of one
    row, fitting the model of an event type yields its [score_samples] on
    one row, and each of the three may raise. *)

Inductive estimator (A : Type) :=
| Unfitted
| Fitted (f : A).
Arguments Unfitted {A}.
Arguments Fitted {A} f.

Abbreviation scaler_fn := (list Q -> result (list Q)).
Abbreviation score_fn := (list Q -> result Q).

Record sklearn := {
  scaler_fit : list (list Q) -> result scaler_fn;
  model_fit : string -> list (list Q) -> result score_fn }.

Record AnomalyDetector := {
  models : gmap string (estimator score_fn);
  scalers : gmap string (estimator scaler_fn) }.

(** [s.endswith(suffix)] *)
Definition endswith (s suffix : string) : bool :=
  let n := String.length s in
  let k := String.length suffix in
  (k <=? n)%nat && String.eqb (substring (n - k) k s) suffix.

(** The feature rows [_initialize_models] reads from one stored snapshot. *)
Definition snapshot_login_features (profile_data : pyval) : result (list pyval) :=
  m ← py_get profile_data "login_metrics" (VDict []);
  a ← py_get m "login_velocity_24h" (VInt 0);
  b ← py_get m "unique_locations" (VInt 0);
  c ← py_get m "unique_devices" (VInt 0);
  d ← py_get m "avg_login_interval" (VInt 0);
  inr [a; b; c; d].

Definition snapshot_transaction_features (profile_data : pyval) : result (list pyval) :=
  m ← py_get profile_data "transaction_metrics" (VDict []);
  a ← py_get m "transaction_velocity_24h" (VInt 0);
  b ← py_get m "avg_amount" (VInt 0);
  c ← py_get m "max_amount" (VInt 0);
  d ← py_get m "unique_merchants" (VInt 0);
  inr [a; b; c; d].

Definition snapshot_session_features (profile_data : pyval) : result (list pyval) :=
  m ← py_get profile_data "session_metrics" (VDict []);
  a ← py_get m "session_velocity_24h" (VInt 0);
  b ← py_get m "avg_session_duration" (VInt 0);
  c ← py_get m "max_session_duration" (VInt 0);
  d ← py_get m "total_sessions" (VInt 0);
  inr [a; b; c; d].

Definition snapshot_feature_usage_features (profile_data : pyval) : result (list pyval) :=
  m ← py_get profile_data "feature_usage_metrics" (VDict []);
  a ← py_get m "feature_usage_velocity_24h" (VInt 0);
  b ← py_get m "unique_features_used" (VInt 0);
  c ← py_get m "avg_feature_frequency" (VInt 0);
  d ← py_get m "std_feature_frequency" (VInt 0);
  e ← py_get m "total_frequency" (VInt 0);
  inr [a; b; c; d; e].

(** [json.load] of one file *)
Definition json_load (f : file) : result pyval :=
  match f with
  | JsonText v => inr v
  | BrokenText => inl JSONDecodeError
  end.

(** The [.json] files of [profiles/], as [os.listdir] lists them. *)
Definition listed_snapshots (dir : gmap string file) : list file :=
  map snd (List.filter (fun kv => endswith (fst kv) ".json") (map_to_list dir)).

(** [all_features]: for each event type, one row per stored snapshot. *)
Record all_features := {
  login_rows : list (list pyval);
  transaction_rows : list (list pyval);
  session_rows : list (list pyval);
  feature_usage_rows : list (list pyval) }.

(** The loop over the stored snapshots. *)
Fixpoint collect_features (files : list file) (acc : all_features) : result all_features :=
  match files with
  | [] => inr acc
  | f :: r =>
      profile_data ← json_load f;
      a ← snapshot_login_features profile_data;
      b ← snapshot_transaction_features profile_data;
      c ← snapshot_session_features profile_data;
      d ← snapshot_feature_usage_features profile_data;
      collect_features r
        {| login_rows := login_rows acc ++ [a];
           transaction_rows := transaction_rows acc ++ [b];
           session_rows := session_rows acc ++ [c];
           feature_usage_rows := feature_usage_rows acc ++ [d] |}
  end.

(** [np.array(rows)] as a matrix of floats *)
Definition np_array (rows : list (list pyval)) : result (list (list Q)) :=
  map_result (map_result as_number) rows.

Definition set_scaler (ty : string) (f : scaler_fn) (d : AnomalyDetector) :=
  {| models := models d; scalers := <[ty := Fitted f]> (scalers d) |}.
Definition set_model (ty : string) (f : score_fn) (d : AnomalyDetector) :=
  {| models := <[ty := Fitted f]> (models d); scalers := scalers d |}.

(** The body of the fitting loop for one event type. *)
Definition fit_event_type (sk : sklearn) (ty : string) (rows : list (list pyval))
    : M AnomalyDetector unit :=
  match rows with
  | [] => ret tt
  | _ =>
      X <- lift (np_array rows) ;;
      tr <- lift (scaler_fit sk X) ;;
      modify (set_scaler ty tr) ;;
      scaled <- lift (map_result tr X) ;;
      sc <- lift (model_fit sk ty scaled) ;;
      modify (set_model ty sc)
  end.

(** [try: ... except Exception: pass] *)
Definition try_pass {S} (m : M S unit) : M S unit :=
  fun s => (fst (m s), inr tt).

Definition _initialize_models (sk : sklearn) (w : world) : M AnomalyDetector unit :=
  try_pass
    match profiles_dir w with
    | None => ret tt
    | Some dir =>
        f <- lift (collect_features (listed_snapshots dir)
                     {| login_rows := []; transaction_rows := [];
                        session_rows := []; feature_usage_rows := [] |}) ;;
        fit_event_type sk "login" (login_rows f) ;;
        fit_event_type sk "transaction" (transaction_rows f) ;;
        fit_event_type sk "session" (session_rows f) ;;
        fit_event_type sk "feature_usage" (feature_usage_rows f)
    end.

(** [AnomalyDetector()] *)
Definition AnomalyDetector_init (sk : sklearn) (w : world) : AnomalyDetector :=
  let unfitted {A} : gmap string (estimator A) :=
    <["login" := Unfitted]> (<["transaction" := Unfitted]>
      (<["session" := Unfitted]> (<["feature_usage" := Unfitted]> ∅))) in
  fst (_initialize_models sk w {| models := unfitted; scalers := unfitted |}).

(** [_extract_features] *)
Definition _extract_features (profile : FraudProfile) (event_type : string)
    (event_data : dict) : result (list Q) :=
  if String.eqb event_type "login" then
    let m := login_metrics profile in
    inr [inject_Z (login_velocity_24h m);
         inject_Z (unique_locations m);
         inject_Z (unique_devices m);
         avg_login_interval m]
  else if String.eqb event_type "transaction" then
    let m := transaction_metrics profile in
    amount ← (v ← dict_item "amount" event_data; py_float v);
    inr [inject_Z (transaction_velocity_24h m);
         amount;
         avg_amount m;
         inject_Z (unique_merchants m)]
  else if String.eqb event_type "feature_usage" then
    let m := feature_usage_metrics profile in
    inr [inject_Z (feature_usage_velocity_24h m);
         inject_Z (unique_features_used m);
         avg_feature_frequency m;
         std_feature_frequency m;
         total_frequency m]
  else
    let m := session_metrics profile in
    duration ← (v ← dict_item "session_duration" event_data; py_float v);
    inr [inject_Z (session_velocity_24h m);
         duration;
         avg_session_duration m;
         inject_Z (total_sessions m)].

(** ** [np.percentile] (linear interpolation between the two nearest ranks) *)

Fixpoint insert_sorted (x : Q) (l : list Q) : list Q :=
  match l with
  | [] => [x]
  | y :: r => if Qle_bool x y then x :: l else y :: insert_sorted x r
  end.

Definition sort_Q (l : list Q) : list Q := fold_right insert_sorted [] l.

(** [None] on an empty array (numpy has no rank to take there). *)
Definition percentile (a : list Q) (q : Q) : option Q :=
  match sort_Q a with
  | [] => None
  | (x0 :: _) as sorted =>
      let pos := (q / 100 * inject_Z (Z.of_nat (length sorted) - 1))%Q in
      let lo := Qfloor pos in
      let frac := (pos - inject_Z lo)%Q in
      let a_lo := nth (Z.to_nat lo) sorted x0 in
      let a_hi := nth (Z.to_nat (lo + 1)) sorted a_lo in
      Some (a_lo + (a_hi - a_lo) * frac)%Q
  end.

(** ** [_generate_explanation] *)

Definition factor (label : string) (triggered : bool) : pyval :=
  if triggered then VStr label else VNone.

Definition Qgt_bool (a b : Q) : bool := negb (Qle_bool a b).

Definition _generate_explanation (event_type : string) (features : list Q) (score : Q)
    : pyval :=
  let f i := nth i features 0%Q in
  if String.eqb event_type "login" then
    VDict [("velocity_24h", VFloat (f 0%nat));
           ("unique_locations", VFloat (f 1%nat));
           ("unique_devices", VFloat (f 2%nat));
           ("avg_interval", VFloat (f 3%nat));
           ("anomaly_score", VFloat score);
           ("risk_factors",
            VList [factor "High login velocity" (Qgt_bool (f 0%nat) 10);
                   factor "Multiple locations" (Qgt_bool (f 1%nat) 3);
                   factor "Multiple devices" (Qgt_bool (f 2%nat) 2)])]
  else if String.eqb event_type "transaction" then
    VDict [("velocity_24h", VFloat (f 0%nat));
           ("amount", VFloat (f 1%nat));
           ("avg_amount", VFloat (f 2%nat));
           ("unique_merchants", VFloat (f 3%nat));
           ("anomaly_score", VFloat score);
           ("risk_factors",
            VList [factor "High transaction velocity" (Qgt_bool (f 0%nat) 20);
                   factor "Large amount" (Qgt_bool (f 1%nat) (f 2%nat * 2));
                   factor "Unusual merchant" (Qgt_bool (f 3%nat) 5)])]
  else if String.eqb event_type "feature_usage" then
    VDict [("velocity_24h", VFloat (f 0%nat));
           ("unique_features", VFloat (f 1%nat));
           ("avg_frequency", VFloat (f 2%nat));
           ("std_frequency", VFloat (f 3%nat));
           ("total_frequency", VFloat (f 4%nat));
           ("anomaly_score", VFloat score);
           ("risk_factors",
            VList [factor "High feature usage velocity" (Qgt_bool (f 0%nat) 50);
                   factor "Unusual number of features" (Qgt_bool (f 1%nat) 10);
                   factor "Abnormal usage frequency" (Qgt_bool (f 3%nat) (f 2%nat));
                   factor "High total frequency" (Qgt_bool (f 4%nat) 100)])]
  else
    VDict [("velocity_24h", VFloat (f 0%nat));
           ("duration", VFloat (f 1%nat));
           ("avg_duration", VFloat (f 2%nat));
           ("total_sessions", VFloat (f 3%nat));
           ("anomaly_score", VFloat score);
           ("risk_factors",
            VList [factor "High session velocity" (Qgt_bool (f 0%nat) 15);
                   factor "Long duration" (Qgt_bool (f 1%nat) 3600);
                   factor "Multiple sessions" (Qgt_bool (f 3%nat) 10)])].

(** ** [detect_anomaly] *)

(** [self.scalers[event_type].transform(np.array([features]))] *)
Definition scaler_transform (d : AnomalyDetector) (event_type : string)
    (features : list Q) : result (list Q) :=
  match scalers d !! event_type with
  | None => inl (KeyError event_type)
  | Some Unfitted => inl NotFittedError
  | Some (Fitted tr) => tr features
  end.

(** [self.models[event_type].score_samples(scaled)], an array of one score *)
Definition model_score_samples (d : AnomalyDetector) (event_type : string)
    (scaled : list Q) : result (list Q) :=
  match models d !! event_type with
  | None => inl (KeyError event_type)
  | Some Unfitted => inl NotFittedError
  | Some (Fitted sc) => s ← sc scaled; inr [s]
  end.

(** [a[0]] *)
Definition item0 (a : list Q) : result Q :=
  match a with
  | x :: _ => inr x
  | [] => inl ValueError
  end.

Definition np_percentile (a : list Q) (q : Q) : result Q :=
  match percentile a q with
  | Some x => inr x
  | None => inl ValueError
  end.

Definition detect_anomaly (d : AnomalyDetector) (profile : FraudProfile)
    (event_type : string) (event_data : dict) : result (bool * Q * pyval) :=
  features ← _extract_features profile event_type event_data;
  scaled_features ← scaler_transform d event_type features;
  '(score, is_anomaly) ←
    (if String.eqb event_type "login" then
       a ← model_score_samples d event_type scaled_features;
       score ← item0 a;
       b ← model_score_samples d event_type scaled_features;
       p ← np_percentile b 10;
       inr (score, negb (Qle_bool p score))
     else
       a ← model_score_samples d event_type scaled_features;
       s ← item0 a;
       let score := (- s)%Q in
       b ← model_score_samples d event_type scaled_features;
       p ← np_percentile (map Qopp b) 90;
       inr (score, negb (Qle_bool score p)));
  let explanation := _generate_explanation event_type features score in
  inr (is_anomaly, Qabs score, explanation).

(** ** Vocabulary of the statements *)

(** The four event kinds, the update of each, and its two velocity fields. *)
Inductive event_kind := Login | Transaction | Session | FeatureUsage.

Definition kind_name (k : event_kind) : string :=
  match k with
  | Login => "login"
  | Transaction => "transaction"
  | Session => "session"
  | FeatureUsage => "feature_usage"
  end.

Definition update_with (k : event_kind) : dict -> M pstate unit :=
  match k with
  | Login => update_with_login
  | Transaction => update_with_transaction
  | Session => update_with_session
  | FeatureUsage => update_with_feature_usage
  end.

(** The key an update reads the event's time from. *)
Definition time_key (k : event_kind) : string :=
  match k with
  | Session => "start_time"
  | _ => "timestamp"
  end.

Definition velocity_24h (k : event_kind) (p : FraudProfile) : Z :=
  match k with
  | Login => login_velocity_24h (login_metrics p)
  | Transaction => transaction_velocity_24h (transaction_metrics p)
  | Session => session_velocity_24h (session_metrics p)
  | FeatureUsage => feature_usage_velocity_24h (feature_usage_metrics p)
  end.

Definition velocity_7d (k : event_kind) (p : FraudProfile) : Z :=
  match k with
  | Login => login_velocity_7d (login_metrics p)
  | Transaction => transaction_velocity_7d (transaction_metrics p)
  | Session => session_velocity_7d (session_metrics p)
  | FeatureUsage => feature_usage_velocity_7d (feature_usage_metrics p)
  end.

(** The time an event carries under [key], as the updates read it. *)
Definition event_time (key : string) (event : dict) : result datetime :=
  ts ← dict_item key event; fromisoformat ts.

(** The event has a hashable value under [key]. *)
Definition hashable_field (key : string) (event : dict) : bool :=
  match dict_get key event with
  | Some v => hashable v
  | None => false
  end.

(** [float(event[key])] *)
Definition float_field (key : string) (event : dict) : result Q :=
  v ← dict_item key event; py_float v.

(** *** Events *)

Definition login_event (timestamp device_type ip_address geolocation : string) : dict :=
  [("timestamp", VStr timestamp); ("device_type", VStr device_type);
   ("ip_address", VStr ip_address); ("geolocation", VStr geolocation)].

(** The login of the scenario of the specification, at a given time. *)
Definition mobile_login (timestamp : string) : dict :=
  login_event timestamp "Mobile" "1.1.1.1" "10,10".

Definition transaction_event (timestamp : string) (amount : Q) (merchant_id : string) : dict :=
  [("timestamp", VStr timestamp); ("amount", VFloat amount);
   ("merchant_id", VStr merchant_id)].

Definition session_event (start_time : string) (session_duration : Q) : dict :=
  [("start_time", VStr start_time); ("session_duration", VFloat session_duration)].

Definition feature_event (timestamp feature_name : string) (frequency : Z) : dict :=
  [("timestamp", VStr timestamp); ("feature_name", VStr feature_name);
   ("frequency", VInt frequency)].

(** A sequence of transactions, each given by its time, amount and
    merchant, as the events the update receives. *)
Definition transaction_events (txs : list (datetime * Q * string)) : list dict :=
  map (fun tx => transaction_event (isoformat (fst (fst tx))) (snd (fst tx)) (snd tx)) txs.

Definition amounts (txs : list (datetime * Q * string)) : list Q :=
  map (fun tx => snd (fst tx)) txs.

(** *** Velocity *)

(** The count a scan that returns computes, written as a filter: the
    entries of the given type for which the time from what their
    [timestamp] key holds to [reference_time] is at most [window_seconds].
    Nothing bounds that time from below. *)
Definition entry_has_type (event_type : string) (entry : pyval) : bool :=
  match getitem entry "event_type" with
  | inr v => eq_str v event_type
  | inl _ => false
  end.

Definition entry_timestamp (entry : pyval) : option datetime :=
  match getitem entry "timestamp" with
  | inr (VStr s) => parse_iso s
  | _ => None
  end.

Definition elapsed_within (reference_time : datetime) (window_seconds : Z)
    (entry : pyval) : bool :=
  match entry_timestamp entry with
  | Some t => Qle_bool (total_seconds (Datetime.sub reference_time t))
                       (inject_Z window_seconds)
  | None => false
  end.

Definition velocity (history : list pyval) (event_type : string)
    (reference_time : datetime) (window_seconds : Z) : Z :=
  Z.of_nat (length (List.filter (fun entry => entry_has_type event_type entry
                                         && elapsed_within reference_time window_seconds entry)
                           history)).

(** The velocity as the specification words it: of the events of one type
    applied so far, the one being processed included, the number whose own
    timestamp lies within [window_seconds] before the timestamp of the
    event being processed. *)
Definition claimed_velocity (event_times : list datetime) (reference_time : datetime)
    (window_seconds : Z) : Z :=
  Z.of_nat (length (List.filter
                      (fun t => let elapsed := total_seconds (Datetime.sub reference_time t) in
                                Qle_bool 0 elapsed
                                && Qle_bool elapsed (inject_Z window_seconds))
                      event_times)).

(** *** What an update does, step by step *)

(** The common end of the four updates. *)
Definition finish (k : event_kind) (current_time : datetime) (event : dict)
    : M pstate unit :=
  _update_velocity_metrics (kind_name k) current_time ;;
  _record_change (kind_name k) event ;;
  _update_risk_scores ;;
  _save_profile.

Definition set_velocity_24h (k : event_kind) (n : Z) : FraudProfile -> FraudProfile :=
  match k with
  | Login => upd_login (set_login_velocity_24h n)
  | Transaction => upd_transaction (set_transaction_velocity_24h n)
  | Session => upd_session (set_session_velocity_24h n)
  | FeatureUsage => upd_feature_usage (set_feature_usage_velocity_24h n)
  end.

Definition set_velocity_7d (k : event_kind) (n : Z) : FraudProfile -> FraudProfile :=
  match k with
  | Login => upd_login (set_login_velocity_7d n)
  | Transaction => upd_transaction (set_transaction_velocity_7d n)
  | Session => upd_session (set_session_velocity_7d n)
  | FeatureUsage => upd_feature_usage (set_feature_usage_velocity_7d n)
  end.

(** The profile [finish] leaves when both scans return: the velocities set,
    the event appended under the clock's reading [stamp], the risk scores
    recomputed, and [last_updated] set to the next reading. *)
Definition finished (k : event_kind) (event : dict) (n24 n7 : Z)
    (stamp updated : datetime) (p : FraudProfile) : FraudProfile :=
  let p1 := set_velocity_7d k n7 (set_velocity_24h k n24 p) in
  let p2 := set_historical_changes
              (historical_changes p1 ++ [change_entry stamp (kind_name k) event]) p1 in
  let p3 := set_last_updated updated p2 in
  set_risk_scores (compute_risk_scores p3) p3.

(** The files after [_save_profile] ran on profile [p]. *)
Definition saved (p : FraudProfile) (w : world) : gmap string file :=
  <[profile_file (user_id p) :=
      if json_serializable (profile_data p) then JsonText (profile_data p)
      else BrokenText]> (default ∅ (profiles_dir w)).

(** The fields no velocity scan, risk computation or history record
    touches. *)
Definition basics (p : FraudProfile) :=
  let lm := login_metrics p in
  let tm := transaction_metrics p in
  let sm := session_metrics p in
  let fm := feature_usage_metrics p in
  (user_id p,
   (total_logins lm, unique_devices lm, unique_ips lm, unique_locations lm,
    avg_login_interval lm, last_login_time lm, suspicious_login_count lm),
   (total_transactions tm, total_amount tm, avg_amount tm, max_amount tm,
    unique_merchants tm, suspicious_transaction_count tm),
   (total_sessions sm, avg_session_duration sm, max_session_duration sm),
   (unique_features_used fm, feature_usage_count fm, total_frequency fm,
    avg_feature_frequency fm, std_feature_frequency fm)).

(** What a login does to its metric group before the common end: on the
    first login, and on a later one, [t0] being the time of the login
    before. *)
Definition first_login (t : datetime) (m : LoginMetrics) : LoginMetrics :=
  set_last_login_time (VDatetime t)
    (set_unique_locations 1 (set_unique_ips 1 (set_unique_devices 1
       (set_total_logins (total_logins m + 1) m)))).

Definition later_login (t t0 : datetime) (m : LoginMetrics) : LoginMetrics :=
  let n := total_logins m + 1 in
  set_last_login_time (VDatetime t)
    (set_avg_login_interval
       ((avg_login_interval m * inject_Z (n - 1)
         + total_seconds (Datetime.sub t t0)) / inject_Z n)%Q
       (set_unique_locations 1 (set_unique_ips 1 (set_unique_devices 1
          (set_total_logins n m))))).

(** What a transaction of [amount] does to its metric group before the
    common end. *)
Definition transacted (amount : Q) (m : TransactionMetrics) : TransactionMetrics :=
  let n := total_transactions m + 1 in
  let total := (total_amount m + amount)%Q in
  set_unique_merchants 1
    (set_max_amount (py_max (max_amount m) amount)
       (set_avg_amount (total / inject_Z n)%Q
          (set_total_amount total (set_total_transactions n m)))).

(** *** Profiles and runs *)

(** The state after [FraudProfile(uid)] in world [w]. *)
Definition fresh (uid : string) (w : world) : pstate := fst (FraudProfile_init uid w).

(** [for x in l: f(x)] *)
Fixpoint for_each {S A} (f : A -> M S unit) (l : list A) : M S unit :=
  match l with
  | [] => ret tt
  | x :: r => f x ;; for_each f r
  end.

(** A history entry as [_record_change] writes it, under a reading of the
    clock that is a date. *)
Definition recorded (entry : pyval) : Prop :=
  exists stamp ty data,
    entry = change_entry stamp ty data
    /\ valid stamp = true
    /\ json_serializable (VDict data) = true.

(** What the induction over a sequence of transactions carries along: the
    clock reads dates, the history was written by [_record_change], the
    profile holds nothing [json] cannot write, and the counter is not
    negative. *)
Definition steady (s : pstate) : Prop :=
  (forall n, valid (clock (env s) n) = true)
  /\ Forall recorded (historical_changes (self s))
  /\ json_serializable (last_login_time (login_metrics (self s))) = true
  /\ 0 <= total_transactions (transaction_metrics (self s)).

(** The metrics the risk scores read are not negative. *)
Definition nonnegative_metrics (p : FraudProfile) : Prop :=
  0 <= login_velocity_24h (login_metrics p)
  /\ 0 <= unique_locations (login_metrics p)
  /\ 0 <= unique_devices (login_metrics p)
  /\ 0 <= transaction_velocity_24h (transaction_metrics p)
  /\ (0 <= avg_amount (transaction_metrics p))%Q
  /\ 0 <= unique_merchants (transaction_metrics p)
  /\ 0 <= session_velocity_24h (session_metrics p)
  /\ (0 <= avg_session_duration (session_metrics p))%Q
  /\ 0 <= feature_usage_velocity_24h (feature_usage_metrics p)
  /\ (0 <= std_feature_frequency (feature_usage_metrics p))%Q
  /\ (0 <= avg_feature_frequency (feature_usage_metrics p))%Q.

(** *** The detector *)

(** No stored snapshot: no directory, or no [.json] file in it. *)
Definition no_snapshots (w : world) : Prop :=
  match profiles_dir w with
  | None => True
  | Some dir => listed_snapshots dir = []
  end.

(** The four event types the detector holds a scaler and a model for. *)
Definition known_event_type (event_type : string) : Prop :=
  event_type = "login" \/ event_type = "transaction"
  \/ event_type = "session" \/ event_type = "feature_usage".

(** The row the transaction scaler and model are fitted on, for one stored
    snapshot. *)
Definition transaction_training_row (snapshot : pyval) : result (list Q) :=
  row ← snapshot_transaction_features snapshot; map_result as_number row.

(** The scoring call returns with [is_anomaly] true. *)
Definition flags_anomaly (d : AnomalyDetector) (p : FraudProfile)
    (event_type : string) (event_data : dict) : Prop :=
  exists confidence explanation,
    detect_anomaly d p event_type event_data = inr (true, confidence, explanation).

(** ** Fixtures *)

Definition epoch : datetime := mk_datetime 2024 1 1 0 0 0 0.

(** No directory yet, and a clock that stands at [epoch]. *)
Definition frozen_world : world :=
  {| profiles_dir := None; clock := fun _ => epoch; ticks := 0 |}.

(** No directory yet, and a clock that stands at [t]. *)
Definition clock_at (t : datetime) : world :=
  {| profiles_dir := None; clock := fun _ => t; ticks := 0 |}.

(** A fresh profile processes one transaction of 100 at each of [times],
    in a world whose clock stands at [now]. *)
Definition transactions_at (now : datetime) (times : list datetime)
    : pstate * result unit :=
  for_each update_with_transaction
    (map (fun t => transaction_event (isoformat t) 100 "m1") times)
    (fresh "u1" (clock_at now)).

(** Three instants ten minutes apart, and three instants five months
    apart. *)
Definition ten_minutes_apart : list datetime :=
  [epoch; mk_datetime 2024 1 1 0 10 0 0; mk_datetime 2024 1 1 0 20 0 0].

Definition five_months_apart : list datetime :=
  [epoch; mk_datetime 2024 6 1 0 0 0 0; mk_datetime 2024 11 1 0 0 0 0].

(** The two logins of the scenario of the specification, at 2024-01-01
    00:00:00 and 600 seconds later, on a fresh profile, in a world whose
    clock stands at [now]: the outcome of the first call, and of the
    second. *)
Definition first_login_at (now : datetime) : pstate * result unit :=
  update_with_login (mobile_login "2024-01-01T00:00:00") (fresh "u1" (clock_at now)).

Definition second_login_at (now : datetime) : pstate * result unit :=
  update_with_login (mobile_login "2024-01-01T00:10:00") (fst (first_login_at now)).

(** A stand-in for scikit-learn: a scaler that leaves a row as it is, and a
    model that scores every row -1/2. *)
Definition toy_sklearn : sklearn :=
  {| scaler_fit := fun _ => inr (fun x => inr x);
     model_fit := fun _ _ => inr (fun _ => inr (- (1 # 2))%Q) |}.

(** A world with one stored snapshot: a fresh profile has processed one
    transaction. *)
Definition one_snapshot_world : world :=
  env (fst (update_with_transaction
              (transaction_event "2024-01-01T00:00:00" 100 "m1")
              (fresh "u1" frozen_world))).

(** A profile that has processed two transactions, of 100 and of 300. *)
Definition two_transactions : pstate :=
  fst (update_with_transaction
         (transaction_event "2024-01-01T00:10:00" 300 "m2")
         (fst (update_with_transaction
                 (transaction_event "2024-01-01T00:00:00" 100 "m1")
                 (fresh "u1" frozen_world)))).

(** The three transactions of the scenario of the specification. *)
Definition three_transactions : list (datetime * Q * string) :=
  [(epoch, 100%Q, "m1");
   (mk_datetime 2024 1 1 0 10 0 0, 200%Q, "m2");
   (mk_datetime 2024 1 1 0 20 0 0, 300%Q, "m3")].

(** A fresh profile that has processed one transaction, of amount -5. *)
Definition one_refund : pstate :=
  fst (update_with_transaction
         (transaction_event "2024-01-01T00:00:00" (-5) "m1")
         (fresh "u1" frozen_world)).

(** A fresh profile that has processed a transaction, a session and a
    feature use, and no login. *)
Definition no_login_yet : pstate :=
  fst (update_with_feature_usage (feature_event "2024-01-01T00:20:00" "transfer" 1)
     (fst (update_with_session (session_event "2024-01-01T00:10:00" 30)
        (fst (update_with_transaction
                (transaction_event "2024-01-01T00:00:00" 100 "m1")
                (fresh "u1" frozen_world)))))).

(** A fresh profile processes one event of each kind, the login last. *)
Definition each_kind_once : pstate * result unit :=
  update_with_login (mobile_login "2024-01-01T00:30:00")
    (fst (update_with_feature_usage (feature_event "2024-01-01T00:20:00" "transfer" 1)
       (fst (update_with_session (session_event "2024-01-01T00:10:00" 30)
          (fst (update_with_transaction
                  (transaction_event "2024-01-01T00:00:00" 100 "m1")
                  (fresh "u1" frozen_world))))))).

(** ** The HTTP surface ([api.py])

    Every endpoint builds the profile of the user, runs its body on it and
    hands the value the body returns to the framework, which answers its
    JSON encoding; an exception of the endpoint's own code becomes an
    [HTTPException] with the endpoint's status code.  The detector is the
    one the module creates when it is imported. *)

Inductive response :=
| Answer (body : pyval)
| HTTPError (status_code : Z).

(** What an endpoint hands to the framework.  A scoring endpoint returns a
    dict whose [is_anomaly] is the [numpy.bool_] the comparison in
    [detect_anomaly] yields; every other returned value is built from
    Python's own types. *)
Inductive returned :=
| Plain (v : pyval)
| Scored (profile : pyval) (is_anomaly : bool) (confidence : Q) (explanation : pyval).

(** The framework's JSON encoding of a returned value.  It has no encoder
    for [numpy.bool_]: encoding the dict of a scoring endpoint raises, after
    the endpoint has returned. *)
Definition jsonable_encoder (r : returned) : option pyval :=
  match r with
  | Plain v => Some v
  | Scored _ _ _ _ => None
  end.

(** [try: profile = FraudProfile(user_id); body
     except Exception: raise HTTPException(status_code=code)],
    and the framework's answer: an exception raised while encoding is
    outside the [try], and is answered 500. *)
Definition endpoint (code : Z) (uid : string) (body : M pstate returned) (w : world)
    : world * response :=
  match FraudProfile_init uid w with
  | (s, inl _) => (env s, HTTPError code)
  | (s, inr _) =>
      match body s with
      | (s', inl _) => (env s', HTTPError code)
      | (s', inr r) =>
          (env s', match jsonable_encoder r with
                   | Some v => Answer v
                   | None => HTTPError 500
                   end)
      end
  end.

(** The dict a scoring endpoint returns. *)
Definition scored (profile : FraudProfile) (r : bool * Q * pyval) : returned :=
  let '(is_anomaly, confidence, explanation) := r in
  Scored (to_dict profile) is_anomaly confidence explanation.

Definition get_profile (uid : string) : world -> world * response :=
  endpoint 404 uid
    (profile <- gets self ;;
     ret (Plain (to_dict profile))).

Definition process_login (d : AnomalyDetector) (uid : string) (login_event : dict)
    : world -> world * response :=
  endpoint 400 uid
    (profile <- gets self ;;
     r <- lift (detect_anomaly d profile "login" login_event) ;;
     (if fst (fst r)
      then modify_login (fun m => set_suspicious_login_count (suspicious_login_count m + 1) m)
      else ret tt) ;;
     update_with_login login_event ;;
     profile <- gets self ;;
     ret (scored profile r)).

Definition process_transaction (d : AnomalyDetector) (uid : string)
    (transaction_event : dict) : world -> world * response :=
  endpoint 400 uid
    (profile <- gets self ;;
     r <- lift (detect_anomaly d profile "transaction" transaction_event) ;;
     (if fst (fst r)
      then modify_transaction
             (fun m => set_suspicious_transaction_count
                         (suspicious_transaction_count m + 1) m)
      else ret tt) ;;
     update_with_transaction transaction_event ;;
     profile <- gets self ;;
     ret (scored profile r)).

Definition process_session (uid : string) (session_event : dict)
    : world -> world * response :=
  endpoint 400 uid
    (update_with_session session_event ;;
     profile <- gets self ;;
     ret (Plain (VDict [("profile", to_dict profile)]))).

Definition process_feature_usage (d : AnomalyDetector) (uid : string)
    (feature_event : dict) : world -> world * response :=
  endpoint 400 uid
    (profile <- gets self ;;
     r <- lift (detect_anomaly d profile "feature_usage" feature_event) ;;
     update_with_feature_usage feature_event ;;
     profile <- gets self ;;
     ret (scored profile r)).

Definition get_risk_assessment (uid : string) : world -> world * response :=
  endpoint 404 uid
    (profile <- gets self ;;
     ret (Plain
            (VDict [("user_id", VStr uid);
                    ("risk_scores", VDict (RiskScores_dict (risk_scores profile)));
                    ("suspicious_activities",
                     VDict [("login_count",
                             VInt (suspicious_login_count (login_metrics profile)));
                            ("transaction_count",
                             VInt (suspicious_transaction_count
                                     (transaction_metrics profile)))])]))).

(** The POST endpoint of each event kind; the one for sessions does not
    consult the detector. *)
Definition process (k : event_kind) (d : AnomalyDetector) (uid : string)
    (event : dict) : world -> world * response :=
  match k with
  | Login => process_login d uid event
  | Transaction => process_transaction d uid event
  | Session => process_session uid event
  | FeatureUsage => process_feature_usage d uid event
  end.

(** ** Further vocabulary *)

(** The metric groups an update of kind [k] has no business with. *)
Definition other_groups (k : event_kind) (p : FraudProfile) :=
  match k with
  | Login =>
      (None, Some (transaction_metrics p), Some (session_metrics p),
       Some (feature_usage_metrics p))
  | Transaction =>
      (Some (login_metrics p), None, Some (session_metrics p),
       Some (feature_usage_metrics p))
  | Session =>
      (Some (login_metrics p), Some (transaction_metrics p), None,
       Some (feature_usage_metrics p))
  | FeatureUsage =>
      (Some (login_metrics p), Some (transaction_metrics p),
       Some (session_metrics p), None)
  end.

(** The counters of the profile that no method of [FraudProfile] assigns. *)
Definition unassigned_counters (p : FraudProfile) : Z * Z * Z :=
  (suspicious_login_count (login_metrics p),
   suspicious_transaction_count (transaction_metrics p),
   unique_features_used (feature_usage_metrics p)).

(** What an update does to the profile between reading the event and its
    common end: it writes the fields of its own group, and nothing else. *)
Definition same_outside (k : event_kind) (s s1 : pstate) : Prop :=
  env s1 = env s
  /\ user_id (self s1) = user_id (self s)
  /\ historical_changes (self s1) = historical_changes (self s)
  /\ other_groups k (self s1) = other_groups k (self s)
  /\ unassigned_counters (self s1) = unassigned_counters (self s).

(** The file of [uid] holds the snapshot of profile [p]. *)
Definition stored (uid : string) (p : FraudProfile) (w : world) : Prop :=
  read_file (profile_file uid) w = Some (JsonText (profile_data p)).



(** A world in which one login has been applied for user [u1]: the
    directory holds the broken file the failed save left. *)
Definition world_after_login : world := env (fst each_kind_once).

(** A stand-in for scikit-learn that behaves on small samples as the
    estimators the constructor builds: [StandardScaler] fits any matrix that
    is not empty and leaves a row as it is here; [IsolationForest] fits, and
    scores every row -1/2 here; [LocalOutlierFactor(n_neighbors=20)] cannot
    be fitted on a single row, and fitted on more it offers no
    [score_samples], [novelty] not being set. *)
Definition small_sample_sklearn : sklearn :=
  {| scaler_fit := fun X =>
       match X with
       | [] => inl ValueError
       | _ => inr (fun x => inr x)
       end;
     model_fit := fun ty X =>
       if String.eqb ty "transaction" then
         match X with
         | _ :: _ :: _ => inr (fun _ => inl AttributeError)
         | _ => inl ValueError
         end
       else inr (fun _ => inr (- (1 # 2))%Q) |}.

(** The detector of a service that is started in [one_snapshot_world]: the
    login estimators are fitted; fitting the transaction model on the one
    row raises, which ends the fitting. *)
Definition one_snapshot_detector : AnomalyDetector :=
  AnomalyDetector_init small_sample_sklearn one_snapshot_world.

(** The bank as [AnomalyDetector.__init__] builds it, before
    [_initialize_models] runs: four estimators and four scalers, none
    fitted. *)
Definition unfitted_bank : AnomalyDetector :=
  let unfitted {A} : gmap string (estimator A) :=
    <["login" := Unfitted]> (<["transaction" := Unfitted]>
      (<["session" := Unfitted]> (<["feature_usage" := Unfitted]> ∅))) in
  {| models := unfitted; scalers := unfitted |}.

(** The row the scaler and the model of kind [k] are fitted on, for one
    stored snapshot: the four (or five) values [_initialize_models] reads
    from it, as a row of [np.array]. *)
Definition training_row (k : event_kind) (snapshot : pyval) : result (list Q) :=
  row ← match k with
        | Login => snapshot_login_features snapshot
        | Transaction => snapshot_transaction_features snapshot
        | Session => snapshot_session_features snapshot
        | FeatureUsage => snapshot_feature_usage_features snapshot
        end;
  map_result as_number row.

(** Fitting the estimators of kind [k] on the snapshots [docs] goes
    through: the rows are numeric and make the matrix [X], the scaler fitted
    on [X] is [tr], it transforms every row of [X], and the model fitted on
    the transformed matrix is [sc]. *)
Definition fits (sk : sklearn) (docs : list pyval) (k : event_kind)
    (X : list (list Q)) (tr : scaler_fn) (sc : score_fn) : Prop :=
  map_result (training_row k) docs = inr X
  /\ scaler_fit sk X = inr tr
  /\ exists scaled, map_result tr X = inr scaled
                     /\ model_fit sk (kind_name k) scaled = inr sc.

(** The profile whose snapshot [one_snapshot_world] holds. *)
Definition stored_once : FraudProfile :=
  self (fst (update_with_transaction
               (transaction_event "2024-01-01T00:00:00" 100 "m1")
               (fresh "u1" frozen_world))).

(** A second user processes a transaction in [one_snapshot_world]: the
    profile it leaves, and the world, which holds two snapshots. *)
Definition second_user : pstate :=
  fst (update_with_transaction
         (transaction_event "2024-01-01T00:05:00" 40 "m2")
         (fresh "u2" one_snapshot_world)).

Definition two_snapshot_world : world := env second_user.






(** * Properties *)

(** ** ISO text: what [isoformat] writes, [fromisoformat] reads back *)

Lemma digit_val_char (d : Z) : 0 <= d < 10 -> digit_val (digit_char d) = Some d.
Proof.
  intros H.
  assert (d = 0 \/ d = 1 \/ d = 2 \/ d = 3 \/ d = 4 \/ d = 5 \/ d = 6
          \/ d = 7 \/ d = 8 \/ d = 9) as Hd by lia.
  decompose [or] Hd; subst d; reflexivity.
Qed.

Lemma append_cons (c : ascii) (s r : string) :
  String c s +:+ r = String c (s +:+ r).
Proof. reflexivity. Qed.

Lemma append_nil (r : string) : "" +:+ r = r.
Proof. reflexivity. Qed.

Lemma append_nil_r (s : string) : s +:+ "" = s.
Proof. induction s as [| c s IH]; [reflexivity |]. now rewrite append_cons, IH. Qed.

Lemma take_digits_pad (n : nat) : forall (z acc : Z) (rest : string),
  0 <= z < 10 ^ Z.of_nat n ->
  take_digits n acc (pad n z +:+ rest) = Some (acc * 10 ^ Z.of_nat n + z, rest).
Proof.
  induction n as [| n IH]; intros z acc rest Hz.
  - simpl in *. f_equal. f_equal. lia.
  - rewrite Nat2Z.inj_succ, Z.pow_succ_r in Hz by lia.
    assert (0 < 10 ^ Z.of_nat n) as Hpos by (apply Z.pow_pos_nonneg; lia).
    cbn [pad]. rewrite append_cons. cbn [take_digits].
    rewrite digit_val_char.
    2:{ split; [apply Z.div_pos; lia | apply Z.div_lt_upper_bound; lia]. }
    cbn [mbind option_bind].
    rewrite IH by (apply Z.mod_pos_bound; lia).
    f_equal. f_equal.
    rewrite Nat2Z.inj_succ, Z.pow_succ_r by lia.
    pose proof (Z.div_mod z (10 ^ Z.of_nat n)) as Hdm. lia.
Qed.

Lemma days_in_month_le (y m : Z) : 1 <= m <= 12 -> _days_in_month y m <= 31.
Proof.
  intros Hm. unfold _days_in_month.
  destruct ((m =? 2) && _is_leap y); [lia |].
  assert (m = 1 \/ m = 2 \/ m = 3 \/ m = 4 \/ m = 5 \/ m = 6 \/ m = 7
          \/ m = 8 \/ m = 9 \/ m = 10 \/ m = 11 \/ m = 12) as H by lia.
  decompose [or] H; subst m; vm_compute; congruence.
Qed.

Lemma valid_fields (t : datetime) :
  valid t = true ->
  0 <= year t < 10 ^ Z.of_nat 4 /\ 0 <= month t < 10 ^ Z.of_nat 2
  /\ 0 <= day t < 10 ^ Z.of_nat 2 /\ 0 <= hour t < 10 ^ Z.of_nat 2
  /\ 0 <= minute t < 10 ^ Z.of_nat 2 /\ 0 <= second t < 10 ^ Z.of_nat 2
  /\ 0 <= microsecond t < 10 ^ Z.of_nat 6.
Proof.
  unfold valid. intros H.
  repeat (apply andb_prop in H; destruct H as [H ?]).
  pose proof (days_in_month_le (year t) (month t)) as Hdim.
  cbn. lia.
Qed.

Lemma expect_cons (c : ascii) (s : string) : expect c (String c s) = Some s.
Proof. unfold expect. now rewrite Ascii.eqb_refl. Qed.

Lemma any_char_cons (c : ascii) (s : string) : any_char (String c s) = Some s.
Proof. reflexivity. Qed.

Theorem parse_iso_isoformat (t : datetime) :
  valid t = true -> parse_iso (isoformat t) = Some t.
Proof.
  intros Hv.
  destruct (valid_fields t Hv) as (Hy & Hmo & Hd & Hh & Hmi & Hs & Hus).
  unfold parse_iso, isoformat.
  rewrite take_digits_pad by exact Hy. cbn [mbind option_bind]; rewrite ?append_cons, ?append_nil.
  rewrite expect_cons. cbn [mbind option_bind]; rewrite ?append_cons, ?append_nil.
  rewrite take_digits_pad by exact Hmo. cbn [mbind option_bind]; rewrite ?append_cons, ?append_nil.
  rewrite expect_cons. cbn [mbind option_bind]; rewrite ?append_cons, ?append_nil.
  rewrite take_digits_pad by exact Hd. cbn [mbind option_bind]; rewrite ?append_cons, ?append_nil.
  rewrite any_char_cons. cbn [mbind option_bind]; rewrite ?append_cons, ?append_nil.
  rewrite take_digits_pad by exact Hh. cbn [mbind option_bind]; rewrite ?append_cons, ?append_nil.
  rewrite expect_cons. cbn [mbind option_bind]; rewrite ?append_cons, ?append_nil.
  rewrite take_digits_pad by exact Hmi. cbn [mbind option_bind]; rewrite ?append_cons, ?append_nil.
  rewrite expect_cons. cbn [mbind option_bind]; rewrite ?append_cons, ?append_nil.
  rewrite take_digits_pad by exact Hs. cbn [mbind option_bind]; rewrite ?append_cons, ?append_nil.
  replace (0 * 10 ^ Z.of_nat 4 + year t) with (year t) by lia.
  replace (0 * 10 ^ Z.of_nat 2 + month t) with (month t) by lia.
  replace (0 * 10 ^ Z.of_nat 2 + day t) with (day t) by lia.
  replace (0 * 10 ^ Z.of_nat 2 + hour t) with (hour t) by lia.
  replace (0 * 10 ^ Z.of_nat 2 + minute t) with (minute t) by lia.
  replace (0 * 10 ^ Z.of_nat 2 + second t) with (second t) by lia.
  destruct (microsecond t =? 0) eqn:Hz.
  - apply Z.eqb_eq in Hz. cbn [mbind option_bind].
    destruct t as [y mo d h mi se us]. cbn in *. subst us.
    now rewrite Hv.
  - rewrite expect_cons. cbn [mbind option_bind].
    unfold parse_fraction.
    rewrite <- (append_nil_r (pad 6 (microsecond t))).
    rewrite take_digits_pad by exact Hus. cbn [mbind option_bind].
    replace (0 * 10 ^ Z.of_nat 6 + microsecond t) with (microsecond t) by lia.
    destruct t as [y mo d h mi se us]. cbn in *. now rewrite Hv.
Qed.

#[local] Arguments parse_iso : simpl never.
#[local] Arguments isoformat : simpl never.
#[local] Arguments compute_risk_scores : simpl never.
#[local] Arguments profile_data : simpl never.
#[local] Arguments json_serializable : simpl never.
#[local] Arguments np_std : simpl never.
#[local] Arguments Datetime.sub : simpl never.
#[local] Arguments total_seconds : simpl never.

Lemma fromisoformat_isoformat (t : datetime) :
  valid t = true -> fromisoformat (VStr (isoformat t)) = inr t.
Proof. intros H. unfold fromisoformat. now rewrite parse_iso_isoformat. Qed.

(** ** Running a method *)

Lemma bind_lift_inr {S A B} (r : result A) (a : A) (k : A -> M S B) (s : S) :
  r = inr a -> bind (lift r) k s = k a s.
Proof. intros ->. reflexivity. Qed.

Lemma bind_lift_inl {S A B} (r : result A) (e : exn) (k : A -> M S B) (s : S) :
  r = inl e -> bind (lift r) k s = (s, inl e).
Proof. intros ->. reflexivity. Qed.

Lemma bind_modify {S B} (f : S -> S) (k : unit -> M S B) (s : S) :
  bind (modify f) k s = k tt (f s).
Proof. reflexivity. Qed.

Lemma bind_gets {S A B} (f : S -> A) (k : A -> M S B) (s : S) :
  bind (gets f) k s = k (f s) s.
Proof. reflexivity. Qed.

(** ** The velocity scan *)

(** Whether a scan raises does not depend on the window. *)
Lemma velocity_scan_window (ty key : string) (t : datetime) (w w' : Z) (h : list pyval) :
  forall n, velocity_scan ty key t w h = inr n ->
            exists n', velocity_scan ty key t w' h = inr n'.
Proof.
  unfold velocity_scan.
  induction h as [| c h IH]; intros n Hn; cbn in *; [eauto |].
  unfold in_window in *.
  destruct (getitem c "event_type") as [e | v]; cbn in *; [congruence |].
  destruct (eq_str v ty).
  - destruct (getitem c key) as [e | ts]; cbn in *; [congruence |].
    destruct (fromisoformat ts) as [e | t']; cbn in *; [congruence |].
    destruct (count_if _ h) as [e | m] eqn:Hm; [congruence |].
    destruct (IH m eq_refl) as [m' ->]. eauto.
  - destruct (count_if _ h) as [e | m] eqn:Hm; [congruence |].
    destruct (IH m eq_refl) as [m' ->]. eauto.
Qed.

(** A scan that returns, returns the count [velocity] of the history. *)
Lemma velocity_scan_velocity (ty : string) (t : datetime) (w : Z) (h : list pyval) :
  forall n, velocity_scan ty "timestamp" t w h = inr n -> n = velocity h ty t w.
Proof.
  unfold velocity_scan, velocity, entry_has_type, elapsed_within, entry_timestamp.
  induction h as [| c h IH]; intros n Hn; cbn in Hn.
  - now inversion Hn.
  - unfold in_window in Hn.
    cbn [List.filter].
    destruct (getitem c "event_type") as [e | v]; cbn in Hn; [congruence |].
    destruct (eq_str v ty); cbn [andb].
    + destruct (getitem c "timestamp") as [e | ts]; cbn in Hn; [congruence |].
      unfold fromisoformat in Hn.
      destruct ts; cbn in Hn; try congruence.
      destruct (parse_iso s) as [t' |]; cbn in Hn; [| congruence].
      destruct (count_if _ h) as [e | m]; [congruence |].
      specialize (IH m eq_refl). inversion Hn; subst n.
      destruct (Qle_bool _ _); cbn [length]; lia.
    + destruct (count_if _ h) as [e | m]; [congruence |].
      specialize (IH m eq_refl). inversion Hn. lia.
Qed.

(** ** The common end of an update *)

#[local] Arguments velocity_scan : simpl never.

Lemma finish_ok (k : event_kind) (t : datetime) (ev : dict) (s : pstate) (n24 n7 : Z) :
  velocity_scan (kind_name k) (time_key k) t 86400 (historical_changes (self s)) = inr n24 ->
  velocity_scan (kind_name k) (time_key k) t 604800 (historical_changes (self s)) = inr n7 ->
  finish k t ev s =
    let w := env s in
    let p := finished k ev n24 n7 (clock w (ticks w)) (clock w (S (ticks w))) (self s) in
    ({| self := p;
        env := {| profiles_dir := Some (saved p w);
                  clock := clock w;
                  ticks := S (S (ticks w)) |} |},
     if json_serializable (profile_data p) then inr tt else inl TypeError).
Proof.
  intros H24 H7.
  destruct k; unfold finish, _update_velocity_metrics, scan, bind; cbn in *;
    rewrite H24; cbn; rewrite H7; cbn;
    unfold _save_profile, write_json, bind, gets, saved, finished; cbn;
    match goal with |- context [json_serializable ?v] =>
      destruct (json_serializable v) end; reflexivity.
Qed.

Lemma finish_raises_24h (k : event_kind) (t : datetime) (ev : dict) (s : pstate) (e : exn) :
  velocity_scan (kind_name k) (time_key k) t 86400 (historical_changes (self s)) = inl e ->
  finish k t ev s = (s, inl e).
Proof.
  intros H24.
  destruct k; unfold finish, _update_velocity_metrics, scan, bind; cbn in *;
    now rewrite H24.
Qed.

(** Whatever the outcome, [finish] leaves the basic fields alone. *)
Lemma finish_basics (k : event_kind) (t : datetime) (ev : dict) (s : pstate) :
  basics (self (fst (finish k t ev s))) = basics (self s).
Proof.
  destruct (velocity_scan (kind_name k) (time_key k) t 86400
              (historical_changes (self s))) as [e | n24] eqn:H24.
  - now rewrite (finish_raises_24h _ _ _ _ _ H24).
  - destruct (velocity_scan_window _ _ _ _ 604800 _ _ H24) as [n7 H7].
    rewrite (finish_ok _ _ _ _ _ _ H24 H7). now destruct k.
Qed.

(** ** The four updates, up to their common end *)

#[local] Arguments finish : simpl never.

Lemma update_with_login_unfold (ev : dict) :
  update_with_login ev =
  (current_time <- lift (event_time "timestamp" ev) ;;
   modify_login (fun m => set_total_logins (total_logins m + 1) m) ;;
   n <- lift (v ← dict_item "device_type" ev; len_set_singleton v) ;;
   modify_login (set_unique_devices n) ;;
   n <- lift (v ← dict_item "ip_address" ev; len_set_singleton v) ;;
   modify_login (set_unique_ips n) ;;
   n <- lift (v ← dict_item "geolocation" ev; len_set_singleton v) ;;
   modify_login (set_unique_locations n) ;;
   m <- gets (fun s => login_metrics (self s)) ;;
   (if truthy (last_login_time m) then
      d <- lift (datetime_sub current_time (last_login_time m)) ;;
      avg <- lift (py_div (avg_login_interval m * inject_Z (total_logins m - 1)
                           + total_seconds d)
                          (inject_Z (total_logins m))) ;;
      modify_login (set_avg_login_interval avg)
    else ret tt) ;;
   modify_login (set_last_login_time (VDatetime current_time)) ;;
   finish Login current_time ev)%py.
Proof. reflexivity. Qed.

Lemma update_with_transaction_unfold (ev : dict) :
  update_with_transaction ev =
  (current_time <- lift (event_time "timestamp" ev) ;;
   amount <- lift (float_field "amount" ev) ;;
   modify_transaction (fun m => set_total_transactions (total_transactions m + 1) m) ;;
   modify_transaction (fun m => set_total_amount (total_amount m + amount) m) ;;
   m <- gets (fun s => transaction_metrics (self s)) ;;
   avg <- lift (py_div (total_amount m) (inject_Z (total_transactions m))) ;;
   modify_transaction (set_avg_amount avg) ;;
   modify_transaction (fun m => set_max_amount (py_max (max_amount m) amount) m) ;;
   n <- lift (v ← dict_item "merchant_id" ev; len_set_singleton v) ;;
   modify_transaction (set_unique_merchants n) ;;
   finish Transaction current_time ev)%py.
Proof. reflexivity. Qed.

Lemma update_with_session_unfold (ev : dict) :
  update_with_session ev =
  (current_time <- lift (event_time "start_time" ev) ;;
   duration <- lift (float_field "session_duration" ev) ;;
   modify_session (fun m => set_total_sessions (total_sessions m + 1) m) ;;
   m <- gets (fun s => session_metrics (self s)) ;;
   avg <- lift (py_div (avg_session_duration m * inject_Z (total_sessions m - 1)
                        + duration)
                       (inject_Z (total_sessions m))) ;;
   modify_session (set_avg_session_duration avg) ;;
   modify_session (fun m => set_max_session_duration
                              (py_max (max_session_duration m) duration) m) ;;
   finish Session current_time ev)%py.
Proof. reflexivity. Qed.

Lemma update_with_feature_usage_unfold (ev : dict) :
  update_with_feature_usage ev =
  (current_time <- lift (event_time "timestamp" ev) ;;
   frequency <- lift (py_float (dict_get_default "frequency" (VFloat 1) ev)) ;;
   modify_feature_usage (fun m => set_feature_usage_count (feature_usage_count m + 1) m) ;;
   modify_feature_usage (fun m => set_total_frequency (total_frequency m + frequency) m) ;;
   m <- gets (fun s => feature_usage_metrics (self s)) ;;
   avg <- lift (py_div (total_frequency m) (inject_Z (feature_usage_count m))) ;;
   modify_feature_usage (set_avg_feature_frequency avg) ;;
   h <- gets (fun s => historical_changes (self s)) ;;
   freq_values <- lift (fs ← history_frequencies h; inr (fs ++ [VFloat frequency])%list) ;;
   std <- (if (1 <? Z.of_nat (length freq_values))
           then lift (xs ← map_result as_number freq_values; inr (np_std xs))
           else ret 0%Q) ;;
   modify_feature_usage (set_std_feature_frequency std) ;;
   finish FeatureUsage current_time ev)%py.
Proof. reflexivity. Qed.

(** Destructs the results the method binds, one after the other. *)
Ltac run_binds :=
  unfold bind, lift, modify_login, modify_transaction, modify_session,
         modify_feature_usage, modify, gets, ret;
  repeat match goal with
         | |- context [match ?r with inl _ => _ | inr _ => _ end] =>
             let E := fresh "E" in destruct r eqn:E
         | |- context [if ?b then _ else _] =>
             let E := fresh "E" in destruct b eqn:E
         end.

(** An update either raises before its common end, leaving the history as
    it was, or reaches it with the event's time read and the history and
    the world still as they were. *)
Lemma update_with_cases (k : event_kind) (ev : dict) (s : pstate) :
  (exists e s1, update_with k ev s = (s1, inl e)
                /\ historical_changes (self s1) = historical_changes (self s)
                /\ velocity_24h k (self s1) = velocity_24h k (self s))
  \/ (exists t s1, event_time (time_key k) ev = inr t
                   /\ update_with k ev s = finish k t ev s1
                   /\ historical_changes (self s1) = historical_changes (self s)
                   /\ env s1 = env s).
Proof.
  destruct k; cbn [update_with time_key].
  - rewrite update_with_login_unfold. run_binds; eauto 10.
  - rewrite update_with_transaction_unfold. run_binds; eauto 10.
  - rewrite update_with_session_unfold. run_binds; eauto 10.
  - rewrite update_with_feature_usage_unfold. run_binds; eauto 10.
Qed.

(** ** Velocity *)

(** What an update that records its event leaves in its two velocity
    fields: the number of same-type entries that were in the history before
    the event was appended, for which the time from the entry's stamp (the
    reading of the clock when it was appended) to the event's timestamp is
    at most 86400 resp. 604800 seconds.  The event's own entry is appended
    after the scan, and an entry stamped after the event's timestamp is
    counted whatever the window. *)
Lemma recorded_velocity_counts_stamps (k : event_kind) (ev : dict) (s : pstate) :
  k <> Session ->
  length (historical_changes (self (fst (update_with k ev s))))
    = S (length (historical_changes (self s))) ->
  exists t : datetime,
    event_time "timestamp" ev = inr t
    /\ historical_changes (self (fst (update_with k ev s)))
       = (historical_changes (self s)
          ++ [change_entry (clock (env s) (ticks (env s))) (kind_name k) ev])%list
    /\ velocity_24h k (self (fst (update_with k ev s)))
       = velocity (historical_changes (self s)) (kind_name k) t 86400
    /\ velocity_7d k (self (fst (update_with k ev s)))
       = velocity (historical_changes (self s)) (kind_name k) t 604800.
Proof.
  intros Hk Hlen.
  destruct (update_with_cases k ev s) as [(e & s1 & Hrun & Hh & _) | (t & s1 & Ht & Hrun & Hh & Henv)].
  - rewrite Hrun in Hlen. cbn [fst] in Hlen. rewrite Hh in Hlen. lia.
  - assert (time_key k = "timestamp") as Hkey by (destruct k; [reflexivity.. | congruence | reflexivity]).
    rewrite Hkey in Ht. exists t. split; [exact Ht |].
    rewrite Hrun in *.
    destruct (velocity_scan (kind_name k) (time_key k) t 86400
                (historical_changes (self s1))) as [e | n24] eqn:H24.
    + rewrite (finish_raises_24h _ _ _ _ _ H24) in Hlen.
      cbn [fst] in Hlen. rewrite Hh in Hlen. lia.
    + destruct (velocity_scan_window _ _ _ _ 604800 _ _ H24) as [n7 H7].
      rewrite (finish_ok _ _ _ _ _ _ H24 H7). cbn [fst self].
      rewrite Hkey, Hh in H24, H7.
      apply velocity_scan_velocity in H24, H7. subst n24 n7.
      rewrite <- Hh, Henv.
      destruct k; try congruence; repeat split; reflexivity.
Qed.

(** C1 fails on the code.  The velocity fields do not count the events by
    their own timestamps: the scan runs before the event being processed
    is recorded, and it measures each earlier entry from the reading of the
    wall clock that [_record_change] stamped it with.

    - Three transactions five months apart, processed while the clock
      stands at 2026-01-01: every update returns, and after the third both
      fields are 2, where one event (the third itself) lies within 24 hours,
      and within 7 days, before the third's timestamp.
    - Three transactions ten minutes apart, processed while the clock
      stands at 2020-01-01: every update returns, and after the third both
      fields are 0, where all three events lie within 24 hours before the
      third's timestamp.
    - One transaction processed at the very instant it carries: both fields
      are 0, where the event itself lies within the window. *)
Theorem C1_velocity_follows_the_clock :
  let replayed := transactions_at (mk_datetime 2026 1 1 0 0 0 0) five_months_apart in
  let ahead := transactions_at (mk_datetime 2020 1 1 0 0 0 0) ten_minutes_apart in
  let live := transactions_at epoch [epoch] in
  let tm r := transaction_metrics (self (fst r)) in
  (snd replayed = inr tt
   /\ length (historical_changes (self (fst replayed))) = 3%nat
   /\ transaction_velocity_24h (tm replayed) = 2
   /\ transaction_velocity_7d (tm replayed) = 2
   /\ claimed_velocity five_months_apart (mk_datetime 2024 11 1 0 0 0 0) 86400 = 1
   /\ claimed_velocity five_months_apart (mk_datetime 2024 11 1 0 0 0 0) 604800 = 1)
  /\ (snd ahead = inr tt
      /\ length (historical_changes (self (fst ahead))) = 3%nat
      /\ transaction_velocity_24h (tm ahead) = 0
      /\ transaction_velocity_7d (tm ahead) = 0
      /\ claimed_velocity ten_minutes_apart (mk_datetime 2024 1 1 0 20 0 0) 86400 = 3
      /\ claimed_velocity ten_minutes_apart (mk_datetime 2024 1 1 0 20 0 0) 604800 = 3)
  /\ (snd live = inr tt
      /\ length (historical_changes (self (fst live))) = 1%nat
      /\ transaction_velocity_24h (tm live) = 0
      /\ transaction_velocity_7d (tm live) = 0
      /\ claimed_velocity [epoch] epoch 86400 = 1
      /\ claimed_velocity [epoch] epoch 604800 = 1).
Proof. vm_compute. repeat split; reflexivity. Qed.

(** ** Unique counts *)

Lemma basics_login (p p' : FraudProfile) :
  basics p = basics p' ->
  total_logins (login_metrics p) = total_logins (login_metrics p')
  /\ unique_devices (login_metrics p) = unique_devices (login_metrics p')
  /\ unique_ips (login_metrics p) = unique_ips (login_metrics p')
  /\ unique_locations (login_metrics p) = unique_locations (login_metrics p')
  /\ avg_login_interval (login_metrics p) = avg_login_interval (login_metrics p')
  /\ last_login_time (login_metrics p) = last_login_time (login_metrics p').
Proof. unfold basics. intros H. inversion H. auto 10. Qed.

Lemma basics_transaction (p p' : FraudProfile) :
  basics p = basics p' ->
  total_transactions (transaction_metrics p) = total_transactions (transaction_metrics p')
  /\ total_amount (transaction_metrics p) = total_amount (transaction_metrics p')
  /\ avg_amount (transaction_metrics p) = avg_amount (transaction_metrics p')
  /\ max_amount (transaction_metrics p) = max_amount (transaction_metrics p')
  /\ unique_merchants (transaction_metrics p) = unique_merchants (transaction_metrics p').
Proof. unfold basics. intros H. inversion H. auto 10. Qed.

Lemma hashable_field_len (key : string) (event : dict) :
  hashable_field key event = true ->
  (v ← dict_item key event; len_set_singleton v) = inr 1.
Proof.
  unfold hashable_field, dict_item, len_set_singleton.
  destruct (dict_get key event) as [v |]; [| congruence].
  cbn. now intros ->.
Qed.

Lemma login_uniques_after (ev : dict) (s : pstate) (t : datetime) :
  event_time "timestamp" ev = inr t ->
  hashable_field "device_type" ev = true ->
  hashable_field "ip_address" ev = true ->
  hashable_field "geolocation" ev = true ->
  let m := login_metrics (self (fst (update_with_login ev s))) in
  unique_devices m = 1 /\ unique_ips m = 1 /\ unique_locations m = 1.
Proof.
  intros Ht Hd Hi Hg.
  rewrite update_with_login_unfold.
  rewrite (bind_lift_inr _ t) by exact Ht.
  unfold modify_login. rewrite bind_modify.
  rewrite (bind_lift_inr _ 1) by now apply hashable_field_len.
  rewrite bind_modify.
  rewrite (bind_lift_inr _ 1) by now apply hashable_field_len.
  rewrite bind_modify.
  rewrite (bind_lift_inr _ 1) by now apply hashable_field_len.
  rewrite bind_modify, bind_gets.
  run_binds; cbn [fst];
    try match goal with |- context [finish ?k ?t ?ev ?s] =>
      destruct (basics_login _ _ (finish_basics k t ev s)) as (_ & -> & -> & -> & _)
    end; cbn; auto.
Qed.

Lemma transaction_merchants_after (ev : dict) (s : pstate) (t : datetime) (a : Q) :
  event_time "timestamp" ev = inr t ->
  float_field "amount" ev = inr a ->
  hashable_field "merchant_id" ev = true ->
  total_transactions (transaction_metrics (self s)) <> -1 ->
  unique_merchants (transaction_metrics (self (fst (update_with_transaction ev s)))) = 1.
Proof.
  intros Ht Ha Hm Hn.
  rewrite update_with_transaction_unfold.
  rewrite (bind_lift_inr _ t) by exact Ht.
  rewrite (bind_lift_inr _ a) by exact Ha.
  unfold modify_transaction. rewrite !bind_modify, bind_gets.
  match goal with |- context [py_div ?x ?y] =>
    assert (py_div x y = inr (x / y)%Q) as Hdiv
  end.
  { unfold py_div. cbn.
    destruct (Qeq_bool _ 0) eqn:E; [| reflexivity].
    apply Qeq_bool_eq in E. unfold Qeq in E. cbn in E. lia. }
  rewrite (bind_lift_inr _ _ _ _ Hdiv), !bind_modify.
  rewrite (bind_lift_inr _ 1) by now apply hashable_field_len.
  rewrite bind_modify.
  match goal with |- context [finish ?k ?t ?ev ?s] =>
    destruct (basics_transaction _ _ (finish_basics k t ev s)) as (_ & _ & _ & _ & ->)
  end.
  reflexivity.
Qed.

(** C5.  After every login update, [unique_devices], [unique_ips] and
    [unique_locations] each equal 1, and after every transaction update
    [unique_merchants] equals 1, whatever the profile held before and
    whatever its history holds.  An update is one whose event can be read:
    its timestamp parses, the fields counted are there and hashable, the
    amount is a number; and the transaction counter is not the one value
    (-1) at which the mean's division raises. *)
Theorem C5_unique_counts_are_one
    (s : pstate) (login_ev transaction_ev : dict) (t t' : datetime) (a : Q) :
  event_time "timestamp" login_ev = inr t ->
  hashable_field "device_type" login_ev = true ->
  hashable_field "ip_address" login_ev = true ->
  hashable_field "geolocation" login_ev = true ->
  event_time "timestamp" transaction_ev = inr t' ->
  float_field "amount" transaction_ev = inr a ->
  hashable_field "merchant_id" transaction_ev = true ->
  total_transactions (transaction_metrics (self s)) <> -1 ->
  (let m := login_metrics (self (fst (update_with_login login_ev s))) in
   unique_devices m = 1 /\ unique_ips m = 1 /\ unique_locations m = 1)
  /\ unique_merchants
       (transaction_metrics (self (fst (update_with_transaction transaction_ev s)))) = 1.
Proof.
  intros Ht Hd Hi Hg Ht' Ha Hm Hn. split.
  - now apply (login_uniques_after login_ev s t).
  - now apply (transaction_merchants_after transaction_ev s t' a).
Qed.

(** The hypotheses of [C5_unique_counts_are_one] hold on a profile that has
    already seen another device, address, place and merchant. *)
Lemma C5_unique_counts_witness :
  let s0 := fresh "u1" frozen_world in
  let s1 := fst (update_with_login (mobile_login "2024-01-01T00:00:00") s0) in
  let s := fst (update_with_transaction
                  (transaction_event "2024-01-01T00:05:00" 100 "m1") s1) in
  let login_ev := login_event "2024-01-01T00:10:00" "Desktop" "2.2.2.2" "20,20" in
  let transaction_ev := transaction_event "2024-01-01T00:15:00" 250 "m2" in
  (let m := login_metrics (self (fst (update_with_login login_ev s))) in
   unique_devices m = 1 /\ unique_ips m = 1 /\ unique_locations m = 1)
  /\ unique_merchants
       (transaction_metrics (self (fst (update_with_transaction transaction_ev s)))) = 1.
Proof.
  intros s0 s1 s login_ev transaction_ev.
  apply (C5_unique_counts_are_one s login_ev transaction_ev
           (mk_datetime 2024 1 1 0 10 0 0) (mk_datetime 2024 1 1 0 15 0 0) 250);
    try (vm_compute; reflexivity).
  vm_compute. congruence.
Defined.

(** ** Session velocity *)

(** An entry as [_record_change] writes it has no key [start_time]: the
    session scan raises on every stored session entry. *)
Lemma in_window_session_entry (t stamp : datetime) (w : Z) (data : dict) :
  in_window "session" "start_time" t w (change_entry stamp "session" data)
  = inl (KeyError "start_time").
Proof. reflexivity. Qed.

(** A history written by [_record_change] that holds a session entry makes
    the session scan raise. *)
Lemma session_scan_raises (h : list pyval) (t : datetime) (w : Z) :
  Forall recorded h ->
  Exists (fun entry => entry_has_type "session" entry = true) h ->
  velocity_scan "session" "start_time" t w h = inl (KeyError "start_time").
Proof.
  unfold velocity_scan.
  induction 1 as [| c h (stamp & ty & data & -> & _ & _) Hh IH]; intros Hex.
  - inversion Hex.
  - cbn [count_if]. unfold in_window at 1, change_entry.
    cbn [getitem dict_item dict_get String.eqb Ascii.eqb Bool.eqb mbind result_bind].
    unfold eq_str. destruct (String.eqb ty "session") eqn:E; [reflexivity |].
    rewrite IH; [reflexivity |].
    inversion Hex as [? ? Hc | ? ? Hc]; subst; [| exact Hc].
    unfold entry_has_type, change_entry in Hc. cbn in Hc. congruence.
Qed.

(** C8 fails on the code.  The first session of a fresh profile is recorded;
    the second one raises [KeyError] on [start_time] in the velocity scan,
    after the counters were updated and before the event is recorded. *)
Theorem C8_second_session_raises :
  let ev := session_event "2024-01-01T00:00:00" 30 in
  let s1 := fst (update_with_session ev (fresh "u1" frozen_world)) in
  let s2 := fst (update_with_session ev s1) in
  length (historical_changes (self s1)) = 1%nat
  /\ snd (update_with_session ev s1) = inl (KeyError "start_time")
  /\ total_sessions (session_metrics (self s2)) = 2
  /\ session_velocity_24h (session_metrics (self s2)) = 0
  /\ length (historical_changes (self s2)) = 1%nat.
Proof. vm_compute. repeat split; reflexivity. Qed.

(** ** Persistence *)

(** A profile that has seen a login holds a [datetime] in
    [last_login_time], which [json] cannot write. *)
Lemma profile_data_after_login (p : FraudProfile) (t : datetime) :
  last_login_time (login_metrics p) = VDatetime t ->
  json_serializable (profile_data p) = false.
Proof.
  intros H. unfold profile_data, LoginMetrics_dict.
  rewrite H. reflexivity.
Qed.

(** C9 fails on the code.  A fresh profile processes a transaction, a
    session and a feature use, each saved without an error; the login that
    follows is applied, its save raises [TypeError] and leaves a broken
    file where the snapshot was, a further save raises again, and loading
    the profile for the same [user_id] raises [JSONDecodeError]. *)
Theorem C9_save_after_login_raises :
  let s := fst each_kind_once in
  (total_logins (login_metrics (self s)) = 1
   /\ total_transactions (transaction_metrics (self s)) = 1
   /\ total_sessions (session_metrics (self s)) = 1
   /\ feature_usage_count (feature_usage_metrics (self s)) = 1
   /\ length (historical_changes (self s)) = 4%nat)
  /\ snd each_kind_once = inl TypeError
  /\ snd (_save_profile s) = inl TypeError
  /\ read_file (profile_file "u1") (env s) = Some BrokenText
  /\ snd (FraudProfile_init "u1" (env s)) = inl JSONDecodeError.
Proof. vm_compute. repeat split; reflexivity. Qed.

(** What is written is read back, for a profile [json] can write. *)

Lemma LoginMetrics_round_trip (m : LoginMetrics) :
  LoginMetrics_of_dict (LoginMetrics_dict m) = inr m.
Proof. now destruct m. Qed.

Lemma TransactionMetrics_round_trip (m : TransactionMetrics) :
  TransactionMetrics_of_dict (TransactionMetrics_dict m) = inr m.
Proof. now destruct m. Qed.

Lemma SessionMetrics_round_trip (m : SessionMetrics) :
  SessionMetrics_of_dict (SessionMetrics_dict m) = inr m.
Proof. now destruct m. Qed.

Lemma FeatureUsageMetrics_round_trip (m : FeatureUsageMetrics) :
  FeatureUsageMetrics_of_dict (FeatureUsageMetrics_dict m) = inr m.
Proof. now destruct m. Qed.

Lemma RiskScores_round_trip (m : RiskScores) :
  RiskScores_of_dict (RiskScores_dict m) = inr m.
Proof. now destruct m. Qed.

(** Reading back what [_save_profile] wrote for profile [p], into any
    profile object. *)
Lemma load_profile_data (p : FraudProfile) (s0 : pstate) :
  valid (last_updated p) = true ->
  _load_from_dict (profile_data p) s0
  = ({| self := {| user_id := user_id (self s0);
                   login_metrics := login_metrics p;
                   transaction_metrics := transaction_metrics p;
                   session_metrics := session_metrics p;
                   feature_usage_metrics := feature_usage_metrics p;
                   risk_scores := risk_scores p;
                   last_updated := last_updated p;
                   historical_changes := historical_changes p |};
        env := env s0 |}, inr tt).
Proof.
  intros Hv. unfold _load_from_dict.
  rewrite (bind_lift_inr _ (login_metrics p))
    by (rewrite <- (LoginMetrics_round_trip (login_metrics p)); reflexivity).
  unfold modify_login. rewrite bind_modify.
  rewrite (bind_lift_inr _ (transaction_metrics p))
    by (rewrite <- (TransactionMetrics_round_trip (transaction_metrics p)); reflexivity).
  unfold modify_transaction. rewrite bind_modify.
  rewrite (bind_lift_inr _ (session_metrics p))
    by (rewrite <- (SessionMetrics_round_trip (session_metrics p)); reflexivity).
  unfold modify_session. rewrite bind_modify.
  rewrite (bind_lift_inr _ (feature_usage_metrics p))
    by (rewrite <- (FeatureUsageMetrics_round_trip (feature_usage_metrics p)); reflexivity).
  unfold modify_feature_usage. rewrite bind_modify.
  rewrite (bind_lift_inr _ (risk_scores p))
    by (rewrite <- (RiskScores_round_trip (risk_scores p)); reflexivity).
  rewrite bind_modify.
  rewrite (bind_lift_inr _ (VStr (isoformat (last_updated p)))) by reflexivity.
  rewrite (bind_lift_inr _ (last_updated p)) by now apply fromisoformat_isoformat.
  rewrite bind_modify.
  rewrite (bind_lift_inr _ (historical_changes p)) by reflexivity.
  reflexivity.
Qed.



(** ** Risk scores *)

(** C4 fails on the code.  One transaction of amount -10000 on a fresh
    profile is saved without an error and leaves [transaction_risk] at
    -3.97 and [overall_risk] at -1.191. *)
Theorem C4_negative_risk :
  let r := update_with_transaction
             (transaction_event "2024-01-01T00:00:00" (-10000) "m1")
             (fresh "u1" frozen_world) in
  let scores := risk_scores (self (fst r)) in
  snd r = inr tt
  /\ (transaction_risk scores == - (397 # 100))%Q
  /\ (overall_risk scores == - (1191 # 1000))%Q
  /\ (transaction_risk scores < 0)%Q
  /\ (overall_risk scores < 0)%Q.
Proof. vm_compute. repeat split; reflexivity. Qed.

(** What the clamp does give. *)

Lemma min1_le_1 (x : Q) : (min1 x <= 1)%Q.
Proof.
  unfold min1. destruct (Qle_bool 1 x) eqn:E; [apply Qle_refl |].
  destruct (Qlt_le_dec x 1) as [H | H]; [now apply Qlt_le_weak |].
  apply Qle_bool_iff in H. congruence.
Qed.

Lemma min1_nonneg (x : Q) : (0 <= x)%Q -> (0 <= min1 x)%Q.
Proof. intros H. unfold min1. destruct (Qle_bool 1 x); [discriminate | exact H]. Qed.

Lemma compute_risk_scores_le_1 (p : FraudProfile) :
  let r := compute_risk_scores p in
  (login_risk r <= 1 /\ transaction_risk r <= 1 /\ session_risk r <= 1
   /\ feature_usage_risk r <= 1 /\ overall_risk r <= 1)%Q.
Proof.
  unfold compute_risk_scores. cbn [login_risk transaction_risk session_risk
    feature_usage_risk overall_risk].
  repeat match goal with |- context [min1 ?x] =>
    let H := fresh "H" in
    pose proof (min1_le_1 x) as H; generalize dependent (min1 x); intros
  end.
  repeat split; try assumption. lra.
Qed.

(** Every risk score, and the overall score, is at most 1, whatever the
    metrics. *)
Theorem risk_scores_at_most_one (s : pstate) :
  let r := risk_scores (self (fst (_update_risk_scores s))) in
  (login_risk r <= 1 /\ transaction_risk r <= 1 /\ session_risk r <= 1
   /\ feature_usage_risk r <= 1 /\ overall_risk r <= 1)%Q.
Proof. exact (compute_risk_scores_le_1 (self s)). Qed.

Lemma inject_Z_nonneg (z : Z) : 0 <= z -> (0 <= inject_Z z)%Q.
Proof. intros H. change 0%Q with (inject_Z 0). now rewrite <- Zle_Qle. Qed.

(** With metrics that are not negative, every risk score and the overall
    score lie in [0,1]. *)
Theorem risk_scores_in_unit_interval (s : pstate) :
  nonnegative_metrics (self s) ->
  let r := risk_scores (self (fst (_update_risk_scores s))) in
  (0 <= login_risk r <= 1 /\ 0 <= transaction_risk r <= 1
   /\ 0 <= session_risk r <= 1 /\ 0 <= feature_usage_risk r <= 1
   /\ 0 <= overall_risk r <= 1)%Q.
Proof.
  intros (H1 & H2 & H3 & H4 & H5 & H6 & H7 & H8 & H9 & H10 & H11) r.
  pose proof (compute_risk_scores_le_1 (self s)) as (U1 & U2 & U3 & U4 & U5).
  change (risk_scores (self (fst (_update_risk_scores s))))
    with (compute_risk_scores (self s)) in *.
  set (p := self s) in *.
  apply inject_Z_nonneg in H1, H2, H3, H4, H6, H7, H9.
  assert (forall a b c : Q, 0 <= a -> 0 <= b -> 0 <= c ->
            0 <= a / 10 * (3 # 10) + b / 5 * (3 # 10) + c / 3 * (4 # 10))%Q as A1.
  { intros a b c Ha Hb Hc.
    assert ((a / 10 * (3 # 10) + b / 5 * (3 # 10) + c / 3 * (4 # 10))%Q
            == (a * (3 # 100) + b * (3 # 50) + c * (4 # 30))%Q)%Q as -> by field.
    lra. }
  assert (forall a b c : Q, 0 <= a -> 0 <= b -> 0 <= c ->
            0 <= a / 20 * (3 # 10) + b / 1000 * (4 # 10) + c / 10 * (3 # 10))%Q as A2.
  { intros a b c Ha Hb Hc.
    assert ((a / 20 * (3 # 10) + b / 1000 * (4 # 10) + c / 10 * (3 # 10))%Q
            == (a * (3 # 200) + b * (4 # 10000) + c * (3 # 100))%Q)%Q as -> by field.
    lra. }
  assert (forall a b : Q, 0 <= a -> 0 <= b ->
            0 <= a / 15 * (4 # 10) + b / 3600 * (6 # 10))%Q as A3.
  { intros a b Ha Hb.
    assert ((a / 15 * (4 # 10) + b / 3600 * (6 # 10))%Q
            == (a * (4 # 150) + b * (6 # 36000))%Q)%Q as -> by field.
    lra. }
  assert (forall a b c : Q, 0 <= a -> 0 <= b -> 0 <= c ->
            0 <= a / 50 * (3 # 10) + b * (4 # 10) + c / 10 * (3 # 10))%Q as A4.
  { intros a b c Ha Hb Hc.
    assert ((a / 50 * (3 # 10) + b * (4 # 10) + c / 10 * (3 # 10))%Q
            == (a * (3 # 500) + b * (4 # 10) + c * (3 # 100))%Q)%Q as -> by field.
    lra. }
  assert (0 <= login_risk r)%Q as L1 by (apply min1_nonneg, A1; assumption).
  assert (0 <= transaction_risk r)%Q as L2 by (apply min1_nonneg, A2; assumption).
  assert (0 <= session_risk r)%Q as L3 by (apply min1_nonneg, A3; assumption).
  assert (0 <= feature_usage_risk r)%Q as L4 by (apply min1_nonneg, A4; assumption).
  repeat split; try assumption.
  change (0 <= login_risk r * (3 # 10) + transaction_risk r * (3 # 10)
               + session_risk r * (2 # 10) + feature_usage_risk r * (2 # 10))%Q.
  lra.
Qed.

(** The hypothesis of [risk_scores_in_unit_interval] holds for a profile
    that has processed two transactions. *)
Lemma risk_scores_in_unit_interval_witness :
  let r := risk_scores (self (fst (_update_risk_scores two_transactions))) in
  (0 <= login_risk r <= 1 /\ 0 <= transaction_risk r <= 1
   /\ 0 <= session_risk r <= 1 /\ 0 <= feature_usage_risk r <= 1
   /\ 0 <= overall_risk r <= 1)%Q.
Proof.
  apply (risk_scores_in_unit_interval two_transactions).
  vm_compute. repeat split; congruence.
Defined.


(** ** The anomaly detector *)

Lemma insert_sorted_nil (x : Q) : sort_Q [x] = [x].
Proof. reflexivity. Qed.

(** The percentile of a one-element array is its element. *)
Lemma percentile_singleton (x q : Q) :
  exists y, percentile [x] q = Some y /\ (y == x)%Q.
Proof.
  unfold percentile. rewrite insert_sorted_nil. cbn [length Z.of_nat].
  eexists. split; [reflexivity |].
  assert (Qfloor (q / 100 * inject_Z (Z.of_nat 1 - 1)) = 0) as ->.
  { change (inject_Z (Z.of_nat 1 - 1)) with 0%Q.
    rewrite (Qfloor_comp _ 0%Q) by ring. reflexivity. }
  change (Z.to_nat 0) with 0%nat. change (Z.to_nat (0 + 1)) with 1%nat.
  cbn [nth]. ring.
Qed.

Lemma Qle_bool_of_eq (a b : Q) : (a == b)%Q -> Qle_bool a b = true.
Proof. intros H. apply Qle_bool_iff. rewrite H. apply Qle_refl. Qed.

Lemma Qabs_opp_eq (x : Q) : Qabs (- x) = Qabs x.
Proof. destruct x as [n d]. unfold Qabs, Qopp. cbn. now rewrite Z.abs_opp. Qed.

(** C6, as amended.  A scoring call against a fitted scaler and model, on an
    event whose features can be read, returns; the returned [is_anomaly] is
    false (a score is never strictly beyond the percentile of the one-element
    array that holds it), and the returned confidence is the absolute value
    of the raw outlier score. *)
Theorem C6_single_sample_never_anomalous
    (d : AnomalyDetector) (p : FraudProfile) (ty : string) (ev : dict)
    (tr : list Q -> result (list Q)) (sc : list Q -> result Q)
    (features scaled : list Q) (raw : Q) :
  scalers d !! ty = Some (Fitted tr) ->
  models d !! ty = Some (Fitted sc) ->
  _extract_features p ty ev = inr features ->
  tr features = inr scaled ->
  sc scaled = inr raw ->
  detect_anomaly d p ty ev
  = inr (false, Qabs raw,
         _generate_explanation ty features
           (if String.eqb ty "login" then raw else (- raw)%Q)).
Proof.
  intros Hs Hm Hf Htr Hsc.
  unfold detect_anomaly, scaler_transform, model_score_samples, np_percentile.
  rewrite Hf, Hs, Hm. cbn [mbind result_bind]. rewrite Htr.
  cbn [mbind result_bind]. rewrite Hsc. cbn [mbind result_bind item0 map].
  destruct (String.eqb ty "login").
  - destruct (percentile_singleton raw 10) as (y & -> & Hy).
    cbn [mbind result_bind]. now rewrite (Qle_bool_of_eq _ _ Hy).
  - destruct (percentile_singleton (- raw) 90) as (y & -> & Hy).
    cbn [mbind result_bind]. symmetry in Hy.
    now rewrite (Qle_bool_of_eq _ _ Hy), Qabs_opp_eq.
Qed.

(** The hypotheses of [C6_single_sample_never_anomalous] hold for a detector
    fitted on one stored snapshot. *)
Lemma C6_single_sample_witness :
  let d := AnomalyDetector_init toy_sklearn one_snapshot_world in
  let p := self (fresh "u2" one_snapshot_world) in
  let ev := mobile_login "2024-01-01T00:00:00" in
  detect_anomaly d p "login" ev
  = inr (false, Qabs (- (1 # 2)),
         _generate_explanation "login" [0; 0; 0; 0]%Q (- (1 # 2))%Q).
Proof.
  intros d p ev.
  apply (C6_single_sample_never_anomalous d p "login" ev
           (fun x => inr x) (fun _ => inr (- (1 # 2))%Q)
           [0; 0; 0; 0]%Q [0; 0; 0; 0]%Q (- (1 # 2))%Q);
    vm_compute; reflexivity.
Defined.

(** C6 as stated fails: a detector fitted on one stored snapshot scores a
    login with [is_anomaly] false. *)
Lemma C6_counterexample :
  ~ flags_anomaly (AnomalyDetector_init toy_sklearn one_snapshot_world)
      (self (fresh "u2" one_snapshot_world)) "login"
      (mobile_login "2024-01-01T00:00:00").
Proof.
  intros (c & e & H). vm_compute in H. congruence.
Qed.

(** With no stored snapshot, nothing is fitted. *)
Lemma init_without_snapshots (sk : sklearn) (w : world) :
  no_snapshots w ->
  forall ty, scalers (AnomalyDetector_init sk w) !! ty = None
             \/ scalers (AnomalyDetector_init sk w) !! ty = Some Unfitted.
Proof.
  intros Hw ty.
  assert (scalers (AnomalyDetector_init sk w)
          = <["login" := Unfitted]> (<["transaction" := Unfitted]>
              (<["session" := Unfitted]> (<["feature_usage" := Unfitted]> ∅)))) as ->.
  { unfold AnomalyDetector_init, _initialize_models, try_pass, no_snapshots in *.
    destruct (profiles_dir w) as [dir |]; [| reflexivity].
    rewrite Hw. reflexivity. }
  rewrite !lookup_insert, lookup_empty.
  repeat case_decide; auto.
Qed.

Lemma known_event_type_scaler (sk : sklearn) (w : world) (ty : string) :
  no_snapshots w -> known_event_type ty ->
  scalers (AnomalyDetector_init sk w) !! ty = Some Unfitted.
Proof.
  intros Hw Hty.
  assert (scalers (AnomalyDetector_init sk w)
          = <["login" := Unfitted]> (<["transaction" := Unfitted]>
              (<["session" := Unfitted]> (<["feature_usage" := Unfitted]> ∅)))) as ->.
  { unfold AnomalyDetector_init, _initialize_models, try_pass, no_snapshots in *.
    destruct (profiles_dir w) as [dir |]; [| reflexivity].
    rewrite Hw. reflexivity. }
  destruct Hty as [-> | [-> | [-> | ->]]]; reflexivity.
Qed.

(** C7.  When no stored snapshot exists as the detector starts, no scoring
    call returns a score: every call raises, and a call for one of the four
    event types whose event can be read raises the model-unavailable error
    of the code, scikit-learn's [NotFittedError]. *)
Theorem C7_unfitted_detector_never_scores
    (sk : sklearn) (w : world) (p : FraudProfile) (ty : string) (ev : dict) :
  no_snapshots w ->
  exists e : exn,
    detect_anomaly (AnomalyDetector_init sk w) p ty ev = inl e
    /\ (known_event_type ty ->
        (exists features, _extract_features p ty ev = inr features) ->
        e = NotFittedError).
Proof.
  intros Hw. unfold detect_anomaly, scaler_transform.
  destruct (_extract_features p ty ev) as [e | features] eqn:Hf; cbn [mbind result_bind].
  - exists e. split; [reflexivity |]. intros _ (f & Hf'). congruence.
  - destruct (init_without_snapshots sk w Hw ty) as [Hs | Hs].
    + rewrite Hs. cbn [mbind result_bind]. eexists. split; [reflexivity |].
      intros Hty _. rewrite (known_event_type_scaler sk w ty Hw Hty) in Hs. congruence.
    + rewrite Hs. cbn [mbind result_bind]. eexists. split; [reflexivity | auto].
Qed.

(** The hypothesis of [C7_unfitted_detector_never_scores] holds in a world
    without the directory: scoring a well-formed login raises
    [NotFittedError]. *)
Lemma C7_unfitted_detector_witness :
  no_snapshots frozen_world
  /\ exists e : exn,
       detect_anomaly (AnomalyDetector_init toy_sklearn frozen_world)
         (self (fresh "u1" frozen_world)) "login"
         (mobile_login "2024-01-01T00:00:00") = inl e
       /\ (known_event_type "login" ->
           (exists features,
              _extract_features (self (fresh "u1" frozen_world)) "login"
                (mobile_login "2024-01-01T00:00:00") = inr features) ->
           e = NotFittedError).
Proof.
  split; [exact I |].
  apply (C7_unfitted_detector_never_scores toy_sklearn frozen_world). exact I.
Defined.

(** The two layouts, for any profile and any transaction whose amount can be
    read: the row fitted on holds [avg_amount] and [max_amount] where the
    row scored holds the event's amount and [avg_amount]. *)
Lemma transaction_feature_layouts (p : FraudProfile) (ev : dict) (amount : Q) :
  float_field "amount" ev = inr amount ->
  let m := transaction_metrics p in
  transaction_training_row (profile_data p)
  = inr [inject_Z (transaction_velocity_24h m); avg_amount m; max_amount m;
         inject_Z (unique_merchants m)]
  /\ _extract_features p "transaction" ev
     = inr [inject_Z (transaction_velocity_24h m); amount; avg_amount m;
            inject_Z (unique_merchants m)].
Proof.
  intros Ha m. split; [reflexivity |].
  unfold _extract_features. cbn [String.eqb Ascii.eqb Bool.eqb].
  fold (float_field "amount" ev). now rewrite Ha.
Qed.

(** C10.  The row the transaction scaler and model are fitted on and the row
    scored through them are laid out differently: for a profile that has
    processed transactions of 100 and 300, stored as its snapshot, and an
    incoming transaction of 50, the row read from the snapshot is
    [velocity, avg_amount, max_amount, merchants] = [1, 200, 300, 1] and the
    row scored is [velocity, amount, avg_amount, merchants] = [1, 50, 200, 1];
    they differ at positions 1 and 2. *)
Theorem C10_transaction_rows_disagree :
  exists (s : pstate) (ev : dict) (fitted scored : list Q),
    read_file (profile_file (user_id (self s))) (env s)
      = Some (JsonText (profile_data (self s)))
    /\ transaction_training_row (profile_data (self s)) = inr fitted
    /\ _extract_features (self s) "transaction" ev = inr scored
    /\ fitted = (let m := transaction_metrics (self s) in
                 [inject_Z (transaction_velocity_24h m); avg_amount m;
                  max_amount m; inject_Z (unique_merchants m)])
    /\ scored = (let m := transaction_metrics (self s) in
                 [inject_Z (transaction_velocity_24h m); 50%Q; avg_amount m;
                  inject_Z (unique_merchants m)])
    /\ Forall2 Qeq fitted [1; 200; 300; 1]%Q
    /\ Forall2 Qeq scored [1; 50; 200; 1]%Q
    /\ ~ (nth 1 fitted 0 == nth 1 scored 0)%Q
    /\ ~ (nth 2 fitted 0 == nth 2 scored 0)%Q.
Proof.
  exists two_transactions, (transaction_event "2024-01-01T00:20:00" 50 "m3").
  eexists _, _.
  split; [vm_compute; reflexivity |].
  destruct (transaction_feature_layouts (self two_transactions)
              (transaction_event "2024-01-01T00:20:00" 50 "m3") 50 eq_refl)
    as [Hfit Hscore].
  split; [exact Hfit |]. split; [exact Hscore |].
  split; [reflexivity |]. split; [reflexivity |].
  split; [repeat constructor; vm_compute; reflexivity |].
  split; [repeat constructor; vm_compute; reflexivity |].
  split; vm_compute; congruence.
Qed.

(** ** Logins *)

Lemma py_div_nonzero (a : Q) (n : Z) :
  n <> 0 -> py_div a (inject_Z n) = inr (a / inject_Z n)%Q.
Proof.
  intros Hn. unfold py_div.
  destruct (Qeq_bool (inject_Z n) 0) eqn:E; [| reflexivity].
  apply Qeq_bool_eq in E. unfold Qeq in E. cbn in E. lia.
Qed.

Lemma update_with_login_first (ev : dict) (s : pstate) (t : datetime) :
  event_time "timestamp" ev = inr t ->
  hashable_field "device_type" ev = true ->
  hashable_field "ip_address" ev = true ->
  hashable_field "geolocation" ev = true ->
  truthy (last_login_time (login_metrics (self s))) = false ->
  update_with_login ev s
  = finish Login t ev (with_self (upd_login (first_login t)) s).
Proof.
  intros Ht Hd Hi Hg Hl.
  rewrite update_with_login_unfold.
  rewrite (bind_lift_inr _ t) by exact Ht.
  unfold modify_login. rewrite bind_modify.
  rewrite (bind_lift_inr _ 1) by now apply hashable_field_len.
  rewrite bind_modify.
  rewrite (bind_lift_inr _ 1) by now apply hashable_field_len.
  rewrite bind_modify.
  rewrite (bind_lift_inr _ 1) by now apply hashable_field_len.
  rewrite bind_modify, bind_gets.
  cbn [with_self self login_metrics upd_login last_login_time
       set_unique_locations set_unique_ips set_unique_devices set_total_logins].
  rewrite Hl. reflexivity.
Qed.

Lemma update_with_login_later (ev : dict) (s : pstate) (t t0 : datetime) :
  event_time "timestamp" ev = inr t ->
  hashable_field "device_type" ev = true ->
  hashable_field "ip_address" ev = true ->
  hashable_field "geolocation" ev = true ->
  last_login_time (login_metrics (self s)) = VDatetime t0 ->
  total_logins (login_metrics (self s)) <> -1 ->
  update_with_login ev s
  = finish Login t ev (with_self (upd_login (later_login t t0)) s).
Proof.
  intros Ht Hd Hi Hg Hl Hn.
  rewrite update_with_login_unfold.
  rewrite (bind_lift_inr _ t) by exact Ht.
  unfold modify_login. rewrite bind_modify.
  rewrite (bind_lift_inr _ 1) by now apply hashable_field_len.
  rewrite bind_modify.
  rewrite (bind_lift_inr _ 1) by now apply hashable_field_len.
  rewrite bind_modify.
  rewrite (bind_lift_inr _ 1) by now apply hashable_field_len.
  rewrite bind_modify, bind_gets.
  cbn [with_self self login_metrics upd_login last_login_time avg_login_interval
       total_logins
       set_unique_locations set_unique_ips set_unique_devices set_total_logins].
  rewrite Hl. cbn [truthy datetime_sub].
  unfold bind, lift, modify. rewrite py_div_nonzero by lia.
  reflexivity.
Qed.

Lemma fresh_without_file (uid : string) (w : world) :
  read_file (profile_file uid) w = None ->
  fresh uid w
  = {| self := {| user_id := uid;
                  login_metrics := LoginMetrics_default;
                  transaction_metrics := TransactionMetrics_default;
                  session_metrics := SessionMetrics_default;
                  feature_usage_metrics := FeatureUsageMetrics_default;
                  risk_scores := RiskScores_default;
                  last_updated := clock w (ticks w);
                  historical_changes := [] |};
       env := {| profiles_dir := profiles_dir w;
                 clock := clock w;
                 ticks := S (ticks w) |} |}.
Proof.
  intros H. unfold fresh, FraudProfile_init, _initialize_metrics, bind, now,
    modify, gets, with_self, read_file in *.
  cbn in *. now rewrite H.
Qed.

Lemma event_time_login (t : datetime) (d i g : string) :
  valid t = true -> event_time "timestamp" (login_event (isoformat t) d i g) = inr t.
Proof. intros H. unfold event_time. cbn. now apply fromisoformat_isoformat. Qed.

(** The scan of a history of one recorded entry of the scanned type. *)
Lemma velocity_scan_one (ty : string) (t stamp : datetime) (w : Z) (data : dict) :
  valid stamp = true ->
  velocity_scan ty "timestamp" t w [change_entry stamp ty data]
  = inr ((if Qle_bool (total_seconds (Datetime.sub t stamp)) (inject_Z w)
          then 1 else 0) + 0).
Proof.
  intros Hv. unfold velocity_scan, count_if, in_window, change_entry.
  cbn [getitem dict_item dict_get String.eqb Ascii.eqb Bool.eqb mbind result_bind].
  unfold eq_str. rewrite String.eqb_refl.
  rewrite (fromisoformat_isoformat _ Hv). reflexivity.
Qed.

(** What two logins 600 seconds apart leave on a fresh profile, whatever
    the clock reads: two logins counted, the one gap of 600 seconds divided
    by the two logins, and a 24h velocity that is 1 when the reading of the
    clock that stamped the first login's entry is no more than 24 hours
    before the second event's timestamp (or after it), and 0 otherwise. *)
Lemma two_logins_on_any_clock (w : world) (uid : string) (t1 t2 : datetime) :
  read_file (profile_file uid) w = None ->
  valid t1 = true ->
  valid t2 = true ->
  Datetime.sub t2 t1 = 600 * 1000000 ->
  valid (clock w (S (ticks w))) = true ->
  let s1 := fst (update_with_login (mobile_login (isoformat t1)) (fresh uid w)) in
  let r := update_with_login (mobile_login (isoformat t2)) s1 in
  let m := login_metrics (self (fst r)) in
  total_logins m = 2
  /\ (avg_login_interval m == 300)%Q
  /\ login_velocity_24h m
     = (if Qle_bool (total_seconds (Datetime.sub t2 (clock w (S (ticks w))))) 86400
        then 1 else 0).
Proof.
  intros Hfile Hv1 Hv2 Hgap Hclock s1 r m. subst m r s1.
  rewrite (fresh_without_file _ _ Hfile). unfold mobile_login.
  rewrite (update_with_login_first _ _ t1 (event_time_login _ _ _ _ Hv1))
    by reflexivity.
  rewrite (finish_ok Login t1 _ _ 0 0) by reflexivity.
  cbn [fst].
  rewrite (update_with_login_later _ _ t2 t1 (event_time_login _ _ _ _ Hv2));
    [| reflexivity | reflexivity | reflexivity | reflexivity
     | cbn; lia].
  erewrite (finish_ok Login t2).
  2:{ cbn [kind_name time_key self with_self upd_login historical_changes
           finished set_velocity_24h set_velocity_7d set_historical_changes
           set_last_updated set_risk_scores env ticks clock app].
      apply velocity_scan_one. exact Hclock. }
  2:{ cbn [kind_name time_key self with_self upd_login historical_changes
           finished set_velocity_24h set_velocity_7d set_historical_changes
           set_last_updated set_risk_scores env ticks clock app].
      apply velocity_scan_one. exact Hclock. }
  cbn [fst snd self].
  split; [reflexivity |].
  split.
  { cbn. rewrite Hgap. unfold total_seconds. reflexivity. }
  cbn. destruct (Qle_bool _ _); reflexivity.
Qed.

(** C2 fails on the code.  The two logins of the scenario, at 00:00:00 and
    600 seconds later, on a fresh profile: each call raises [TypeError] in
    the save, and leaves on the object [total_logins = 2],
    [avg_login_interval = 300], and a [login_velocity_24h] that follows the
    wall clock and is never 2: it is 1 while the clock stands at the time of
    the first login, 0 while it stands at 2020-01-01, and 1 while it stands
    at 2026-01-01 (the first login's entry, stamped after the second
    event's timestamp, is counted whatever the window). *)
Theorem C2_two_logins_diverge :
  let at_event := epoch in
  let before := mk_datetime 2020 1 1 0 0 0 0 in
  let after := mk_datetime 2026 1 1 0 0 0 0 in
  let lm now := login_metrics (self (fst (second_login_at now))) in
  (snd (first_login_at at_event) = inl TypeError
   /\ snd (second_login_at at_event) = inl TypeError
   /\ total_logins (lm at_event) = 2
   /\ (avg_login_interval (lm at_event) == 300)%Q
   /\ login_velocity_24h (lm at_event) = 1)
  /\ (snd (first_login_at before) = inl TypeError
      /\ snd (second_login_at before) = inl TypeError
      /\ total_logins (lm before) = 2
      /\ (avg_login_interval (lm before) == 300)%Q
      /\ login_velocity_24h (lm before) = 0)
  /\ (snd (first_login_at after) = inl TypeError
      /\ snd (second_login_at after) = inl TypeError
      /\ total_logins (lm after) = 2
      /\ (avg_login_interval (lm after) == 300)%Q
      /\ login_velocity_24h (lm after) = 1).
Proof. vm_compute. repeat split; reflexivity. Qed.

(** ** Transactions *)

Lemma update_with_transaction_run (ev : dict) (s : pstate) (t : datetime) (a : Q) :
  event_time "timestamp" ev = inr t ->
  float_field "amount" ev = inr a ->
  hashable_field "merchant_id" ev = true ->
  total_transactions (transaction_metrics (self s)) <> -1 ->
  update_with_transaction ev s
  = finish Transaction t ev (with_self (upd_transaction (transacted a)) s).
Proof.
  intros Ht Ha Hm Hn.
  rewrite update_with_transaction_unfold.
  rewrite (bind_lift_inr _ t) by exact Ht.
  rewrite (bind_lift_inr _ a) by exact Ha.
  unfold modify_transaction. rewrite !bind_modify, bind_gets.
  cbn [with_self self transaction_metrics upd_transaction total_amount
       total_transactions set_total_amount set_total_transactions].
  match goal with |- context [py_div ?x (inject_Z ?n)] =>
    rewrite (bind_lift_inr _ _ _ _ (py_div_nonzero x n ltac:(lia)))
  end.
  rewrite !bind_modify.
  rewrite (bind_lift_inr _ 1) by now apply hashable_field_len.
  rewrite bind_modify. reflexivity.
Qed.

(** A history written by [_record_change] can be scanned for any type. *)
Lemma scan_recorded (h : list pyval) (ty : string) (t : datetime) (w : Z) :
  Forall recorded h -> exists n, velocity_scan ty "timestamp" t w h = inr n.
Proof.
  unfold velocity_scan.
  induction 1 as [| c h (stamp & ty' & data & -> & Hv & _) _ [n IH]]; cbn [count_if].
  - eauto.
  - unfold in_window at 1, change_entry.
    cbn [getitem dict_item dict_get String.eqb Ascii.eqb Bool.eqb mbind result_bind].
    unfold eq_str. destruct (String.eqb ty' ty).
    + rewrite (fromisoformat_isoformat _ Hv). cbn [mbind result_bind].
      rewrite IH. eauto.
    + rewrite IH. eauto.
Qed.

Lemma forallb_Forall_true {A} (f : A -> bool) (l : list A) :
  Forall (fun x => f x = true) l -> forallb f l = true.
Proof. induction 1 as [| x l Hx _ IH]; cbn; [reflexivity | now rewrite Hx, IH]. Qed.

Lemma recorded_serializable (c : pyval) : recorded c -> json_serializable c = true.
Proof.
  intros (stamp & ty & data & -> & _ & Hd). unfold change_entry.
  change (json_serializable (VDict data) && true = true). now rewrite Hd.
Qed.

Lemma profile_data_serializable (p : FraudProfile) :
  json_serializable (last_login_time (login_metrics p)) = true ->
  Forall recorded (historical_changes p) ->
  json_serializable (profile_data p) = true.
Proof.
  intros Hl Hh.
  assert (forallb json_serializable (historical_changes p) = true) as Hf.
  { apply forallb_Forall_true. eapply List.Forall_impl; [| exact Hh].
    intros c. apply recorded_serializable. }
  change (json_serializable (last_login_time (login_metrics p)) && true
          && (forallb json_serializable (historical_changes p) && true)
          = true).
  now rewrite Hl, Hf.
Qed.

Tactic Notation "tx_fields" :=
  cbn [total_transactions total_amount avg_amount max_amount unique_merchants
       transaction_velocity_24h transaction_velocity_7d transacted
       set_total_transactions set_total_amount set_avg_amount set_max_amount
       set_unique_merchants set_transaction_velocity_24h
       set_transaction_velocity_7d].
Tactic Notation "tx_fields" "in" hyp(H) :=
  cbn [total_transactions total_amount avg_amount max_amount unique_merchants
       transaction_velocity_24h transaction_velocity_7d transacted
       set_total_transactions set_total_amount set_avg_amount set_max_amount
       set_unique_merchants set_transaction_velocity_24h
       set_transaction_velocity_7d] in H.

Lemma transaction_step (s : pstate) (t : datetime) (a : Q) (merchant : string) :
  steady s ->
  valid t = true ->
  exists s',
    update_with_transaction (transaction_event (isoformat t) a merchant) s = (s', inr tt)
    /\ steady s'
    /\ transaction_metrics (self s')
       = set_transaction_velocity_7d (transaction_velocity_7d (transaction_metrics (self s')))
           (set_transaction_velocity_24h (transaction_velocity_24h (transaction_metrics (self s')))
              (transacted a (transaction_metrics (self s)))).
Proof.
  intros (Hc & Hh & Hl & Hn) Hv.
  rewrite (update_with_transaction_run _ _ t a);
    [| unfold event_time; cbn; now apply fromisoformat_isoformat
     | reflexivity | reflexivity | lia].
  destruct (scan_recorded _ "transaction" t 86400 Hh) as [n24 H24].
  destruct (scan_recorded _ "transaction" t 604800 Hh) as [n7 H7].
  rewrite (finish_ok Transaction t _ (with_self (upd_transaction (transacted a)) s)
             n24 n7 H24 H7).
  assert (Forall recorded
            (historical_changes (self s)
             ++ [change_entry (clock (env s) (ticks (env s))) "transaction"
                   (transaction_event (isoformat t) a merchant)])%list) as Hh'.
  { apply Forall_app. split; [exact Hh |].
    constructor; [| constructor].
    exists (clock (env s) (ticks (env s))), "transaction",
           (transaction_event (isoformat t) a merchant).
    split; [reflexivity |]. split; [apply Hc | reflexivity]. }
  cbv zeta.
  rewrite profile_data_serializable; [| exact Hl | exact Hh'].
  eexists. split; [reflexivity |].
  split; [| reflexivity].
  repeat split; cbn; auto. lia.
Qed.

Lemma for_each_cons {S A} (f : A -> M S unit) (x : A) (l : list A) (s s' : S) :
  f x s = (s', inr tt) -> for_each f (x :: l) s = for_each f l s'.
Proof. intros H. cbn [for_each]. unfold bind. now rewrite H. Qed.

(** A sequence of transactions on a steady profile runs to its end, and
    leaves the counter, the sum, the mean and the running maximum of the
    amounts processed. *)
Lemma transactions_run (txs : list (datetime * Q * string)) :
  forall s : pstate,
    steady s ->
    Forall (fun tx => valid (fst (fst tx)) = true) txs ->
    exists s',
      for_each update_with_transaction (transaction_events txs) s = (s', inr tt)
      /\ steady s'
      /\ total_transactions (transaction_metrics (self s'))
         = total_transactions (transaction_metrics (self s)) + Z.of_nat (length txs)
      /\ (total_amount (transaction_metrics (self s'))
          == total_amount (transaction_metrics (self s)) + Qsum (amounts txs))%Q
      /\ (txs <> [] ->
          avg_amount (transaction_metrics (self s'))
          == total_amount (transaction_metrics (self s'))
             / inject_Z (total_transactions (transaction_metrics (self s'))))%Q
      /\ max_amount (transaction_metrics (self s'))
         = fold_left py_max (amounts txs) (max_amount (transaction_metrics (self s))).
Proof.
  induction txs as [| [[t a] merchant] txs IH]; intros s Hs Hv.
  - exists s. cbn [transaction_events amounts map for_each length Qsum fold_right fold_left].
    split; [reflexivity |]. split; [exact Hs |].
    split; [change (Z.of_nat 0) with 0; lia |].
    split; [ring |]. split; [congruence | reflexivity].
  - inversion Hv as [| ? ? Hvt Hvs]; subst.
    destruct (transaction_step s t a merchant Hs Hvt) as (s1 & Hrun & Hs1 & Hm1).
    destruct (IH s1 Hs1 Hvs) as (s' & Hrun' & Hs' & Hn & Hsum & Havg & Hmax).
    exists s'. cbn [transaction_events map fst snd].
    rewrite (for_each_cons _ _ _ _ _ Hrun).
    split; [exact Hrun' |]. split; [exact Hs' |].
    rewrite Hm1 in Hn, Hsum, Hmax. tx_fields in Hn. tx_fields in Hsum. tx_fields in Hmax.
    split; [rewrite Hn; cbn [length]; rewrite Nat2Z.inj_succ; lia |].
    split.
    { rewrite Hsum.
      change (Qsum (amounts ((t, a, merchant) :: txs)))
        with (a + Qsum (amounts txs))%Q.
      ring. }
    split; [| exact Hmax].
    intros _. destruct txs as [| tx txs].
    + cbn [transaction_events map for_each] in Hrun'.
      inversion Hrun'; subst s'. rewrite Hm1. tx_fields. reflexivity.
    + apply Havg. congruence.
Qed.

(** The running maximum is an upper bound of its seed and of the list, and
    is one of them. *)
Lemma fold_py_max (l : list Q) :
  forall m0 : Q,
    (m0 <= fold_left py_max l m0)%Q
    /\ Forall (fun a => (a <= fold_left py_max l m0)%Q) l
    /\ (fold_left py_max l m0 = m0 \/ In (fold_left py_max l m0) l).
Proof.
  induction l as [| a l IH]; intros m0; cbn [fold_left].
  - split; [apply Qle_refl |]. split; [constructor | now left].
  - destruct (IH (py_max m0 a)) as (Hle & Hall & Hin).
    assert ((m0 <= py_max m0 a)%Q /\ (a <= py_max m0 a)%Q) as [H0 Ha].
    { unfold py_max. destruct (Qle_bool a m0) eqn:E.
      - apply Qle_bool_iff in E. split; [apply Qle_refl | exact E].
      - split; [| apply Qle_refl].
        destruct (Qlt_le_dec m0 a) as [Hlt | Hge]; [now apply Qlt_le_weak |].
        apply Qle_bool_iff in Hge. congruence. }
    split; [eapply Qle_trans; eauto |].
    split; [constructor; [eapply Qle_trans; eauto | exact Hall] |].
    destruct Hin as [Heq | Hin]; [| right; now right].
    rewrite Heq. unfold py_max. destruct (Qle_bool a m0); [now left | right; now left].
Qed.

Lemma fresh_steady (uid : string) (w : world) :
  read_file (profile_file uid) w = None ->
  (forall n, valid (clock w n) = true) ->
  steady (fresh uid w).
Proof.
  intros Hf Hc. rewrite (fresh_without_file _ _ Hf).
  repeat split; cbn; auto. lia.
Qed.

(** C3, as amended.  For every non-empty sequence of N transactions with
    amounts a_1..a_N applied to a fresh profile, every update returns, and
    afterwards [total_transactions = N], [total_amount = sum a_i],
    [avg_amount = sum a_i / N], and [max_amount] is the greatest of 0 and
    the a_i: the running maximum starts at the field's default 0, so it is
    max(a_i) only when some amount is not negative. *)
Theorem C3_transaction_totals (w : world) (uid : string)
    (txs : list (datetime * Q * string)) :
  read_file (profile_file uid) w = None ->
  (forall n, valid (clock w n) = true) ->
  Forall (fun tx => valid (fst (fst tx)) = true) txs ->
  txs <> [] ->
  let r := for_each update_with_transaction (transaction_events txs) (fresh uid w) in
  let m := transaction_metrics (self (fst r)) in
  snd r = inr tt
  /\ total_transactions m = Z.of_nat (length txs)
  /\ (total_amount m == Qsum (amounts txs))%Q
  /\ (avg_amount m == Qsum (amounts txs) / inject_Z (Z.of_nat (length txs)))%Q
  /\ (0 <= max_amount m)%Q
  /\ Forall (fun a => (a <= max_amount m)%Q) (amounts txs)
  /\ (max_amount m = 0%Q \/ In (max_amount m) (amounts txs)).
Proof.
  intros Hf Hc Hv Hne r m. subst m r.
  destruct (transactions_run txs (fresh uid w) (fresh_steady _ _ Hf Hc) Hv)
    as (s' & -> & _ & Hn & Hsum & Havg & Hmax).
  cbn [fst snd].
  rewrite (fresh_without_file _ _ Hf) in Hn, Hsum, Hmax.
  cbn [self transaction_metrics] in Hn, Hsum, Hmax.
  change (total_transactions TransactionMetrics_default) with 0 in Hn.
  change (total_amount TransactionMetrics_default) with 0%Q in Hsum.
  change (max_amount TransactionMetrics_default) with 0%Q in Hmax.
  rewrite Z.add_0_l in Hn. rewrite Qplus_0_l in Hsum.
  split; [reflexivity |]. split; [exact Hn |]. split; [exact Hsum |].
  split; [rewrite (Havg Hne), Hsum, Hn; reflexivity |].
  rewrite Hmax. apply fold_py_max.
Qed.

(** The hypotheses of [C3_transaction_totals] hold for the transactions of
    100, 200 and 300 of the scenario. *)
Lemma C3_transaction_totals_witness :
  let r := for_each update_with_transaction (transaction_events three_transactions)
             (fresh "u1" frozen_world) in
  let m := transaction_metrics (self (fst r)) in
  snd r = inr tt
  /\ total_transactions m = Z.of_nat (length three_transactions)
  /\ (total_amount m == Qsum (amounts three_transactions))%Q
  /\ (avg_amount m == Qsum (amounts three_transactions)
                      / inject_Z (Z.of_nat (length three_transactions)))%Q
  /\ (0 <= max_amount m)%Q
  /\ Forall (fun a => (a <= max_amount m)%Q) (amounts three_transactions)
  /\ (max_amount m = 0%Q \/ In (max_amount m) (amounts three_transactions)).
Proof.
  apply (C3_transaction_totals frozen_world "u1" three_transactions).
  - reflexivity.
  - intros n. reflexivity.
  - repeat constructor.
  - unfold three_transactions. congruence.
Defined.

(** C3 as stated fails: after the one transaction of amount -5 on a fresh
    profile, [max_amount] is 0 and not -5, the greatest (and only) amount. *)
Lemma C3_counterexample :
  total_transactions (transaction_metrics (self one_refund)) = 1
  /\ (max_amount (transaction_metrics (self one_refund)) == 0)%Q
  /\ ~ (max_amount (transaction_metrics (self one_refund)) == -5)%Q.
Proof.
  split; [vm_compute; reflexivity |].
  split; [vm_compute; reflexivity |].
  vm_compute. congruence.
Qed.

(** * Further properties of the profile engine *)

(** ** How an update runs *)

(** An update either raises before its common end or reaches it with the
    event's time read; up to there it has written fields of its own metric
    group only. *)
Lemma update_with_prefix (k : event_kind) (ev : dict) (s : pstate) :
  (exists e s1, update_with k ev s = (s1, inl e) /\ same_outside k s s1)
  \/ (exists t s1, event_time (time_key k) ev = inr t
                   /\ update_with k ev s = finish k t ev s1
                   /\ same_outside k s s1
                   /\ (k = Login ->
                       last_login_time (login_metrics (self s1)) = VDatetime t)).
Proof.
  unfold same_outside.
  destruct k; cbn [update_with time_key].
  - rewrite update_with_login_unfold. run_binds;
      first [ left; do 2 eexists; split; [reflexivity | repeat split; reflexivity]
            | right; do 2 eexists; split; [reflexivity |];
              split; [reflexivity |]; repeat split; reflexivity ].
  - rewrite update_with_transaction_unfold. run_binds;
      first [ left; do 2 eexists; split; [reflexivity | repeat split; reflexivity]
            | right; do 2 eexists; split; [reflexivity |];
              split; [reflexivity |]; split; [repeat split; reflexivity | congruence] ].
  - rewrite update_with_session_unfold. run_binds;
      first [ left; do 2 eexists; split; [reflexivity | repeat split; reflexivity]
            | right; do 2 eexists; split; [reflexivity |];
              split; [reflexivity |]; split; [repeat split; reflexivity | congruence] ].
  - rewrite update_with_feature_usage_unfold. run_binds;
      first [ left; do 2 eexists; split; [reflexivity | repeat split; reflexivity]
            | right; do 2 eexists; split; [reflexivity |];
              split; [reflexivity |]; split; [repeat split; reflexivity | congruence] ].
Qed.

(** The common end either raises in the first scan, the state untouched, or
    runs through the save. *)
Lemma finish_cases (k : event_kind) (t : datetime) (ev : dict) (s : pstate) :
  (exists e, finish k t ev s = (s, inl e))
  \/ (exists n24 n7,
        velocity_scan (kind_name k) (time_key k) t 86400
          (historical_changes (self s)) = inr n24
        /\ velocity_scan (kind_name k) (time_key k) t 604800
             (historical_changes (self s)) = inr n7
        /\ finish k t ev s =
           let w := env s in
           let p := finished k ev n24 n7 (clock w (ticks w)) (clock w (S (ticks w)))
                      (self s) in
           ({| self := p;
               env := {| profiles_dir := Some (saved p w);
                         clock := clock w;
                         ticks := S (S (ticks w)) |} |},
            if json_serializable (profile_data p) then inr tt else inl TypeError)).
Proof.
  destruct (velocity_scan (kind_name k) (time_key k) t 86400
              (historical_changes (self s))) as [e | n24] eqn:H24.
  - left. exists e. now apply finish_raises_24h.
  - right. destruct (velocity_scan_window _ _ _ _ 604800 _ _ H24) as [n7 H7].
    exists n24, n7. repeat split; [exact H7 |]. now apply finish_ok.
Qed.

(** An update that returns has run through the save: the profile it leaves
    is one [json] can write, its snapshot is in the user's file, and
    [last_updated] is the second reading of the clock the update took. *)
Lemma update_returns (k : event_kind) (ev : dict) (s s' : pstate) :
  update_with k ev s = (s', inr tt) ->
  json_serializable (profile_data (self s')) = true
  /\ profiles_dir (env s')
     = Some (<[profile_file (user_id (self s)) := JsonText (profile_data (self s'))]>
               (default ∅ (profiles_dir (env s))))
  /\ clock (env s') = clock (env s)
  /\ user_id (self s') = user_id (self s)
  /\ last_updated (self s') = clock (env s) (S (ticks (env s)))
  /\ unassigned_counters (self s') = unassigned_counters (self s).
Proof.
  intros H.
  destruct (update_with_prefix k ev s)
    as [(e & s1 & H1 & _) | (t & s1 & _ & H1 & (He & Hu & _ & _ & Hc) & _)];
    rewrite H1 in H; [congruence |].
  destruct (finish_cases k t ev s1) as [(e & H2) | (n24 & n7 & _ & _ & H2)];
    rewrite H2 in H; [congruence |].
  cbv zeta in H.
  set (p := finished k ev n24 n7 _ _ (self s1)) in *.
  destruct (json_serializable (profile_data p)) eqn:Hj; [| congruence].
  inversion H; subst s'; clear H. cbn [self env profiles_dir clock].
  assert (user_id p = user_id (self s1)) as Hp by now destruct k.
  assert (unassigned_counters p = unassigned_counters (self s1)) as Hq by now destruct k.
  assert (last_updated p = clock (env s1) (S (ticks (env s1)))) as Hl by now destruct k.
  unfold saved. rewrite Hj, Hp, Hq, Hl, Hu, He, Hc. repeat split.
Qed.

(** A login raises, whatever the profile and the event. *)
Lemma update_with_login_raises (ev : dict) (s : pstate) :
  exists e s', update_with_login ev s = (s', inl e).
Proof.
  destruct (update_with_prefix Login ev s)
    as [(e & s1 & H & _) | (t & s1 & _ & H & _ & Hl)];
    cbn [update_with] in H; rewrite H.
  - now exists e, s1.
  - specialize (Hl eq_refl).
    destruct (finish_cases Login t ev s1) as [(e & ->) | (n24 & n7 & _ & _ & ->)].
    + now exists e, s1.
    + cbv zeta.
      rewrite (profile_data_after_login _ t); [now eexists _, _ |].
      exact Hl.
Qed.

(** ** What an update leaves alone *)

(** An update of one kind never writes the metric groups of the other three
    kinds, nor the user id: whatever the event and whether or not the update
    raises, they are afterwards what they were. *)
Theorem update_leaves_other_groups (k : event_kind) (ev : dict) (s : pstate) :
  other_groups k (self (fst (update_with k ev s))) = other_groups k (self s)
  /\ user_id (self (fst (update_with k ev s))) = user_id (self s).
Proof.
  destruct (update_with_prefix k ev s)
    as [(e & s1 & -> & _ & Hu & _ & Ho & _) | (t & s1 & _ & -> & (_ & Hu & _ & Ho & _) & _)].
  - now split.
  - rewrite <- Ho, <- Hu.
    destruct (finish_cases k t ev s1) as [(e & ->) | (n24 & n7 & _ & _ & ->)].
    + now split.
    + now destruct k.
Qed.

(** No update assigns [suspicious_login_count],
    [suspicious_transaction_count] or [unique_features_used]: the three
    counters are after any update, of any kind, what they were before. *)
Theorem updates_never_assign_three_counters (k : event_kind) (ev : dict) (s : pstate) :
  unassigned_counters (self (fst (update_with k ev s))) = unassigned_counters (self s).
Proof.
  destruct (update_with_prefix k ev s)
    as [(e & s1 & -> & _ & _ & _ & _ & Hc) | (t & s1 & _ & -> & (_ & _ & _ & _ & Hc) & _)].
  - exact Hc.
  - rewrite <- Hc.
    destruct (finish_cases k t ev s1) as [(e & ->) | (n24 & n7 & _ & _ & ->)].
    + reflexivity.
    + now destruct k.
Qed.

(** ** The history *)

(** The history only grows, and by one entry at most: after an update it is
    the history before, or that history followed by one entry that holds the
    event as it was passed, the kind of the update, and the reading of the
    clock as the update reached [_record_change]. *)
Theorem history_is_append_only (k : event_kind) (ev : dict) (s : pstate) :
  let h := historical_changes (self s) in
  let h' := historical_changes (self (fst (update_with k ev s))) in
  h' = h
  \/ h' = (h ++ [change_entry (clock (env s) (ticks (env s))) (kind_name k) ev])%list.
Proof.
  cbv zeta.
  destruct (update_with_prefix k ev s)
    as [(e & s1 & -> & _ & _ & Hh & _) | (t & s1 & _ & -> & (He & _ & Hh & _) & _)].
  - now left.
  - rewrite <- Hh, <- He.
    destruct (finish_cases k t ev s1) as [(e & ->) | (n24 & n7 & _ & _ & ->)].
    + now left.
    + right. now destruct k.
Qed.

(** ** Logins *)

(** [update_with_login] never returns: whatever the profile and the event,
    it raises.  When the event can be read and the scan goes through, the
    profile holds a [datetime] in [last_login_time] by the time it is
    saved, and [json.dump] raises [TypeError]. *)
Theorem login_update_always_raises (ev : dict) (s : pstate) :
  exists e : exn, snd (update_with_login ev s) = inl e.
Proof.
  destruct (update_with_login_raises ev s) as (e & s' & ->). now exists e.
Qed.

(** ** Updates and the stored files *)

(** An update that returns has stored the snapshot of the profile exactly as
    it leaves it; an update that raises has either left the directory as it
    was or left the user's own file as broken text. *)
Theorem update_outcome_and_store (k : event_kind) (ev : dict) (s : pstate) :
  let r := update_with k ev s in
  match snd r with
  | inr _ => stored (user_id (self s)) (self (fst r)) (env (fst r))
  | inl _ =>
      profiles_dir (env (fst r)) = profiles_dir (env s)
      \/ read_file (profile_file (user_id (self s))) (env (fst r)) = Some BrokenText
  end.
Proof.
  cbv zeta.
  destruct (update_with_prefix k ev s)
    as [(e & s1 & -> & He & _) | (t & s1 & _ & -> & (He & Hu & _) & _)].
  - cbn [fst snd]. left. now rewrite He.
  - rewrite <- Hu, <- He.
    destruct (finish_cases k t ev s1) as [(e & ->) | (n24 & n7 & _ & _ & ->)].
    + cbn [fst snd]. now left.
    + cbv zeta. cbn [fst snd self env].
      set (p := finished k ev n24 n7 _ _ (self s1)).
      assert (user_id p = user_id (self s1)) as Hp by now destruct k.
      unfold stored, read_file, saved. cbn [profiles_dir mbind option_bind].
      rewrite Hp, lookup_insert_eq.
      destruct (json_serializable (profile_data p)); [reflexivity | now right].
Qed.



(** ** Bounds on the velocities *)

(** A scan counts entries of the history: its result lies between 0 and the
    length of the history. *)
Lemma velocity_scan_bounds (ty key : string) (t : datetime) (w : Z) (h : list pyval) :
  forall n, velocity_scan ty key t w h = inr n -> 0 <= n <= Z.of_nat (length h).
Proof.
  unfold velocity_scan.
  induction h as [| c h IH]; intros n Hn; cbn [count_if length] in *.
  - inversion Hn. cbn. lia.
  - destruct (in_window ty key t w c) as [e | b]; [congruence |].
    destruct (count_if _ h) as [e | m]; [congruence |].
    specialize (IH m eq_refl). inversion Hn. destruct b; lia.
Qed.

(** A wider window counts at least as many entries. *)
Lemma velocity_scan_mono (ty key : string) (t : datetime) (w w' : Z) (h : list pyval) :
  w <= w' ->
  forall n n', velocity_scan ty key t w h = inr n ->
               velocity_scan ty key t w' h = inr n' -> n <= n'.
Proof.
  intros Hw. unfold velocity_scan.
  induction h as [| c h IH]; intros n n' Hn Hn'; cbn [count_if] in *.
  - inversion Hn. inversion Hn'. lia.
  - set (r := count_if (in_window ty key t w) h) in *.
    set (r' := count_if (in_window ty key t w') h) in *.
    unfold in_window in Hn, Hn'.
    destruct (getitem c "event_type") as [e | v]; cbn [mbind result_bind] in *;
      [congruence |].
    destruct (eq_str v ty).
    + destruct (getitem c key) as [e | ts]; cbn [mbind result_bind] in *; [congruence |].
      destruct (fromisoformat ts) as [e | t']; cbn [mbind result_bind] in *;
        [congruence |].
      destruct r as [e | m]; [congruence |].
      destruct r' as [e | m']; [congruence |].
      specialize (IH m m' eq_refl eq_refl).
      inversion Hn. inversion Hn'.
      destruct (Qle_bool _ (inject_Z w)) eqn:E.
      * assert (Qle_bool (total_seconds (Datetime.sub t t')) (inject_Z w') = true) as ->.
        { apply Qle_bool_iff. apply Qle_bool_iff in E.
          eapply Qle_trans; [exact E |]. rewrite <- Zle_Qle. exact Hw. }
        lia.
      * destruct (Qle_bool _ (inject_Z w')); lia.
    + destruct r as [e | m]; [congruence |].
      destruct r' as [e | m']; [congruence |].
      specialize (IH m m' eq_refl eq_refl).
      inversion Hn. inversion Hn'. lia.
Qed.

(** Whenever an update records its event, the two velocity fields of its
    kind are ordered and bounded: 0 <= 24h <= 7d <= the number of entries
    the history held before the event was appended. *)
Theorem recorded_velocities_are_bounded (k : event_kind) (ev : dict) (s : pstate) :
  length (historical_changes (self (fst (update_with k ev s))))
    = S (length (historical_changes (self s))) ->
  let p := self (fst (update_with k ev s)) in
  0 <= velocity_24h k p
  /\ velocity_24h k p <= velocity_7d k p
  /\ velocity_7d k p <= Z.of_nat (length (historical_changes (self s))).
Proof.
  intros Hlen. cbv zeta.
  destruct (update_with_prefix k ev s)
    as [(e & s1 & H & _ & _ & Hh & _) | (t & s1 & _ & H & (_ & _ & Hh & _) & _)];
    rewrite H in *.
  - cbn [fst] in Hlen. rewrite Hh in Hlen. lia.
  - destruct (finish_cases k t ev s1) as [(e & H') | (n24 & n7 & H24 & H7 & H')];
      rewrite H' in *.
    + cbn [fst] in Hlen. rewrite Hh in Hlen. lia.
    + pose proof (velocity_scan_bounds _ _ _ _ _ _ H24) as B24.
      pose proof (velocity_scan_bounds _ _ _ _ _ _ H7) as B7.
      pose proof (velocity_scan_mono _ _ _ 86400 604800 _ ltac:(lia) _ _ H24 H7) as Hm.
      rewrite Hh in B7.
      assert (velocity_24h k (self (fst (let w := env s1 in
                let p := finished k ev n24 n7 (clock w (ticks w))
                           (clock w (S (ticks w))) (self s1) in
                ({| self := p;
                    env := {| profiles_dir := Some (saved p w); clock := clock w;
                              ticks := S (S (ticks w)) |} |},
                 if json_serializable (profile_data p) then inr tt
                 else inl TypeError)))) = n24) as -> by now destruct k.
      assert (velocity_7d k (self (fst (let w := env s1 in
                let p := finished k ev n24 n7 (clock w (ticks w))
                           (clock w (S (ticks w))) (self s1) in
                ({| self := p;
                    env := {| profiles_dir := Some (saved p w); clock := clock w;
                              ticks := S (S (ticks w)) |} |},
                 if json_serializable (profile_data p) then inr tt
                 else inl TypeError)))) = n7) as -> by now destruct k.
      lia.
Qed.

(** The hypothesis of [recorded_velocities_are_bounded] holds for a third
    transaction on a profile that has processed two. *)
Lemma recorded_velocities_are_bounded_witness :
  let ev := transaction_event "2024-01-01T00:20:00" 50 "m3" in
  let p := self (fst (update_with Transaction ev two_transactions)) in
  0 <= velocity_24h Transaction p
  /\ velocity_24h Transaction p <= velocity_7d Transaction p
  /\ velocity_7d Transaction p
     <= Z.of_nat (length (historical_changes (self two_transactions))).
Proof.
  intros ev.
  apply (recorded_velocities_are_bounded Transaction ev two_transactions).
  vm_compute. reflexivity.
Defined.

(** ** Sessions *)

(** Once the history holds a session entry, every further session whose
    event can be read raises [KeyError] on [start_time] in the velocity
    scan: the event is not recorded and no file is written, yet
    [total_sessions] has counted it. *)
Theorem session_after_session_raises (ev : dict) (s : pstate) (t : datetime) (d : Q) :
  Forall recorded (historical_changes (self s)) ->
  Exists (fun entry => entry_has_type "session" entry = true)
         (historical_changes (self s)) ->
  event_time "start_time" ev = inr t ->
  float_field "session_duration" ev = inr d ->
  total_sessions (session_metrics (self s)) <> -1 ->
  let r := update_with_session ev s in
  snd r = inl (KeyError "start_time")
  /\ total_sessions (session_metrics (self (fst r)))
     = total_sessions (session_metrics (self s)) + 1
  /\ historical_changes (self (fst r)) = historical_changes (self s)
  /\ env (fst r) = env s.
Proof.
  intros Hh Hex Ht Hd Hn. cbv zeta.
  rewrite update_with_session_unfold.
  rewrite (bind_lift_inr _ _ _ _ Ht), (bind_lift_inr _ _ _ _ Hd).
  unfold modify_session. rewrite !bind_modify, bind_gets.
  cbn [self with_self upd_session session_metrics total_sessions
       set_total_sessions avg_session_duration].
  match goal with |- context [py_div ?x (inject_Z ?n)] =>
    rewrite (bind_lift_inr _ _ _ _ (py_div_nonzero x n ltac:(lia))) end.
  rewrite !bind_modify.
  rewrite (finish_raises_24h Session t ev _ (KeyError "start_time"));
    [repeat split; reflexivity |].
  now apply session_scan_raises.
Qed.

Lemma no_login_yet_history :
  historical_changes (self no_login_yet)
  = [change_entry epoch "transaction"
       (transaction_event "2024-01-01T00:00:00" 100 "m1");
     change_entry epoch "session" (session_event "2024-01-01T00:10:00" 30);
     change_entry epoch "feature_usage"
       (feature_event "2024-01-01T00:20:00" "transfer" 1)].
Proof. vm_compute. reflexivity. Qed.

(** The hypotheses of [session_after_session_raises] hold for a profile
    that has processed one session. *)
Lemma session_after_session_raises_witness :
  let ev := session_event "2024-01-01T01:00:00" 45 in
  let r := update_with_session ev no_login_yet in
  snd r = inl (KeyError "start_time")
  /\ total_sessions (session_metrics (self (fst r)))
     = total_sessions (session_metrics (self no_login_yet)) + 1
  /\ historical_changes (self (fst r)) = historical_changes (self no_login_yet)
  /\ env (fst r) = env no_login_yet.
Proof.
  intros ev.
  apply (session_after_session_raises ev no_login_yet
           (mk_datetime 2024 1 1 1 0 0 0) 45).
  - rewrite no_login_yet_history.
    repeat (apply List.Forall_cons;
            [eexists _, _, _; split; [reflexivity |]; split; vm_compute; reflexivity |]).
    apply List.Forall_nil.
  - rewrite no_login_yet_history.
    apply Exists_cons_tl, Exists_cons_hd. reflexivity.
  - vm_compute. reflexivity.
  - reflexivity.
  - vm_compute. congruence.
Defined.

(** * The HTTP surface *)

(** ** Building the profile of a request *)

(** Loading a snapshot writes the profile only: the files, the clock and
    the user id are as before. *)
Lemma load_keeps_world (data : pyval) (s : pstate) :
  let s' := fst (_load_from_dict data s) in
  profiles_dir (env s') = profiles_dir (env s)
  /\ clock (env s') = clock (env s)
  /\ user_id (self s') = user_id (self s).
Proof.
  cbv zeta. unfold _load_from_dict.
  run_binds; cbn; auto;
    match goal with p : pyval |- _ => destruct p end; cbn; auto;
    match goal with |- context [parse_iso ?x] => destruct (parse_iso x) end;
    cbn; auto.
Qed.

(** [FraudProfile(uid)] writes no file and leaves the clock's readings and
    the user id as they are, whether or not it raises. *)
Lemma init_keeps_world (uid : string) (w : world) :
  let s := fst (FraudProfile_init uid w) in
  profiles_dir (env s) = profiles_dir w
  /\ clock (env s) = clock w
  /\ user_id (self s) = uid.
Proof.
  cbv zeta. unfold FraudProfile_init, _initialize_metrics, now, bind, modify, gets.
  cbn [self env with_self user_id set_last_updated].
  destruct (read_file _ _) as [[data |] |]; [| cbn; auto ..].
  match goal with |- context [_load_from_dict data ?s0] =>
    destruct (load_keeps_world data s0) as (H1 & H2 & H3);
    destruct (_load_from_dict data s0) as [s' [e | []]] end;
    cbn [fst] in *; auto.
Qed.

(** A broken file makes the construction raise [JSONDecodeError]. *)
Lemma init_broken (uid : string) (w : world) :
  read_file (profile_file uid) w = Some BrokenText ->
  snd (FraudProfile_init uid w) = inl JSONDecodeError.
Proof.
  intros H. unfold FraudProfile_init, _initialize_metrics, now, bind, modify, gets,
    read_file in *.
  cbn in *. now rewrite H.
Qed.

(** A stored snapshot is loaded as the profile it is the snapshot of, under
    the user id of the request. *)
Lemma init_stored (uid : string) (p : FraudProfile) (w : world) :
  stored uid p w ->
  valid (last_updated p) = true ->
  FraudProfile_init uid w
  = ({| self := {| user_id := uid;
                   login_metrics := login_metrics p;
                   transaction_metrics := transaction_metrics p;
                   session_metrics := session_metrics p;
                   feature_usage_metrics := feature_usage_metrics p;
                   risk_scores := risk_scores p;
                   last_updated := last_updated p;
                   historical_changes := historical_changes p |};
        env := {| profiles_dir := profiles_dir w;
                  clock := clock w;
                  ticks := S (ticks w) |} |}, inr tt).
Proof.
  intros Hs Hv. unfold stored in Hs.
  unfold FraudProfile_init, _initialize_metrics, now.
  unfold bind at 1. unfold bind at 1. unfold modify at 1. rewrite !bind_gets.
  cbn [self env with_self user_id set_last_updated].
  unfold read_file in *. cbn [profiles_dir] in *. rewrite Hs.
  now rewrite (load_profile_data _ _ Hv).
Qed.

(** ** The flag of the detector *)

(** Whatever the bank holds, a scoring call that returns, returns
    [is_anomaly] false: the score is compared, strictly, with the
    percentile of the one-element array that holds it. *)
Lemma detect_anomaly_flag (d : AnomalyDetector) (p : FraudProfile) (ty : string)
    (ev : dict) (r : bool * Q * pyval) :
  detect_anomaly d p ty ev = inr r -> fst (fst r) = false.
Proof.
  unfold detect_anomaly, model_score_samples, np_percentile.
  destruct (_extract_features p ty ev) as [e | features]; cbn [mbind result_bind];
    [congruence |].
  destruct (scaler_transform d ty features) as [e | scaled]; cbn [mbind result_bind];
    [congruence |].
  destruct (String.eqb ty "login");
    (destruct (models d !! ty) as [[| sc] |]; cbn [mbind result_bind]; [congruence | | congruence]);
    (destruct (sc scaled) as [e | raw]; cbn [mbind result_bind item0 map]; [congruence |]).
  - destruct (percentile_singleton raw 10) as (y & -> & Hy).
    cbn [mbind result_bind]. rewrite (Qle_bool_of_eq _ _ Hy).
    intros H. inversion H. reflexivity.
  - destruct (percentile_singleton (- raw) 90) as (y & -> & Hy).
    cbn [mbind result_bind]. symmetry in Hy. rewrite (Qle_bool_of_eq _ _ Hy).
    intros H. inversion H. reflexivity.
Qed.

(** ** What the endpoints answer *)

Lemma endpoint_body_raises (code : Z) (uid : string) (body : M pstate returned)
    (w : world) (s0 s1 : pstate) (e : exn) :
  FraudProfile_init uid w = (s0, inr tt) ->
  body s0 = (s1, inl e) ->
  endpoint code uid body w = (env s1, HTTPError code).
Proof. intros Hi Hb. unfold endpoint. now rewrite Hi, Hb. Qed.

Lemma bind_raises {S A B} (m : M S A) (k : A -> M S B) (s s1 : S) (e : exn) :
  m s = (s1, inl e) -> bind m k s = (s1, inl e).
Proof. intros H. unfold bind. now rewrite H. Qed.

(** An answer of the session endpoint comes from a profile that was built
    and then updated without an error. *)
Lemma process_session_answer (uid : string) (ev : dict) (w w' : world) (body : pyval) :
  process_session uid ev w = (w', Answer body) ->
  exists s0 s1,
    FraudProfile_init uid w = (s0, inr tt)
    /\ update_with_session ev s0 = (s1, inr tt)
    /\ w' = env s1
    /\ body = VDict [("profile", to_dict (self s1))].
Proof.
  unfold process_session, endpoint.
  destruct (FraudProfile_init uid w) as [s0 [e | []]]; [congruence |].
  unfold bind, ret, gets.
  destruct (update_with_session ev s0) as [s1 [e | []]] eqn:Hu; [congruence |].
  cbn [jsonable_encoder]. intros H. inversion H; subst. now exists s0, s1.
Qed.


(** The login endpoint never gets past the update. *)
Lemma process_login_raises (d : AnomalyDetector) (uid : string) (ev : dict) (w : world) :
  exists w', process_login d uid ev w = (w', HTTPError 400).
Proof.
  unfold process_login, endpoint.
  destruct (FraudProfile_init uid w) as [s0 [e | []]]; [eauto |].
  rewrite bind_gets.
  destruct (detect_anomaly d (self s0) "login" ev) as [e | r];
    [rewrite (bind_lift_inl _ e) by reflexivity; eauto |].
  rewrite (bind_lift_inr _ r) by reflexivity.
  unfold bind.
  destruct (fst (fst r)); unfold modify_login, modify, ret; cbv beta iota;
    match goal with |- context [update_with_login ev ?s] =>
      destruct (update_with_login_raises ev s) as (e & s1 & ->) end;
    eauto.
Qed.

(** The login endpoint answers 400 to every request: for every detector,
    user, event and state of the directory.  (It scores the event, and the
    update it then calls raises on every event.) *)
Theorem process_login_always_400 (d : AnomalyDetector) (uid : string) (ev : dict)
    (w : world) :
  snd (process_login d uid ev w) = HTTPError 400.
Proof.
  destruct (process_login_raises d uid ev w) as (w' & ->). reflexivity.
Qed.


(** What the session endpoint answers under [profile] is what it has
    stored, and what [get_profile] answers next; the three counters no
    update assigns are in it what they were in the profile the request
    loaded.  The clock is taken to read dates. *)
Theorem answered_profile_is_stored (uid : string) (ev : dict) (w : world)
    (body : pyval) :
  (forall n, valid (clock w n) = true) ->
  snd (process_session uid ev w) = Answer body ->
  let w' := fst (process_session uid ev w) in
  exists p,
    getitem body "profile" = inr (to_dict p)
    /\ stored uid p w'
    /\ snd (get_profile uid w') = Answer (to_dict p)
    /\ unassigned_counters p = unassigned_counters (self (fresh uid w)).
Proof.
  intros Hc H. cbv zeta.
  destruct (process_session uid ev w) as [w' r] eqn:Hp. cbn [fst snd] in *. subst r.
  destruct (process_session_answer uid ev w w' body Hp)
    as (s0 & s1 & Hi & Hu & -> & ->).
  destruct (init_keeps_world uid w) as (_ & Hck & Hid). rewrite Hi in Hck, Hid.
  cbn [fst] in Hck, Hid.
  destruct (update_returns Session ev s0 s1 Hu) as (Hj & Hd & Hck' & Hid' & Hl & Hq).
  assert (stored uid (self s1) (env s1)) as Hs.
  { unfold stored, read_file. rewrite Hd. cbn [mbind option_bind].
    rewrite Hid. apply lookup_insert_eq. }
  assert (valid (last_updated (self s1)) = true) as Hv.
  { rewrite Hl, Hck. apply Hc. }
  exists (self s1). repeat split; [exact Hs | |].
  - unfold get_profile, endpoint. rewrite (init_stored uid (self s1) (env s1) Hs Hv).
    rewrite bind_gets. unfold ret. cbn [snd self jsonable_encoder]. f_equal. f_equal.
    rewrite <- Hid, <- Hid'. now destruct (self s1).
  - unfold fresh. rewrite Hi. exact Hq.
Qed.

(** The hypotheses of [answered_profile_is_stored] hold for the first
    session request of a user, where no directory exists. *)
Lemma answered_profile_is_stored_witness :
  let ev := session_event "2024-01-01T00:10:00" 30 in
  let w' := fst (process_session "u1" ev frozen_world) in
  exists body p,
    snd (process_session "u1" ev frozen_world) = Answer body
    /\ getitem body "profile" = inr (to_dict p)
    /\ stored "u1" p w'
    /\ snd (get_profile "u1" w') = Answer (to_dict p)
    /\ unassigned_counters p = unassigned_counters (self (fresh "u1" frozen_world)).
Proof.
  intros ev w'.
  assert (exists body,
             snd (process_session "u1" ev frozen_world) = Answer body) as (body & Hb)
    by (eexists; vm_compute; reflexivity).
  exists body.
  destruct (answered_profile_is_stored "u1" ev frozen_world body) as (p & H);
    [reflexivity | exact Hb |].
  exists p. split; [exact Hb | exact H].
Defined.

(** ** Requests that are rejected *)

(** A request whose profile cannot be built, or whose body raises before
    the update, is rejected and writes no file. *)
Lemma endpoint_init_raises (code : Z) (uid : string) (body : M pstate returned) (w : world)
    (e : exn) :
  snd (FraudProfile_init uid w) = inl e ->
  snd (endpoint code uid body w) = HTTPError code
  /\ profiles_dir (fst (endpoint code uid body w)) = profiles_dir w.
Proof.
  intros H. unfold endpoint.
  destruct (init_keeps_world uid w) as (Hd & _).
  destruct (FraudProfile_init uid w) as [s0 [e' | []]]; cbn [fst snd] in *;
    [auto | congruence].
Qed.

(** With nothing fitted, the scoring raises. *)
Lemma unfitted_detect_raises (sk : sklearn) (w0 : world) (p : FraudProfile)
    (ty : string) (ev : dict) :
  no_snapshots w0 ->
  exists e, detect_anomaly (AnomalyDetector_init sk w0) p ty ev = inl e.
Proof.
  intros Hw. unfold detect_anomaly, scaler_transform.
  destruct (_extract_features p ty ev) as [e | features]; cbn [mbind result_bind];
    [eauto |].
  destruct (init_without_snapshots sk w0 Hw ty) as [-> | ->];
    cbn [mbind result_bind]; eauto.
Qed.

(** A detector that raises makes a scoring endpoint answer 400 before the
    update is reached. *)
Lemma process_detect_raises (k : event_kind) (d : AnomalyDetector) (uid : string)
    (ev : dict) (w : world) :
  k <> Session ->
  (forall p, exists e, detect_anomaly d p (kind_name k) ev = inl e) ->
  snd (process k d uid ev w) = HTTPError 400
  /\ profiles_dir (fst (process k d uid ev w)) = profiles_dir w.
Proof.
  intros Hk Hd.
  destruct (init_keeps_world uid w) as (Hdir & _).
  destruct k; [| | congruence |]; cbn [process kind_name] in *;
    unfold process_login, process_transaction, process_feature_usage, endpoint;
    (destruct (FraudProfile_init uid w) as [s0 [e | []]]; cbn [fst] in Hdir;
       [auto |]);
    rewrite bind_gets;
    (destruct (Hd (self s0)) as (e & He));
    rewrite (bind_lift_inl _ e) by exact He; auto.
Qed.

(** A service that was started with no stored snapshot answers 400 to every
    login, transaction and feature-usage request, for every user and event,
    and writes no file: the profiles it would have learned from are never
    stored. *)
Theorem unfitted_service_rejects_scored_events (sk : sklearn) (w0 : world)
    (k : event_kind) (uid : string) (ev : dict) (w : world) :
  no_snapshots w0 ->
  k <> Session ->
  let d := AnomalyDetector_init sk w0 in
  snd (process k d uid ev w) = HTTPError 400
  /\ profiles_dir (fst (process k d uid ev w)) = profiles_dir w.
Proof.
  intros Hw Hk. cbv zeta.
  apply process_detect_raises; [exact Hk |].
  intros p. now apply unfitted_detect_raises.
Qed.

(** The hypotheses of [unfitted_service_rejects_scored_events] hold for a
    service started without the directory. *)
Lemma unfitted_service_rejects_scored_events_witness :
  let d := AnomalyDetector_init toy_sklearn frozen_world in
  let ev := transaction_event "2024-01-01T00:00:00" 100 "m1" in
  snd (process Transaction d "u1" ev frozen_world) = HTTPError 400
  /\ profiles_dir (fst (process Transaction d "u1" ev frozen_world))
     = profiles_dir frozen_world.
Proof.
  intros d ev.
  apply (unfitted_service_rejects_scored_events toy_sklearn frozen_world
           Transaction "u1" ev frozen_world); [exact I | congruence].
Defined.

(** Once the file of a user is broken, every endpoint fails for that user:
    the two GETs answer 404, every POST answers 400, whatever the event and
    the detector, and none of them repairs or replaces the file. *)
Theorem broken_file_fails_every_request (uid : string) (w : world) :
  read_file (profile_file uid) w = Some BrokenText ->
  (snd (get_profile uid w) = HTTPError 404
   /\ profiles_dir (fst (get_profile uid w)) = profiles_dir w)
  /\ (snd (get_risk_assessment uid w) = HTTPError 404
      /\ profiles_dir (fst (get_risk_assessment uid w)) = profiles_dir w)
  /\ forall k d ev,
       snd (process k d uid ev w) = HTTPError 400
       /\ profiles_dir (fst (process k d uid ev w)) = profiles_dir w.
Proof.
  intros H. apply init_broken in H.
  split; [| split].
  - now apply (endpoint_init_raises 404 uid _ w JSONDecodeError).
  - now apply (endpoint_init_raises 404 uid _ w JSONDecodeError).
  - intros k d ev.
    destruct k; now apply (endpoint_init_raises 400 uid _ w JSONDecodeError).
Qed.

(** The hypothesis of [broken_file_fails_every_request] holds for the user
    of [world_after_login]. *)
Lemma broken_file_fails_every_request_witness :
  (snd (get_profile "u1" world_after_login) = HTTPError 404
   /\ profiles_dir (fst (get_profile "u1" world_after_login))
      = profiles_dir world_after_login)
  /\ (snd (get_risk_assessment "u1" world_after_login) = HTTPError 404
      /\ profiles_dir (fst (get_risk_assessment "u1" world_after_login))
         = profiles_dir world_after_login)
  /\ forall k d ev,
       snd (process k d "u1" ev world_after_login) = HTTPError 400
       /\ profiles_dir (fst (process k d "u1" ev world_after_login))
          = profiles_dir world_after_login.
Proof.
  apply (broken_file_fails_every_request "u1" world_after_login).
  vm_compute. reflexivity.
Defined.

(** A login request that gets as far as the update destroys the stored
    profile: when the profile of the user can be built, the detector
    returns a score and the event can be read, the request is answered 400,
    the user's file is left as broken text, and [get_profile] answers 404
    from then on. *)
Theorem login_request_breaks_stored_profile (d : AnomalyDetector) (uid : string)
    (ev : dict) (w : world) (s0 : pstate) (r : bool * Q * pyval) (t : datetime) :
  FraudProfile_init uid w = (s0, inr tt) ->
  Forall recorded (historical_changes (self s0)) ->
  truthy (last_login_time (login_metrics (self s0))) = false ->
  detect_anomaly d (self s0) "login" ev = inr r ->
  event_time "timestamp" ev = inr t ->
  hashable_field "device_type" ev = true ->
  hashable_field "ip_address" ev = true ->
  hashable_field "geolocation" ev = true ->
  let w' := fst (process_login d uid ev w) in
  snd (process_login d uid ev w) = HTTPError 400
  /\ read_file (profile_file uid) w' = Some BrokenText
  /\ snd (get_profile uid w') = HTTPError 404.
Proof.
  intros Hi Hh Hl Hdet Ht Hd Hip Hg. cbv zeta.
  destruct (init_keeps_world uid w) as (_ & _ & Hid). rewrite Hi in Hid.
  cbn [fst] in Hid.
  assert (read_file (profile_file uid) (fst (process_login d uid ev w))
          = Some BrokenText) as Hb.
  { unfold process_login, endpoint. rewrite Hi, bind_gets.
    rewrite (bind_lift_inr _ r) by exact Hdet.
    rewrite (detect_anomaly_flag _ _ _ _ _ Hdet).
    unfold bind at 1. unfold ret at 1. unfold bind at 1.
    rewrite (update_with_login_first ev s0 t Ht Hd Hip Hg Hl).
    destruct (scan_recorded _ "login" t 86400 Hh) as [n24 H24].
    destruct (scan_recorded _ "login" t 604800 Hh) as [n7 H7].
    rewrite (finish_ok Login t ev (with_self (upd_login (first_login t)) s0)
               n24 n7 H24 H7).
    cbv zeta.
    set (p := finished Login ev n24 n7 _ _ _).
    assert (json_serializable (profile_data p) = false) as Hj
      by (apply (profile_data_after_login p t); reflexivity).
    unfold saved. rewrite Hj. cbn [fst env profiles_dir].
    unfold read_file. cbn [profiles_dir mbind option_bind].
    replace (user_id p) with uid by (rewrite <- Hid; reflexivity).
    apply lookup_insert_eq. }
  split; [| split; [exact Hb |]].
  - destruct (process_login_raises d uid ev w) as (w' & ->). reflexivity.
  - now apply (endpoint_init_raises 404 uid _ _ JSONDecodeError), init_broken.
Qed.

(** In [one_snapshot_detector] the login scaler and model are fitted; the
    transaction model, and everything of the session and feature-usage
    types, is not. *)
Lemma one_snapshot_detector_fits_login_only :
  (exists tr sc, scalers one_snapshot_detector !! "login" = Some (Fitted tr)
                 /\ models one_snapshot_detector !! "login" = Some (Fitted sc))
  /\ models one_snapshot_detector !! "transaction" = Some Unfitted
  /\ scalers one_snapshot_detector !! "session" = Some Unfitted
  /\ models one_snapshot_detector !! "session" = Some Unfitted
  /\ scalers one_snapshot_detector !! "feature_usage" = Some Unfitted
  /\ models one_snapshot_detector !! "feature_usage" = Some Unfitted.
Proof.
  split; [eexists _, _; split; vm_compute; reflexivity |].
  repeat split; vm_compute; reflexivity.
Qed.

(** The hypotheses of [login_request_breaks_stored_profile] hold for the
    user whose snapshot the detector was fitted on: one login request
    replaces the snapshot by broken text. *)
Lemma login_request_breaks_stored_profile_witness :
  let ev := mobile_login "2024-01-02T00:00:00" in
  let w' := fst (process_login one_snapshot_detector "u1" ev one_snapshot_world) in
  stored "u1" (self (fresh "u1" one_snapshot_world)) one_snapshot_world
  /\ snd (process_login one_snapshot_detector "u1" ev one_snapshot_world) = HTTPError 400
  /\ read_file (profile_file "u1") w' = Some BrokenText
  /\ snd (get_profile "u1" w') = HTTPError 404.
Proof.
  intros ev w'. split; [vm_compute; reflexivity |].
  assert (exists s0, FraudProfile_init "u1" one_snapshot_world = (s0, inr tt)
                     /\ historical_changes (self s0)
                        = [change_entry epoch "transaction"
                             (transaction_event "2024-01-01T00:00:00" 100 "m1")]
                     /\ truthy (last_login_time (login_metrics (self s0))) = false
                     /\ exists r, detect_anomaly one_snapshot_detector (self s0) "login" ev = inr r)
    as (s0 & Hi & Hh & Hl & r & Hr).
  { eexists. split; [vm_compute; reflexivity |].
    split; [vm_compute; reflexivity |]. split; [vm_compute; reflexivity |].
    eexists. vm_compute. reflexivity. }
  apply (login_request_breaks_stored_profile one_snapshot_detector "u1" ev one_snapshot_world
           s0 r (mk_datetime 2024 1 2 0 0 0 0) Hi);
    [| exact Hl | exact Hr | vm_compute; reflexivity ..].
  rewrite Hh.
  apply List.Forall_cons; [| apply List.Forall_nil].
  eexists _, _, _. split; [reflexivity |]. split; vm_compute; reflexivity.
Defined.

(** ** Users without a file *)




(** ** Session requests *)



(** Once the stored profile of a user holds a session in its history,
    every session request for that user is answered 400, whatever its
    event, and writes no file: the stored profile never counts a second
    session. *)
Theorem later_session_requests_are_rejected (uid : string) (p : FraudProfile)
    (ev : dict) (w : world) :
  stored uid p w ->
  valid (last_updated p) = true ->
  Forall recorded (historical_changes p) ->
  Exists (fun entry => entry_has_type "session" entry = true) (historical_changes p) ->
  snd (process_session uid ev w) = HTTPError 400
  /\ profiles_dir (fst (process_session uid ev w)) = profiles_dir w.
Proof.
  intros Hs Hv Hh Hex.
  pose proof (init_stored uid p w Hs Hv) as Hi.
  match type of Hi with _ = (?s, _) => set (s0 := s) in Hi end.
  assert (exists e s1, update_with_session ev s0 = (s1, inl e) /\ env s1 = env s0)
    as (e & s1 & Hu & He).
  { destruct (update_with_prefix Session ev s0)
      as [(e & s1 & H & He & _) | (t & s1 & _ & H & (He & _ & Hh1 & _) & _)];
      cbn [update_with] in H; rewrite H.
    - now exists e, s1.
    - exists (KeyError "start_time"), s1. split; [| exact He].
      apply finish_raises_24h. rewrite Hh1. now apply session_scan_raises. }
  unfold process_session.
  rewrite (endpoint_body_raises 400 uid _ w s0 s1 e Hi (bind_raises _ _ _ _ _ Hu)).
  cbn [fst snd]. now rewrite He.
Qed.

(** The hypotheses of [later_session_requests_are_rejected] hold for the
    user of a profile that has processed one session. *)
Lemma later_session_requests_are_rejected_witness :
  let ev := session_event "2024-01-01T01:00:00" 45 in
  let w := env no_login_yet in
  snd (process_session "u1" ev w) = HTTPError 400
  /\ profiles_dir (fst (process_session "u1" ev w)) = profiles_dir w.
Proof.
  intros ev w.
  apply (later_session_requests_are_rejected "u1" (self no_login_yet) ev w).
  - vm_compute. reflexivity.
  - vm_compute. reflexivity.
  - rewrite no_login_yet_history.
    repeat (apply List.Forall_cons;
            [eexists _, _, _; split; [reflexivity |]; split; vm_compute; reflexivity |]).
    apply List.Forall_nil.
  - rewrite no_login_yet_history.
    apply Exists_cons_tl, Exists_cons_hd. reflexivity.
Defined.

(** ** Fitting the bank *)

Lemma collect_features_broken (files : list file) :
  In BrokenText files ->
  forall acc, exists e, collect_features files acc = inl e.
Proof.
  induction files as [| f files IH]; intros Hin acc; [inversion Hin |].
  cbn [collect_features].
  destruct f as [v |]; [| cbn; eauto].
  destruct Hin as [Hf | Hin]; [congruence |].
  cbn [json_load mbind result_bind].
  destruct (snapshot_login_features v); cbn [mbind result_bind]; [eauto |].
  destruct (snapshot_transaction_features v); cbn [mbind result_bind]; [eauto |].
  destruct (snapshot_session_features v); cbn [mbind result_bind]; [eauto |].
  destruct (snapshot_feature_usage_features v); cbn [mbind result_bind]; [eauto |].
  now apply IH.
Qed.

(** A bank with no fitted scaler raises on every scoring call. *)
Lemma unfitted_bank_raises (p : FraudProfile) (ty : string) (ev : dict) :
  exists e, detect_anomaly unfitted_bank p ty ev = inl e.
Proof.
  unfold detect_anomaly, scaler_transform.
  destruct (_extract_features p ty ev) as [e | features]; cbn [mbind result_bind];
    [eauto |].
  unfold unfitted_bank. cbn [scalers].
  rewrite !lookup_insert, lookup_empty.
  repeat case_decide; cbn [mbind result_bind]; eauto.
Qed.

(** One broken file in the directory is enough to leave the whole bank
    unfitted: reading it raises, the exception is swallowed, and no scaler
    or model of any event type is fitted, so every scoring call raises. *)
Theorem broken_snapshot_leaves_bank_unfitted (sk : sklearn) (w : world)
    (dir : gmap string file) :
  profiles_dir w = Some dir ->
  In BrokenText (listed_snapshots dir) ->
  AnomalyDetector_init sk w = unfitted_bank
  /\ forall p ty ev, exists e, detect_anomaly (AnomalyDetector_init sk w) p ty ev = inl e.
Proof.
  intros Hd Hin.
  assert (AnomalyDetector_init sk w = unfitted_bank) as ->.
  { unfold AnomalyDetector_init, _initialize_models, try_pass. rewrite Hd.
    destruct (collect_features_broken _ Hin
                {| login_rows := []; transaction_rows := [];
                   session_rows := []; feature_usage_rows := [] |}) as (e & He).
    rewrite (bind_lift_inl _ e) by exact He. reflexivity. }
  split; [reflexivity |]. intros p ty ev. apply unfitted_bank_raises.
Qed.

(** The hypotheses of [broken_snapshot_leaves_bank_unfitted] hold in
    [world_after_login], for any scikit-learn. *)
Lemma broken_snapshot_leaves_bank_unfitted_witness :
  AnomalyDetector_init toy_sklearn world_after_login = unfitted_bank
  /\ forall p ty ev,
       exists e, detect_anomaly (AnomalyDetector_init toy_sklearn world_after_login)
                   p ty ev = inl e.
Proof.
  apply (broken_snapshot_leaves_bank_unfitted toy_sklearn world_after_login
           (<["u1.json" := BrokenText]> ∅)).
  - vm_compute. reflexivity.
  - vm_compute. left. reflexivity.
Defined.

(** ** A directory of well-formed snapshots *)

Lemma map_result_cons_inv {A B} (f : A -> result B) (x : A) (l : list A) (ys : list B) :
  map_result f (x :: l) = inr ys ->
  exists y ys', f x = inr y /\ map_result f l = inr ys' /\ ys = y :: ys'.
Proof.
  cbn [map_result].
  destruct (f x) as [e | y]; [congruence |].
  destruct (map_result f l) as [e | ys']; [congruence |].
  intros H. inversion H. eauto.
Qed.

Lemma training_row_inv (k : event_kind) (doc : pyval) (x : list Q) :
  training_row k doc = inr x ->
  exists row,
    match k with
    | Login => snapshot_login_features doc
    | Transaction => snapshot_transaction_features doc
    | Session => snapshot_session_features doc
    | FeatureUsage => snapshot_feature_usage_features doc
    end = inr row
    /\ map_result as_number row = inr x.
Proof.
  unfold training_row.
  destruct (match k with Login => _ | _ => _ end) as [e | row];
    cbn [mbind result_bind]; [congruence | eauto].
Qed.

(** The loop over the snapshots collects, for each event type, the rows
    the matrix of that type is made of. *)
Lemma collect_features_rows (docs : list pyval) :
  forall acc Xl Xt Xs Xf,
    map_result (training_row Login) docs = inr Xl ->
    map_result (training_row Transaction) docs = inr Xt ->
    map_result (training_row Session) docs = inr Xs ->
    map_result (training_row FeatureUsage) docs = inr Xf ->
    exists rl rt rs rf,
      collect_features (map JsonText docs) acc
      = inr {| login_rows := login_rows acc ++ rl;
               transaction_rows := transaction_rows acc ++ rt;
               session_rows := session_rows acc ++ rs;
               feature_usage_rows := feature_usage_rows acc ++ rf |}
      /\ np_array rl = inr Xl /\ np_array rt = inr Xt
      /\ np_array rs = inr Xs /\ np_array rf = inr Xf.
Proof.
  induction docs as [| doc docs IH]; intros acc Xl Xt Xs Xf Hl Ht Hs Hf.
  - cbn in Hl, Ht, Hs, Hf. inversion Hl; inversion Ht; inversion Hs; inversion Hf.
    exists [], [], [], []. cbn [map collect_features].
    rewrite !app_nil_r. destruct acc. repeat split; reflexivity.
  - apply map_result_cons_inv in Hl as (xl & Xl' & Hxl & Hl & ->).
    apply map_result_cons_inv in Ht as (xt & Xt' & Hxt & Ht & ->).
    apply map_result_cons_inv in Hs as (xs & Xs' & Hxs & Hs & ->).
    apply map_result_cons_inv in Hf as (xf & Xf' & Hxf & Hf & ->).
    apply training_row_inv in Hxl as (rl & Hrl & Hnl).
    apply training_row_inv in Hxt as (rt & Hrt & Hnt).
    apply training_row_inv in Hxs as (rs & Hrs & Hns).
    apply training_row_inv in Hxf as (rf & Hrf & Hnf).
    cbn [map collect_features json_load mbind result_bind].
    rewrite Hrl, Hrt, Hrs, Hrf. cbn [mbind result_bind].
    destruct (IH {| login_rows := login_rows acc ++ [rl];
                    transaction_rows := transaction_rows acc ++ [rt];
                    session_rows := session_rows acc ++ [rs];
                    feature_usage_rows := feature_usage_rows acc ++ [rf] |}
                 Xl' Xt' Xs' Xf' Hl Ht Hs Hf)
      as (rl' & rt' & rs' & rf' & -> & Hl' & Ht' & Hs' & Hf').
    exists (rl :: rl'), (rt :: rt'), (rs :: rs'), (rf :: rf').
    cbn [login_rows transaction_rows session_rows feature_usage_rows].
    rewrite <- !app_assoc. cbn [app].
    split; [reflexivity |].
    unfold np_array in *. cbn [map_result].
    rewrite Hnl, Hnt, Hns, Hnf, Hl', Ht', Hs', Hf'. repeat split; reflexivity.
Qed.

Lemma bind_returns {S A B} (m : M S A) (k : A -> M S B) (s s1 : S) (a : A) :
  m s = (s1, inr a) -> bind m k s = k a s1.
Proof. intros H. unfold bind. now rewrite H. Qed.

(** Fitting one event type on a non-empty matrix, when each step returns. *)
Lemma fit_event_type_fits (sk : sklearn) (ty : string) (rows : list (list pyval))
    (X scaled : list (list Q)) (tr : scaler_fn) (sc : score_fn) (d : AnomalyDetector) :
  X <> [] ->
  np_array rows = inr X ->
  scaler_fit sk X = inr tr ->
  map_result tr X = inr scaled ->
  model_fit sk ty scaled = inr sc ->
  fit_event_type sk ty rows d = (set_model ty sc (set_scaler ty tr d), inr tt).
Proof.
  intros HX Hrows Htr Hscaled Hm.
  unfold fit_event_type.
  destruct rows as [| r rows]; [cbn in Hrows; congruence |].
  rewrite (bind_lift_inr _ _ _ _ Hrows), (bind_lift_inr _ _ _ _ Htr), bind_modify.
  rewrite (bind_lift_inr _ _ _ _ Hscaled), (bind_lift_inr _ _ _ _ Hm).
  reflexivity.
Qed.

(** With at least one snapshot in the directory, and the fitting of each of
    the four event types on the snapshots going through, the bank comes up
    with the scaler and the model of every event type fitted, the scaler of
    each type on the matrix that holds one row per snapshot. *)
Theorem snapshots_fit_every_event_type (sk : sklearn) (w : world)
    (dir : gmap string file) (docs : list pyval) (k : event_kind) :
  profiles_dir w = Some dir ->
  listed_snapshots dir = map JsonText docs ->
  docs <> [] ->
  (forall k', exists X tr sc, fits sk docs k' X tr sc) ->
  exists X tr sc,
    fits sk docs k X tr sc
    /\ length X = length docs
    /\ scalers (AnomalyDetector_init sk w) !! kind_name k = Some (Fitted tr)
    /\ models (AnomalyDetector_init sk w) !! kind_name k = Some (Fitted sc).
Proof.
  intros Hd Hfiles Hne Hfits.
  destruct (Hfits Login) as (Xl & tr1 & sc1 & Hfl).
  destruct (Hfits Transaction) as (Xt & tr2 & sc2 & Hft).
  destruct (Hfits Session) as (Xs & tr3 & sc3 & Hfs).
  destruct (Hfits FeatureUsage) as (Xf & tr4 & sc4 & Hff).
  pose proof Hfl as (Hl & Htr1 & scaled1 & Hsc1 & Hm1).
  pose proof Hft as (Ht & Htr2 & scaled2 & Hsc2 & Hm2).
  pose proof Hfs as (Hs & Htr3 & scaled3 & Hsc3 & Hm3).
  pose proof Hff as (Hf & Htr4 & scaled4 & Hsc4 & Hm4).
  cbn [kind_name] in Hm1, Hm2, Hm3, Hm4.
  assert (forall k' X, map_result (training_row k') docs = inr X ->
                       length X = length docs /\ X <> []) as Hlen.
  { intros k' X. clear -Hne. revert X.
    induction docs as [| doc docs IH]; [congruence |].
    intros X HX. apply map_result_cons_inv in HX as (x & X' & _ & HX & ->).
    split; [| congruence]. cbn [length]. f_equal.
    destruct docs as [| doc' docs'].
    - cbn in HX. now inversion HX.
    - now apply IH. }
  destruct (collect_features_rows docs
              {| login_rows := []; transaction_rows := [];
                 session_rows := []; feature_usage_rows := [] |}
              Xl Xt Xs Xf Hl Ht Hs Hf)
    as (rl & rt & rs & rf & Hcol & Hnl & Hnt & Hns & Hnf).
  cbn [login_rows transaction_rows session_rows feature_usage_rows app] in Hcol.
  pose proof (fit_event_type_fits sk "login" rl Xl scaled1 tr1 sc1 unfitted_bank
                (proj2 (Hlen Login Xl Hl)) Hnl Htr1 Hsc1 Hm1) as Hr1.
  set (d1 := set_model "login" sc1 (set_scaler "login" tr1 unfitted_bank)) in *.
  pose proof (fit_event_type_fits sk "transaction" rt Xt scaled2 tr2 sc2 d1
                (proj2 (Hlen Transaction Xt Ht)) Hnt Htr2 Hsc2 Hm2) as Hr2.
  set (d2 := set_model "transaction" sc2 (set_scaler "transaction" tr2 d1)) in *.
  pose proof (fit_event_type_fits sk "session" rs Xs scaled3 tr3 sc3 d2
                (proj2 (Hlen Session Xs Hs)) Hns Htr3 Hsc3 Hm3) as Hr3.
  set (d3 := set_model "session" sc3 (set_scaler "session" tr3 d2)) in *.
  pose proof (fit_event_type_fits sk "feature_usage" rf Xf scaled4 tr4 sc4 d3
                (proj2 (Hlen FeatureUsage Xf Hf)) Hnf Htr4 Hsc4 Hm4) as Hr4.
  assert (AnomalyDetector_init sk w
          = set_model "feature_usage" sc4 (set_scaler "feature_usage" tr4 d3)) as ->.
  { change (AnomalyDetector_init sk w)
      with (fst (_initialize_models sk w unfitted_bank)).
    unfold _initialize_models, try_pass. rewrite Hd, Hfiles.
    rewrite (bind_lift_inr _ _ _ _ Hcol).
    cbn [login_rows transaction_rows session_rows feature_usage_rows].
    rewrite (bind_returns _ _ _ _ _ Hr1), (bind_returns _ _ _ _ _ Hr2),
      (bind_returns _ _ _ _ _ Hr3), Hr4.
    reflexivity. }
  destruct k; cbn [kind_name].
  - exists Xl, tr1, sc1.
    split; [exact Hfl |]. split; [apply (Hlen Login Xl Hl) |]. split; reflexivity.
  - exists Xt, tr2, sc2.
    split; [exact Hft |]. split; [apply (Hlen Transaction Xt Ht) |]. split; reflexivity.
  - exists Xs, tr3, sc3.
    split; [exact Hfs |]. split; [apply (Hlen Session Xs Hs) |]. split; reflexivity.
  - exists Xf, tr4, sc4.
    split; [exact Hff |]. split; [apply (Hlen FeatureUsage Xf Hf) |]. split; reflexivity.
Qed.

(** The hypotheses of [snapshots_fit_every_event_type] hold in
    [two_snapshot_world]: the two snapshots give two rows for each event
    type, enough for every estimator to be fitted. *)
Lemma snapshots_fit_every_event_type_witness :
  let docs := [profile_data stored_once; profile_data (self second_user)] in
  exists X tr sc,
    fits small_sample_sklearn docs Transaction X tr sc
    /\ length X = length docs
    /\ scalers (AnomalyDetector_init small_sample_sklearn two_snapshot_world)
         !! kind_name Transaction = Some (Fitted tr)
    /\ models (AnomalyDetector_init small_sample_sklearn two_snapshot_world)
         !! kind_name Transaction = Some (Fitted sc).
Proof.
  intros docs.
  eapply (snapshots_fit_every_event_type small_sample_sklearn two_snapshot_world _
            docs Transaction).
  - vm_compute. reflexivity.
  - vm_compute. reflexivity.
  - unfold docs. congruence.
  - intros k'. destruct k'; eexists _, _, _; (split; [vm_compute; reflexivity |]);
      (split; [vm_compute; reflexivity |]); eexists; split; vm_compute; reflexivity.
Defined.

(** ** The rows fitted on and the rows scored *)

(** For logins and for feature use, the row a stored profile is fitted on
    is the row it is scored with: the same fields in the same order,
    whatever the event. *)
Theorem login_and_feature_rows_agree (p : FraudProfile) (ev : dict) :
  training_row Login (profile_data p) = _extract_features p "login" ev
  /\ training_row FeatureUsage (profile_data p) = _extract_features p "feature_usage" ev.
Proof. split; reflexivity. Qed.

(** For sessions they differ: the row fitted on holds
    [avg_session_duration] and [max_session_duration] where the row scored
    holds the event's duration and [avg_session_duration]. *)
Theorem session_rows_disagree (p : FraudProfile) (ev : dict) (duration : Q) :
  float_field "session_duration" ev = inr duration ->
  let m := session_metrics p in
  training_row Session (profile_data p)
  = inr [inject_Z (session_velocity_24h m); avg_session_duration m;
         max_session_duration m; inject_Z (total_sessions m)]
  /\ _extract_features p "session" ev
     = inr [inject_Z (session_velocity_24h m); duration;
            avg_session_duration m; inject_Z (total_sessions m)].
Proof.
  intros H. cbv zeta. split; [reflexivity |].
  unfold _extract_features. cbn [String.eqb Ascii.eqb Bool.eqb].
  unfold float_field in H. now rewrite H.
Qed.

(** The hypothesis of [session_rows_disagree] holds for a session of 45
    seconds scored against a profile that has processed one of 30. *)
Lemma session_rows_disagree_witness :
  let ev := session_event "2024-01-01T01:00:00" 45 in
  let m := session_metrics (self no_login_yet) in
  training_row Session (profile_data (self no_login_yet))
  = inr [inject_Z (session_velocity_24h m); avg_session_duration m;
         max_session_duration m; inject_Z (total_sessions m)]
  /\ _extract_features (self no_login_yet) "session" ev
     = inr [inject_Z (session_velocity_24h m); 45%Q;
            avg_session_duration m; inject_Z (total_sessions m)].
Proof.
  intros ev.
  apply (session_rows_disagree (self no_login_yet) ev 45). reflexivity.
Defined.

(** ** An event that lacks a field read late *)

(** A transaction without [merchant_id] raises [KeyError] only after the
    counters were updated: the profile object has counted the transaction
    and its amount, while nothing is recorded in the history and no file is
    written. *)
Theorem transaction_without_merchant_is_half_applied
    (ev : dict) (s : pstate) (t : datetime) (a : Q) :
  event_time "timestamp" ev = inr t ->
  float_field "amount" ev = inr a ->
  dict_get "merchant_id" ev = None ->
  total_transactions (transaction_metrics (self s)) <> -1 ->
  let r := update_with_transaction ev s in
  snd r = inl (KeyError "merchant_id")
  /\ total_transactions (transaction_metrics (self (fst r)))
     = total_transactions (transaction_metrics (self s)) + 1
  /\ total_amount (transaction_metrics (self (fst r)))
     = (total_amount (transaction_metrics (self s)) + a)%Q
  /\ unique_merchants (transaction_metrics (self (fst r)))
     = unique_merchants (transaction_metrics (self s))
  /\ historical_changes (self (fst r)) = historical_changes (self s)
  /\ env (fst r) = env s.
Proof.
  intros Ht Ha Hm Hn. cbv zeta.
  rewrite update_with_transaction_unfold.
  rewrite (bind_lift_inr _ t) by exact Ht.
  rewrite (bind_lift_inr _ a) by exact Ha.
  unfold modify_transaction. rewrite !bind_modify, bind_gets.
  cbn [with_self self transaction_metrics upd_transaction total_amount
       total_transactions set_total_amount set_total_transactions].
  match goal with |- context [py_div ?x (inject_Z ?n)] =>
    rewrite (bind_lift_inr _ _ _ _ (py_div_nonzero x n ltac:(lia)))
  end.
  rewrite !bind_modify.
  rewrite (bind_lift_inl _ (KeyError "merchant_id"))
    by (unfold dict_item; now rewrite Hm).
  repeat split.
Qed.

(** The hypotheses of [transaction_without_merchant_is_half_applied] hold
    for an event of two fields on a profile that has processed two
    transactions. *)
Lemma transaction_without_merchant_is_half_applied_witness :
  let ev := [("timestamp", VStr "2024-01-01T00:20:00"); ("amount", VFloat 50)] in
  let r := update_with_transaction ev two_transactions in
  snd r = inl (KeyError "merchant_id")
  /\ total_transactions (transaction_metrics (self (fst r)))
     = total_transactions (transaction_metrics (self two_transactions)) + 1
  /\ total_amount (transaction_metrics (self (fst r)))
     = (total_amount (transaction_metrics (self two_transactions)) + 50)%Q
  /\ unique_merchants (transaction_metrics (self (fst r)))
     = unique_merchants (transaction_metrics (self two_transactions))
  /\ historical_changes (self (fst r)) = historical_changes (self two_transactions)
  /\ env (fst r) = env two_transactions.
Proof.
  intros ev.
  apply (transaction_without_merchant_is_half_applied ev two_transactions
           (mk_datetime 2024 1 1 0 20 0 0) 50).
  - vm_compute. reflexivity.
  - reflexivity.
  - reflexivity.
  - vm_compute. congruence.
Defined.

(** ** Sequences of feature uses *)











(** ** Event types the bank does not know *)

(** Fitting one event type leaves the scalers of the others as they are,
    whether or not it raises. *)
Lemma fit_event_type_other (sk : sklearn) (ty ty' : string) (rows : list (list pyval))
    (d : AnomalyDetector) :
  ty' <> ty ->
  scalers (fst (fit_event_type sk ty rows d)) !! ty' = scalers d !! ty'.
Proof.
  intros Hne. unfold fit_event_type.
  destruct rows as [| r rows]; [reflexivity |].
  unfold bind, lift, modify.
  destruct (np_array (r :: rows)) as [e | X]; [reflexivity |].
  destruct (scaler_fit sk X) as [e | tr]; [reflexivity |].
  destruct (map_result tr X) as [e | scaled];
    [cbn; now apply lookup_insert_ne |].
  destruct (model_fit sk ty scaled) as [e | sc]; cbn; now apply lookup_insert_ne.
Qed.

Lemma bind_fst_cases {S A B} (m : M S A) (k : A -> M S B) (s : S) :
  fst (bind m k s) = fst (m s) \/ exists a, fst (bind m k s) = fst (k a (fst (m s))).
Proof.
  unfold bind. destruct (m s) as [s1 [e | a]]; [now left | right; now exists a].
Qed.

(** The bank holds scalers for the four event types only, whatever the
    directory holds and however far the fitting got. *)
Lemma init_unknown_scaler (sk : sklearn) (w : world) (ty : string) :
  ~ known_event_type ty ->
  scalers (AnomalyDetector_init sk w) !! ty = None.
Proof.
  intros Hty.
  assert (ty <> "login" /\ ty <> "transaction" /\ ty <> "session"
          /\ ty <> "feature_usage") as (H1 & H2 & H3 & H4)
    by (unfold known_event_type in Hty; repeat split; intros ->; tauto).
  assert (scalers unfitted_bank !! ty = None) as H0.
  { unfold unfitted_bank. cbn [scalers].
    rewrite !lookup_insert_ne by congruence. apply lookup_empty. }
  change (AnomalyDetector_init sk w) with (fst (_initialize_models sk w unfitted_bank)).
  unfold _initialize_models, try_pass. cbn [fst].
  destruct (profiles_dir w) as [dir |]; [| exact H0].
  unfold bind at 1, lift at 1.
  destruct (collect_features _ _) as [e | f]; [exact H0 |].
  destruct (bind_fst_cases (fit_event_type sk "login" (login_rows f))
              (fun _ => (fit_event_type sk "transaction" (transaction_rows f) ;;
                         fit_event_type sk "session" (session_rows f) ;;
                         fit_event_type sk "feature_usage" (feature_usage_rows f))%py)
              unfitted_bank) as [-> | [[] ->]];
    [now rewrite fit_event_type_other |].
  destruct (bind_fst_cases (fit_event_type sk "transaction" (transaction_rows f))
              (fun _ => (fit_event_type sk "session" (session_rows f) ;;
                         fit_event_type sk "feature_usage" (feature_usage_rows f))%py)
              (fst (fit_event_type sk "login" (login_rows f) unfitted_bank)))
    as [-> | [[] ->]];
    [now rewrite !fit_event_type_other |].
  destruct (bind_fst_cases (fit_event_type sk "session" (session_rows f))
              (fun _ => fit_event_type sk "feature_usage" (feature_usage_rows f))
              (fst (fit_event_type sk "transaction" (transaction_rows f)
                      (fst (fit_event_type sk "login" (login_rows f) unfitted_bank)))))
    as [-> | [[] ->]];
    now rewrite !fit_event_type_other.
Qed.

(** Scoring an event of a type other than the four never returns: the
    features are read as for a session, and when the event carries a
    duration the lookup of the scaler raises [KeyError] on the type. *)
Theorem unknown_event_type_never_scores (sk : sklearn) (w : world) (p : FraudProfile)
    (ty : string) (ev : dict) :
  ~ known_event_type ty ->
  exists e : exn,
    detect_anomaly (AnomalyDetector_init sk w) p ty ev = inl e
    /\ ((exists duration, float_field "session_duration" ev = inr duration) ->
        e = KeyError ty).
Proof.
  intros Hty. unfold detect_anomaly, scaler_transform.
  rewrite (init_unknown_scaler sk w ty Hty).
  destruct (_extract_features p ty ev) as [e | features] eqn:Hf;
    cbn [mbind result_bind].
  - exists e. split; [reflexivity |]. intros (duration & Hd).
    unfold _extract_features, float_field in *.
    assert (ty <> "login" /\ ty <> "transaction" /\ ty <> "feature_usage")
      as (H1 & H2 & H3)
      by (unfold known_event_type in Hty; repeat split; intros ->; tauto).
    apply String.eqb_neq in H1, H2, H3. rewrite H1, H2, H3, Hd in Hf.
    cbn in Hf. congruence.
  - exists (KeyError ty). split; [reflexivity | auto].
Qed.

(** The hypothesis of [unknown_event_type_never_scores] holds for the type
    [logout], against a bank fitted on one snapshot. *)
Lemma unknown_event_type_never_scores_witness :
  exists e : exn,
    detect_anomaly (AnomalyDetector_init toy_sklearn one_snapshot_world)
      stored_once "logout" (session_event "2024-01-01T00:10:00" 30) = inl e
    /\ ((exists duration,
           float_field "session_duration" (session_event "2024-01-01T00:10:00" 30)
           = inr duration) ->
        e = KeyError "logout").
Proof.
  apply (unknown_event_type_never_scores toy_sklearn one_snapshot_world stored_once
           "logout" (session_event "2024-01-01T00:10:00" 30)).
  unfold known_event_type. intros [H | [H | [H | H]]]; congruence.
Defined.
